(** * RPIOUARTDriver: the virtual UART relayed over the raspilotio SPI bus

    A shallow embedding of [RPIOUARTDriver] (the second unit of
    [libraries/AP_Airspeed/AP_Airspeed.cpp]): [begin], [_write_fd],
    [_read_fd], [isExternal] and [_timer_tick], followed by the properties
    of the poll cycle, of the packets it builds and of initialisation.

    The driver runs against three collaborators whose code is elsewhere:
    the protocol header [px4io_protocol.h], the base class [UARTDriver]
    with its two [ByteBuffer]s, and the HAL (clock, scheduler, SPI device
    and its semaphore).  The first two are taken as parameters, the HAL is
    an explicit world threaded through every operation. *)

From Stdlib Require Import ZArith QArith List Bool Lia String.
Import ListNotations.
Open Scope Z_scope.

(** ** Machine integers *)

Definition uint16_t (z : Z) : Z := z mod 2 ^ 16.
Definition uint32_t (z : Z) : Z := z mod 2 ^ 32.

(** ** px4io_protocol.h *)

(** [struct IOPacket]; [regs] is the register array, one 16-bit value per
    entry. *)
Record IOPacket : Type := mkIOPacket {
  count_code : Z;
  crc : Z;
  page : Z;
  offset : Z;
  regs : list Z
}.

(** The constants and the checksum routine of the protocol header, which
    the driver uses by name only.  [PKT_COUNT_MASK] and [PKT_CODE_MASK]
    split [count_code] into its low (count) and high (opcode) bits. *)
Class px4io_protocol : Type := {
  PKT_MAX_REGS : nat;
  PKT_CODE_READ : Z;
  PKT_CODE_WRITE : Z;
  PKT_CODE_SPIUART : Z;
  PKT_COUNT_MASK : Z;
  PKT_CODE_MASK : Z;
  PX4IO_PAGE_UART_BUFFER : Z;
  crc_packet : IOPacket -> Z
}.

Definition PKT_COUNT `{px4io_protocol} (p : IOPacket) : Z :=
  Z.land (count_code p) PKT_COUNT_MASK.
Definition PKT_CODE `{px4io_protocol} (p : IOPacket) : Z :=
  Z.land (count_code p) PKT_CODE_MASK.

(** The register array seen through a [uint8_t *]: low byte first. *)
Definition bytes_of_regs (rs : list Z) : list Z :=
  flat_map (fun r => [r mod 256; (r / 256) mod 256]) rs.

Fixpoint regs_of_bytes (bs : list Z) : list Z :=
  match bs with
  | b0 :: b1 :: bs' => (b0 + 256 * b1) :: regs_of_bytes bs'
  | [b0] => [b0]
  | [] => []
  end.

(** Storing [bs] at the start of a zeroed array of [k] registers. *)
Definition store_bytes (k : nat) (bs : list Z) : list Z :=
  regs_of_bytes (firstn (2 * k) (bs ++ repeat 0 (2 * k))).

(** ** ByteBuffer *)

Module ByteBuffer.

(** Modelled from the spec: the ring buffer class behind [_readbuf] and
    [_writebuf] is missing; it is the bounded byte queue of the data
    model, first in first out, whose capacity is fixed by [set_size]. *)
Record t : Type := mk { bytes : list Z; size : Z }.

Definition empty : t := mk [] 0.
Definition set_size (n : Z) (b : t) : t := mk [] n.
Definition get_size (b : t) : Z := size b.
Definition available (b : t) : Z := Z.of_nat (List.length (bytes b)).
Definition space (b : t) : Z := Z.max 0 (size b - available b).

(** [read(data, len)]: removes and returns at most [len] bytes. *)
Definition read (len : Z) (b : t) : list Z * t :=
  let k := Z.to_nat (Z.min len (available b)) in
  (firstn k (bytes b), mk (skipn k (bytes b)) (size b)).

(** [write(data, len)]: appends at most [len] bytes of [data], as many as
    fit. *)
Definition write (data : list Z) (len : Z) (b : t) : t :=
  let k := Z.to_nat (Z.min len (space b)) in
  mk (bytes b ++ firstn k data) (size b).

End ByteBuffer.

(** ** The HAL world *)

(** What the driver does to the outside, most recent event first. *)
Inductive Event : Type :=
| EvTake (ok : bool)
| EvGive
| EvTransfer (tx rx : IOPacket)
| EvDelay (us : Z).

(** [hal_sem k] is the outcome of the [k]-th [take_nonblocking] and
    [hal_bus k tx] the packet received by the [k]-th [transfer]; both are
    chosen by the environment.  The clock is advanced by delays. *)
Record HAL : Type := mkHAL {
  hal_clock : Z;
  hal_sem : nat -> bool;
  hal_takes : nat;
  hal_bus : nat -> IOPacket -> IOPacket;
  hal_xfers : nat;
  hal_trace : list Event
}.

Definition micros (h : HAL) : Z := uint32_t (hal_clock h).

Definition take_nonblocking (h : HAL) : bool * HAL :=
  let ok := hal_sem h (hal_takes h) in
  (ok, mkHAL (hal_clock h) (hal_sem h) (S (hal_takes h)) (hal_bus h)
             (hal_xfers h) (EvTake ok :: hal_trace h)).

Definition give (h : HAL) : HAL :=
  mkHAL (hal_clock h) (hal_sem h) (hal_takes h) (hal_bus h) (hal_xfers h)
        (EvGive :: hal_trace h).

Definition transfer (tx : IOPacket) (h : HAL) : IOPacket * HAL :=
  let rx := hal_bus h (hal_xfers h) tx in
  (rx, mkHAL (hal_clock h) (hal_sem h) (hal_takes h) (hal_bus h)
             (S (hal_xfers h)) (EvTransfer tx rx :: hal_trace h)).

Definition delay_microseconds (us : Z) (h : HAL) : HAL :=
  mkHAL (hal_clock h + us) (hal_sem h) (hal_takes h) (hal_bus h)
        (hal_xfers h) (EvDelay us :: hal_trace h).

Definition delay (ms : Z) (h : HAL) : HAL := delay_microseconds (1000 * ms) h.

(** ** The driver object *)

(** The members of the base class [UARTDriver] that the driver touches. *)
Record UARTDriver : Type := mkUARTDriver {
  device_path : option string;
  _initialised : bool;
  _in_timer : bool;
  _readbuf : ByteBuffer.t;
  _writebuf : ByteBuffer.t
}.

(** The members of the driver itself.  [_dev], the handle of the SPI
    device that [begin] obtains, is the world: its semaphore and its
    transfers are [take_nonblocking], [give] and [transfer] above.  The
    timestamp is as wide as the clock it is read from, 32 bits. *)
Record RPIOUARTDriver : Type := mkRPIOUARTDriver {
  base : UARTDriver;
  _last_update_timestamp : Z;
  _external : bool;
  _need_set_baud : bool;
  _baudrate : Z
}.

(** The base class operations the driver delegates to; they see the base
    members only. *)
Class UARTDriver_ops : Type := {
  UARTDriver_begin : Z -> Z -> Z -> UARTDriver -> HAL -> UARTDriver * HAL;
  UARTDriver_timer_tick : UARTDriver -> HAL -> UARTDriver * HAL;
  UARTDriver_write_fd : list Z -> Z -> UARTDriver -> HAL -> Z * (UARTDriver * HAL);
  UARTDriver_read_fd : Z -> UARTDriver -> HAL -> Z * list Z * (UARTDriver * HAL)
}.

Definition is_initialized (u : UARTDriver) : bool := _initialised u.

Definition set_initialised (b : bool) (u : UARTDriver) : UARTDriver :=
  mkUARTDriver (device_path u) b (_in_timer u) (_readbuf u) (_writebuf u).
Definition set_in_timer (b : bool) (u : UARTDriver) : UARTDriver :=
  mkUARTDriver (device_path u) (_initialised u) b (_readbuf u) (_writebuf u).
Definition set_readbuf (r : ByteBuffer.t) (u : UARTDriver) : UARTDriver :=
  mkUARTDriver (device_path u) (_initialised u) (_in_timer u) r (_writebuf u).
Definition set_writebuf (w : ByteBuffer.t) (u : UARTDriver) : UARTDriver :=
  mkUARTDriver (device_path u) (_initialised u) (_in_timer u) (_readbuf u) w.

Definition with_base (u : UARTDriver) (s : RPIOUARTDriver) : RPIOUARTDriver :=
  mkRPIOUARTDriver u (_last_update_timestamp s) (_external s)
                   (_need_set_baud s) (_baudrate s).
Definition on_base (f : UARTDriver -> UARTDriver) (s : RPIOUARTDriver)
  : RPIOUARTDriver := with_base (f (base s)) s.
Definition set_last_update_timestamp (t : Z) (s : RPIOUARTDriver) : RPIOUARTDriver :=
  mkRPIOUARTDriver (base s) t (_external s) (_need_set_baud s) (_baudrate s).
Definition set_external (b : bool) (s : RPIOUARTDriver) : RPIOUARTDriver :=
  mkRPIOUARTDriver (base s) (_last_update_timestamp s) b (_need_set_baud s)
                   (_baudrate s).
Definition set_need_set_baud (b : bool) (s : RPIOUARTDriver) : RPIOUARTDriver :=
  mkRPIOUARTDriver (base s) (_last_update_timestamp s) (_external s) b
                   (_baudrate s).
Definition set_baudrate (b : Z) (s : RPIOUARTDriver) : RPIOUARTDriver :=
  mkRPIOUARTDriver (base s) (_last_update_timestamp s) (_external s)
                   (_need_set_baud s) b.

Definition RPIOUART_POLL_TIME_INTERVAL : Z := 10000.

(** The constructor: [UARTDriver(false)], no bus device, timestamp 0,
    virtual mode, nothing to negotiate, baud rate 0. *)
Definition RPIOUARTDriver_new (path : option string) : RPIOUARTDriver :=
  mkRPIOUARTDriver
    (mkUARTDriver path false false ByteBuffer.empty ByteBuffer.empty)
    0 false false 0.

(** ** Packets built by the driver *)

Definition set_count_code (v : Z) (p : IOPacket) : IOPacket :=
  mkIOPacket v (crc p) (page p) (offset p) (regs p).
Definition set_crc (v : Z) (p : IOPacket) : IOPacket :=
  mkIOPacket (count_code p) v (page p) (offset p) (regs p).
Definition set_page (v : Z) (p : IOPacket) : IOPacket :=
  mkIOPacket (count_code p) (crc p) v (offset p) (regs p).
Definition set_offset (v : Z) (p : IOPacket) : IOPacket :=
  mkIOPacket (count_code p) (crc p) (page p) v (regs p).
Definition set_regs (rs : list Z) (p : IOPacket) : IOPacket :=
  mkIOPacket (count_code p) (crc p) (page p) (offset p) rs.

(** [regs[i] = v]; an index outside the array is left alone. *)
Fixpoint store_reg (i : nat) (v : Z) (rs : list Z) : list Z :=
  match rs, i with
  | [], _ => []
  | _ :: rs', O => v :: rs'
  | r :: rs', S i' => r :: store_reg i' v rs'
  end.

Section Driver.

Context `{px4io_protocol} `{UARTDriver_ops}.

(** [struct IOPacket p = {0}] *)
Definition IOPacket_zero : IOPacket :=
  mkIOPacket 0 0 0 0 (repeat 0 PKT_MAX_REGS).

(** [p.crc = 0; p.crc = crc_packet(&p);] *)
Definition seal (p : IOPacket) : IOPacket :=
  let p0 := set_crc 0 p in set_crc (crc_packet p0) p0.

(** The packet of the baud rate block of [_timer_tick]. *)
Definition baud_packet (baudrate : Z) : IOPacket :=
  let p := IOPacket_zero in
  let p := set_count_code (Z.lor 2 PKT_CODE_WRITE) p in
  let p := set_page PX4IO_PAGE_UART_BUFFER p in
  let p := set_offset 0 p in
  let p := set_regs (store_reg 0 (Z.land baudrate 65535) (regs p)) p in
  let p := set_regs (store_reg 1 (Z.shiftr baudrate 16) (regs p)) p in
  seal p.

(** The packet that carries [n] bytes [data] taken from [_writebuf]. *)
Definition spiuart_packet (data : list Z) (n : Z) : IOPacket :=
  let p := IOPacket_zero in
  let p := set_regs (store_bytes PKT_MAX_REGS data) p in
  let p := set_count_code (Z.lor (Z.of_nat PKT_MAX_REGS) PKT_CODE_SPIUART) p in
  let p := set_page PX4IO_PAGE_UART_BUFFER p in
  let p := set_offset n p in
  seal p.

(** The same [_dma_packet_tx], rewritten to fetch the UART data. *)
Definition read_packet (p : IOPacket) : IOPacket :=
  let p := set_count_code (Z.lor 0 PKT_CODE_READ) p in
  let p := set_page 0 p in
  let p := set_offset 0 p in
  let p := set_regs (repeat 0 PKT_MAX_REGS) p in
  seal p.

(** ** RPIOUARTDriver *)

Definition isExternal (s : RPIOUARTDriver) : bool := _external s.

(** The number of bytes [_timer_tick] takes from [_writebuf] in one cycle:
    [n], after the two clamps. *)
Definition tx_count (s : RPIOUARTDriver) : Z :=
  let n := ByteBuffer.available (_writebuf (base s)) in
  let n := if n >? Z.of_nat PKT_MAX_REGS * 2 then Z.of_nat PKT_MAX_REGS * 2 else n in
  let _max_size :=
    uint16_t (_baudrate s / 10 / (1000000 / RPIOUART_POLL_TIME_INTERVAL)) in
  if n >? _max_size then _max_size else n.

(** The number of bytes of the answer [rx] that go to [_readbuf]. *)
Definition rx_count (s : RPIOUARTDriver) (rx : IOPacket) : Z :=
  let n := ByteBuffer.space (_readbuf (base s)) in
  let n := if n >? offset rx then offset rx else n in
  if n >? Z.of_nat PKT_MAX_REGS * 2 then Z.of_nat PKT_MAX_REGS * 2 else n.

(** [_timer_tick] from [if (!_initialised) return;] to its end. *)
Definition poll_cycle (s : RPIOUARTDriver) (h : HAL) : RPIOUARTDriver * HAL :=
  if negb (_initialised (base s)) then (s, h) else
  if uint32_t (micros h - _last_update_timestamp s) <? RPIOUART_POLL_TIME_INTERVAL
  then (s, h) else
  let s := on_base (set_in_timer true) s in
  let '(ok, h) := take_nonblocking h in
  if negb ok then (s, h) else
  let n := tx_count s in
  let '(data, wb) := ByteBuffer.read n (_writebuf (base s)) in
  let s := on_base (set_writebuf wb) s in
  let tx := spiuart_packet data n in
  let '(rx, h) := transfer tx h in
  let h := delay_microseconds 100 h in
  let tx := read_packet tx in
  let '(rx, h) := transfer tx h in
  let h := delay_microseconds 100 h in
  let h := give h in
  let s :=
    if page rx =? PX4IO_PAGE_UART_BUFFER
    then on_base (set_readbuf (ByteBuffer.write (bytes_of_regs (regs rx))
                                                (rx_count s rx)
                                                (_readbuf (base s)))) s
    else s in
  let s := on_base (set_in_timer false) s in
  let s := set_last_update_timestamp (micros h) s in
  (s, h).

(** The baud rate block at the head of [_timer_tick]; the flag tells
    whether the function returns from inside it. *)
Definition baud_block (s : RPIOUARTDriver) (h : HAL)
  : bool * (RPIOUARTDriver * HAL) :=
  if _need_set_baud s then
    if negb (_baudrate s =? 0) then
      let '(ok, h) := take_nonblocking h in
      if negb ok then (true, (s, h)) else
      let tx := baud_packet (_baudrate s) in
      let '(_, h) := transfer tx h in
      let h := delay 1 h in
      let h := give h in
      (false, (set_need_set_baud false s, h))
    else (false, (set_need_set_baud false s, h))
  else (false, (s, h)).

Definition _timer_tick (s : RPIOUARTDriver) (h : HAL) : RPIOUARTDriver * HAL :=
  if _external s then
    let '(u, h) := UARTDriver_timer_tick (base s) h in (with_base u s, h)
  else
  let '(returned, (s, h)) := baud_block s h in
  if returned then (s, h) else poll_cycle s h.

Definition _write_fd (buf : list Z) (n : Z) (s : RPIOUARTDriver) (h : HAL)
  : Z * (RPIOUARTDriver * HAL) :=
  if _external s then
    let '(r, (u, h)) := UARTDriver_write_fd buf n (base s) h in
    (r, (with_base u s, h))
  else (-1, (s, h)).

Definition _read_fd (n : Z) (s : RPIOUARTDriver) (h : HAL)
  : Z * list Z * (RPIOUARTDriver * HAL) :=
  if _external s then
    let '(r, (u, h)) := UARTDriver_read_fd n (base s) h in
    (r, (with_base u s, h))
  else (-1, [], (s, h)).

(** [hal.scheduler->delay(ms)] called by the application context: the
    caller sleeps and the timer context runs [_timer_tick] meanwhile. *)
Definition scheduler_delay (ms : Z) (s : RPIOUARTDriver) (h : HAL)
  : RPIOUARTDriver * HAL :=
  _timer_tick s (delay ms h).

(** [while (flag) hal.scheduler->delay(1);], [None] when the fuel runs out
    with the flag still set. *)
Fixpoint wait_while (flag : RPIOUARTDriver -> bool) (fuel : nat)
  (s : RPIOUARTDriver) (h : HAL) : option (RPIOUARTDriver * HAL) :=
  match fuel with
  | O => None
  | S fuel' =>
      if flag s then
        let '(s', h') := scheduler_delay 1 s h in wait_while flag fuel' s' h'
      else Some (s, h)
  end.

(** [begin] after the delegation to the hardware UART: the packet protocol
    is set up and the caller waits for the baud rate to be sent. *)
Definition begin_virtual (fuel : nat) (b rxS txS : Z) (s : RPIOUARTDriver)
  (h : HAL) : option (RPIOUARTDriver * HAL) :=
  let rxS := if rxS <? 1024 then 2048 else rxS in
  let txS := if txS <? 1024 then 2048 else txS in
  let s := on_base (set_initialised false) s in
  match wait_while (fun s => _in_timer (base s)) fuel s h with
  | None => None
  | Some (s, h) =>
      let s := on_base (fun u => set_readbuf (ByteBuffer.set_size rxS (_readbuf u)) u) s in
      let s := on_base (fun u => set_writebuf (ByteBuffer.set_size txS (_writebuf u)) u) s in
      let s := set_baudrate b s in
      let s := set_need_set_baud true s in
      match wait_while _need_set_baud fuel s h with
      | None => None
      | Some (s, h) =>
          if negb (ByteBuffer.get_size (_writebuf (base s)) =? 0)
             && negb (ByteBuffer.get_size (_readbuf (base s)) =? 0)
          then Some (on_base (set_initialised true) s, h)
          else Some (s, h)
      end
  end.

(** Whether [begin] returns from its first block, in external mode. *)
Definition hardware_uart_ready (b rxS txS : Z) (s : RPIOUARTDriver) (h : HAL)
  : bool :=
  match device_path (base s) with
  | Some _ => is_initialized (fst (UARTDriver_begin b rxS txS (base s) h))
  | None => false
  end.

Definition begin (fuel : nat) (b rxS txS : Z) (s : RPIOUARTDriver) (h : HAL)
  : option (RPIOUARTDriver * HAL) :=
  match device_path (base s) with
  | Some _ =>
      let '(u, h) := UARTDriver_begin b rxS txS (base s) h in
      let s := with_base u s in
      if is_initialized u then Some (set_external true s, h)
      else begin_virtual fuel b rxS txS s h
  | None => begin_virtual fuel b rxS txS s h
  end.

(** A poll cycle is serviced when [_timer_tick] gets past all its early
    returns: virtual mode, the baud rate block left normally, the driver
    initialised, the poll interval elapsed and the semaphore taken. *)
Definition serviced (s : RPIOUARTDriver) (h : HAL) : bool :=
  negb (_external s) &&
  let '(returned, (s1, h1)) := baud_block s h in
  negb returned
  && _initialised (base s1)
  && negb (uint32_t (micros h1 - _last_update_timestamp s1)
           <? RPIOUART_POLL_TIME_INTERVAL)
  && hal_sem h1 (hal_takes h1).

End Driver.

(** ** Reading the trace *)

(** The events added to the trace between two worlds. *)
Definition events_since (h h' : HAL) : list Event :=
  firstn (List.length (hal_trace h') - List.length (hal_trace h)) (hal_trace h').

(** The most recent transfer of a trace: what was sent, what came back. *)
Fixpoint last_transfer (tr : list Event) : option (IOPacket * IOPacket) :=
  match tr with
  | [] => None
  | EvTransfer tx rx :: _ => Some (tx, rx)
  | _ :: tr' => last_transfer tr'
  end.

Definition is_bus_event (e : Event) : bool :=
  match e with
  | EvTake _ | EvGive | EvTransfer _ _ => true
  | EvDelay _ => false
  end.

(** The bytes taken from [_writebuf] between two states. *)
Definition drained (s s' : RPIOUARTDriver) : Z :=
  ByteBuffer.available (_writebuf (base s))
  - ByteBuffer.available (_writebuf (base s')).

(** The bytes added to [_readbuf] between two states. *)
Definition appended (s s' : RPIOUARTDriver) : list Z :=
  skipn (List.length (ByteBuffer.bytes (_readbuf (base s))))
        (ByteBuffer.bytes (_readbuf (base s'))).

(** ** The handshake between [begin] and the timer context *)

(** [begin] never has a baud rate request pending on an initialised
    driver, and no tick changes that. *)
Definition handshake_inv (s : RPIOUARTDriver) : Prop :=
  _need_set_baud s = true -> _initialised (base s) = false.

(** ** A concrete protocol, two hardware UARTs and some worlds *)

Fixpoint crc8_shift (k : nat) (c : Z) : Z :=
  match k with
  | O => c
  | S k' =>
      let c' := Z.shiftl c 1 mod 256 in
      crc8_shift k' (if Z.testbit c 7 then Z.lxor c' 7 else c')
  end.

Definition crc8 (bs : list Z) : Z :=
  fold_left (fun c b => crc8_shift 8 (Z.lxor c (b mod 256))) bs 0.

Definition packet_bytes (p : IOPacket) : list Z :=
  [count_code p; crc p; page p; offset p] ++ bytes_of_regs (regs p).

(** Modelled from the spec: the protocol header is missing.  The count
    sits in the low bits of [count_code] and a two-bit opcode in the high
    bits, the opcodes are READ, WRITE and the bulk UART transfer, there is
    one UART buffer page, and the integrity value is computed over the
    packet with its own field at zero.  The spec leaves the numbers open;
    these are the ones of the PX4IO protocol, with a CRC-8 for the
    integrity value. *)
Definition raspilotio : px4io_protocol := {|
  PKT_MAX_REGS := 32;
  PKT_CODE_READ := 0;
  PKT_CODE_WRITE := 64;
  PKT_CODE_SPIUART := 192;
  PKT_COUNT_MASK := 63;
  PKT_CODE_MASK := 192;
  PX4IO_PAGE_UART_BUFFER := 120;
  crc_packet := fun p => crc8 (packet_bytes p)
|}.

(** What a theorem about the two halves of [count_code] needs from the
    header: the masks separate the opcodes from the counts in use. *)
Definition protocol_wf `{px4io_protocol} : Prop :=
  (2 <= PKT_MAX_REGS)%nat
  /\ Z.land PKT_CODE_READ PKT_COUNT_MASK = 0
  /\ Z.land PKT_CODE_WRITE PKT_COUNT_MASK = 0
  /\ Z.land PKT_CODE_SPIUART PKT_COUNT_MASK = 0
  /\ Z.land PKT_CODE_READ PKT_CODE_MASK = PKT_CODE_READ
  /\ Z.land PKT_CODE_WRITE PKT_CODE_MASK = PKT_CODE_WRITE
  /\ Z.land PKT_CODE_SPIUART PKT_CODE_MASK = PKT_CODE_SPIUART
  /\ Z.land 2 PKT_COUNT_MASK = 2
  /\ Z.land 2 PKT_CODE_MASK = 0
  /\ Z.land (Z.of_nat PKT_MAX_REGS) PKT_COUNT_MASK = Z.of_nat PKT_MAX_REGS
  /\ Z.land (Z.of_nat PKT_MAX_REGS) PKT_CODE_MASK = 0.

(** Modelled from the spec: the hardware UART is missing.  This one is a
    board whose serial device cannot be opened: [begin] leaves it
    uninitialised and nothing else has an effect. *)
Definition uart_unavailable : UARTDriver_ops := {|
  UARTDriver_begin := fun _ _ _ u h => (set_initialised false u, h);
  UARTDriver_timer_tick := fun u h => (u, h);
  UARTDriver_write_fd := fun _ _ u h => (-1, (u, h));
  UARTDriver_read_fd := fun _ u h => (-1, [], (u, h))
|}.

(** Modelled from the spec: the hardware UART is missing.  This one opens
    its device: [begin] sizes the buffers and marks it initialised; writes
    are queued and reads are served from the buffers. *)
Definition uart_available : UARTDriver_ops := {|
  UARTDriver_begin := fun _ rxS txS u h =>
    (set_initialised true
       (set_readbuf (ByteBuffer.set_size rxS (_readbuf u))
          (set_writebuf (ByteBuffer.set_size txS (_writebuf u)) u)), h);
  UARTDriver_timer_tick := fun u h => (u, h);
  UARTDriver_write_fd := fun buf n u h =>
    let w := ByteBuffer.write buf n (_writebuf u) in
    (ByteBuffer.available w - ByteBuffer.available (_writebuf u),
     (set_writebuf w u, h));
  UARTDriver_read_fd := fun n u h =>
    let '(data, r) := ByteBuffer.read n (_readbuf u) in
    (Z.of_nat (List.length data), data, (set_readbuf r u, h))
|}.

(** A world at clock [t] whose semaphore and bus follow [sem] and [bus]. *)
Definition world (t : Z) (sem : nat -> bool) (bus : nat -> IOPacket -> IOPacket)
  : HAL := mkHAL t sem 0 bus 0 [].

Definition sem_free : nat -> bool := fun _ => true.
Definition sem_busy : nat -> bool := fun _ => false.

(** A remote side that answers every transfer with the packet [p]. *)
Definition bus_answers (p : IOPacket) : nat -> IOPacket -> IOPacket :=
  fun _ _ => p.

(** A remote side with nothing to say: every field zero. *)
Definition bus_silent : nat -> IOPacket -> IOPacket :=
  bus_answers (mkIOPacket 0 0 0 0 (repeat 0 32)).

(** An answer on the UART buffer page that reports three bytes. *)
Definition uart_answer : IOPacket :=
  mkIOPacket 0 0 120 3 (store_bytes 32 [1; 2; 3]).

(** An answer on the UART buffer page that reports two hundred bytes, more
    than a packet holds, seen with eight registers' worth of what lies
    behind the array. *)
Definition long_answer : IOPacket :=
  mkIOPacket 0 0 120 200 (repeat 257 32 ++ repeat 65535 8).

(** The driver as a completed virtual-mode [begin] leaves it, with
    [pending] waiting in [_writebuf]. *)
Definition running (baud : Z) (pending : list Z) : RPIOUARTDriver :=
  mkRPIOUARTDriver
    (mkUARTDriver None true false (ByteBuffer.mk [] 2048)
                  (ByteBuffer.mk pending 2048))
    0 false false baud.

(** The driver while [begin] waits for the baud rate to be sent. *)
Definition negotiating (baud : Z) : RPIOUARTDriver :=
  mkRPIOUARTDriver
    (mkUARTDriver None false false (ByteBuffer.mk [] 2048)
                  (ByteBuffer.mk [] 2048))
    0 false true baud.

(** A semaphore that is busy for the first [k] attempts and free after. *)
Definition sem_free_from (k : nat) : nat -> bool := fun i => (k <=? i)%nat.

(** A remote side that answers the second transfer of a cycle, the read
    request, with the packet [p] and every other transfer with zeros. *)
Definition bus_loops_back (p : IOPacket) : nat -> IOPacket -> IOPacket :=
  fun k _ => if Nat.odd k then p else mkIOPacket 0 0 0 0 (repeat 0 32).

(** Modelled from the spec: the hardware UART is missing.  This one has a
    serial device that is there until the clock reads one second and gone
    after: [begin] initialises it before and leaves it uninitialised after. *)
Definition uart_unplugged : UARTDriver_ops := {|
  UARTDriver_begin := fun _ rxS txS u h =>
    if hal_clock h <? 1000000
    then (set_initialised true
            (set_readbuf (ByteBuffer.set_size rxS (_readbuf u))
               (set_writebuf (ByteBuffer.set_size txS (_writebuf u)) u)), h)
    else (set_initialised false u, h);
  UARTDriver_timer_tick := fun u h => (u, h);
  UARTDriver_write_fd := fun _ _ u h => (-1, (u, h));
  UARTDriver_read_fd := fun _ u h => (-1, [], (u, h))
|}.

(** ** The semaphore discipline *)

(** Reads a stretch of events, oldest first, with [held] telling whether
    the semaphore is held on the way in: a transfer or a release needs the
    semaphore, an attempt needs it free, and the stretch must end with it
    free. *)
Fixpoint well_bracketed (held : bool) (evs : list Event) : bool :=
  match evs with
  | [] => negb held
  | EvTake ok :: evs' => negb held && well_bracketed ok evs'
  | EvGive :: evs' => held && well_bracketed false evs'
  | EvTransfer _ _ :: evs' => held && well_bracketed held evs'
  | EvDelay _ :: evs' => well_bracketed held evs'
  end.

(** * AP_Airspeed: the airspeed sensor front end

    The first unit of the file: [get_pressure], [get_temperature],
    [calibrate], [update_calibration], [read] and [setHIL].  The members
    that only the constructor and [init] touch are left out. *)

Module AP_Airspeed.

(** The arithmetic on [float] that the unit uses, by name only: no
    property below depends on what the operations compute.  [MAX] is the
    macro of AP_Math. *)
Class float_ops : Type := {
  float : Type;
  f_of_Z : Z -> float;
  f_0_7 : float;
  f_0_3 : float;
  f_add : float -> float -> float;
  f_sub : float -> float -> float;
  f_mul : float -> float -> float;
  f_div : float -> float -> float;
  f_neg : float -> float;
  f_lt : float -> float -> bool;
  fabsf : float -> float;
  sqrtf : float -> float;
  MAX : float -> float -> float
}.

(** The virtual pin of the digital sensor. *)
Definition AP_AIRSPEED_I2C_PIN : Z := 65.

(** [enum pitot_tube_order], numbered as the description of the
    TUBE_ORDER parameter has it. *)
Definition PITOT_TUBE_ORDER_POSITIVE : Z := 0.
Definition PITOT_TUBE_ORDER_NEGATIVE : Z := 1.
Definition PITOT_TUBE_ORDER_AUTO : Z := 2.

Section Unit.

Context `{float_ops}.

(** What the unit does to the board, most recent event first. *)
Inductive Event : Type :=
| EvAnalog
| EvDigital
| EvTemperature
| EvStatusText (text : string)
| EvSaveOffset (value : float).

(** The board: the millisecond clock, the two pressure backends and the
    temperature of the digital one, each answering its [k]-th consultation
    as the environment chooses, [calls] consultations so far. *)
Record Board : Type := mkBoard {
  millis_at : nat -> Z;
  analog_at : nat -> bool * float;
  digital_at : nat -> bool * float;
  temperature_at : nat -> bool * float;
  calls : nat;
  log : list Event
}.

Definition consult (e : list Event) (b : Board) : Board :=
  mkBoard (millis_at b) (analog_at b) (digital_at b) (temperature_at b)
          (S (calls b)) (e ++ log b).

Definition note (e : Event) (b : Board) : Board :=
  mkBoard (millis_at b) (analog_at b) (digital_at b) (temperature_at b)
          (calls b) (e :: log b).

(** [AP_HAL::millis()], a 32-bit count. *)
Definition millis (b : Board) : Z * Board :=
  (uint32_t (millis_at b (calls b)), consult [] b).

(** [get_differential_pressure(pressure)] of a backend: whether it
    succeeded and what [pressure] holds afterwards. *)
Definition analog_get_differential_pressure (b : Board) : bool * float * Board :=
  (analog_at b (calls b), consult [EvAnalog] b).
Definition digital_get_differential_pressure (b : Board) : bool * float * Board :=
  (digital_at b (calls b), consult [EvDigital] b).
Definition digital_get_temperature (b : Board) : bool * float * Board :=
  (temperature_at b (calls b), consult [EvTemperature] b).

(** [struct { start_ms; count; sum; read_count; } _cal] *)
Record cal_t : Type := mkCal {
  start_ms : Z;
  count : Z;
  sum : float;
  read_count : Z
}.

Record t : Type := mk {
  _enable : Z;
  _offset : float;
  _ratio : float;
  _pin : Z;
  _tube_order : Z;
  _skip_cal : Z;
  _hil_set : bool;
  _hil_pressure : float;
  _healthy : bool;
  _last_pressure : float;
  _raw_airspeed : float;
  _airspeed : float;
  _corrected_pressure : float;
  _last_update_ms : Z;
  _cal : cal_t
}.

Definition set_healthy (v : bool) (a : t) : t :=
  mk (_enable a) (_offset a) (_ratio a) (_pin a) (_tube_order a) (_skip_cal a)
     (_hil_set a) (_hil_pressure a) v (_last_pressure a) (_raw_airspeed a)
     (_airspeed a) (_corrected_pressure a) (_last_update_ms a) (_cal a).
Definition set_offset (v : float) (a : t) : t :=
  mk (_enable a) v (_ratio a) (_pin a) (_tube_order a) (_skip_cal a)
     (_hil_set a) (_hil_pressure a) (_healthy a) (_last_pressure a)
     (_raw_airspeed a) (_airspeed a) (_corrected_pressure a)
     (_last_update_ms a) (_cal a).
Definition set_cal (c : cal_t) (a : t) : t :=
  mk (_enable a) (_offset a) (_ratio a) (_pin a) (_tube_order a) (_skip_cal a)
     (_hil_set a) (_hil_pressure a) (_healthy a) (_last_pressure a)
     (_raw_airspeed a) (_airspeed a) (_corrected_pressure a)
     (_last_update_ms a) c.

(** [_offset.set_and_save(v)] *)
Definition set_and_save_offset (v : float) (a : t) (b : Board) : t * Board :=
  (set_offset v a, note (EvSaveOffset v) b).

(** [GCS_MAVLINK::send_statustext_all(MAV_SEVERITY_INFO, text)] *)
Definition send_statustext_all (text : string) (b : Board) : Board :=
  note (EvStatusText text) b.

Definition get_pressure (a : t) (b : Board) : float * (t * Board) :=
  if _enable a =? 0 then (f_of_Z 0, (a, b)) else
  if _hil_set a then (_hil_pressure a, (set_healthy true a, b)) else
  if _pin a =? AP_AIRSPEED_I2C_PIN then
    let '(ok, pressure, b) := digital_get_differential_pressure b in
    (pressure, (set_healthy ok a, b))
  else
    let '(ok, pressure, b) := analog_get_differential_pressure b in
    (pressure, (set_healthy ok a, b)).

(** The temperature comes back as [Some] when the call returns true. *)
Definition get_temperature (a : t) (b : Board) : option float * Board :=
  if _enable a =? 0 then (None, b) else
  if _pin a =? AP_AIRSPEED_I2C_PIN then
    let '(ok, temperature, b) := digital_get_temperature b in
    ((if ok then Some temperature else None), b)
  else (None, b).

Definition calibrate (in_startup : bool) (a : t) (b : Board) : t * Board :=
  if _enable a =? 0 then (a, b) else
  if in_startup && negb (_skip_cal a =? 0) then (a, b) else
  let '(_, (a, b)) := get_pressure a b in
  let '(now, b) := millis b in
  (set_cal (mkCal now 0 (f_of_Z 0) 0) a, b).

Definition update_calibration (raw_pressure : float) (a : t) (b : Board)
  : t * Board :=
  let '(now, b) := millis b in
  if (1000 <=? uint32_t (now - start_ms (_cal a)))
     && (10 <? read_count (_cal a)) then
    let '(a, b) :=
      if count (_cal a) =? 0 then
        (a, send_statustext_all "Airspeed sensor unhealthy" b)
      else
        let b := send_statustext_all "Airspeed sensor calibrated" b in
        set_and_save_offset (f_div (sum (_cal a)) (f_of_Z (count (_cal a)))) a b in
    (set_cal (mkCal 0 (count (_cal a)) (sum (_cal a)) (read_count (_cal a))) a, b)
  else
    let c := _cal a in
    let c :=
      if _healthy a
      then mkCal (start_ms c) (count c + 1) (f_add (sum c) raw_pressure) (read_count c)
      else c in
    let c := mkCal (start_ms c) (count c) (sum c) (read_count c + 1) in
    (set_cal c a, b).

Definition read (a : t) (b : Board) : t * Board :=
  if _enable a =? 0 then (a, b) else
  let '(raw_pressure, (a, b)) := get_pressure a b in
  let '(a, b) :=
    if negb (start_ms (_cal a) =? 0) then update_calibration raw_pressure a b
    else (a, b) in
  let airspeed_pressure := f_sub raw_pressure (_offset a) in
  let corrected := airspeed_pressure in
  let '(airspeed_pressure, healthy) :=
    if _tube_order a =? PITOT_TUBE_ORDER_NEGATIVE then
      let p := f_neg airspeed_pressure in
      (p, if f_lt p (f_of_Z (-32)) then false else _healthy a)
    else if _tube_order a =? PITOT_TUBE_ORDER_POSITIVE then
      (airspeed_pressure,
       if f_lt airspeed_pressure (f_of_Z (-32)) then false else _healthy a)
    else (fabsf airspeed_pressure, _healthy a) in
  let airspeed_pressure := MAX airspeed_pressure (f_of_Z 0) in
  let raw_airspeed := sqrtf (f_mul airspeed_pressure (_ratio a)) in
  let airspeed := f_add (f_mul f_0_7 (_airspeed a)) (f_mul f_0_3 raw_airspeed) in
  let '(now, b) := millis b in
  (mk (_enable a) (_offset a) (_ratio a) (_pin a) (_tube_order a) (_skip_cal a)
      (_hil_set a) (_hil_pressure a) healthy airspeed_pressure raw_airspeed
      airspeed corrected now (_cal a),
   b).


(** [n] calls of [read] in a row. *)
Fixpoint reads (n : nat) (a : t) (b : Board) : t * Board :=
  match n with
  | O => (a, b)
  | S n' => let '(a, b) := read a b in reads n' a b
  end.

(** Whether a calibration is under way. *)
Definition calibrating (a : t) : bool := negb (start_ms (_cal a) =? 0).

(** Whether the log holds a saved offset or a status text. *)
Definition reported (e : Event) : bool :=
  match e with
  | EvStatusText _ | EvSaveOffset _ => true
  | _ => false
  end.

End Unit.

End AP_Airspeed.

(** ** A board to run the airspeed front end on *)

(** A square root on rationals, to three decimals, rounded down. *)
Definition Qsqrt_down (q : Q) : Q :=
  (Z.sqrt (Qnum q * 1000000 / Z.pos (Qden q)) # 1000)%Q.

(** Exact rational arithmetic standing in for [float] when an example is
    run; [MAX] is [((a) > (b) ? (a) : (b))]. *)
Definition rational_floats : AP_Airspeed.float_ops := {|
  AP_Airspeed.float := Q;
  AP_Airspeed.f_of_Z := inject_Z;
  AP_Airspeed.f_0_7 := (7 # 10)%Q;
  AP_Airspeed.f_0_3 := (3 # 10)%Q;
  AP_Airspeed.f_add := Qplus;
  AP_Airspeed.f_sub := Qminus;
  AP_Airspeed.f_mul := Qmult;
  AP_Airspeed.f_div := Qdiv;
  AP_Airspeed.f_neg := Qopp;
  AP_Airspeed.f_lt := fun x y => negb (Qle_bool y x);
  AP_Airspeed.fabsf := fun x => if Qle_bool 0 x then x else Qopp x;
  AP_Airspeed.sqrtf := Qsqrt_down;
  AP_Airspeed.MAX := fun x y => if negb (Qle_bool x y) then x else y
|}.

(** A board whose clock reads [t0] at the first consultation and a
    hundred milliseconds more at each following one, with an analog sensor
    that reports [p] and a digital one that fails. *)
Definition bench (t0 : Z) (p : Q) : @AP_Airspeed.Board rational_floats :=
  @AP_Airspeed.mkBoard rational_floats
    (fun k => t0 + 100 * Z.of_nat k)
    (fun _ => (true, p))
    (fun _ => (false, 0%Q))
    (fun _ => (false, 0%Q))
    0 [].

(** The front end with the parameter defaults of [var_info] (ENABLE 1,
    OFFSET 0, RATIO 1.9936, TUBE_ORDER 2, SKIP_CAL 0) on the analog pin 15,
    nothing read yet. *)
Definition pitot : @AP_Airspeed.t rational_floats :=
  @AP_Airspeed.mk rational_floats
    1 0%Q (19936 # 10000)%Q 15 2 0 false 0%Q false 0%Q 0%Q 0%Q 0%Q 0
    (@AP_Airspeed.mkCal rational_floats 0 0 0%Q 0).

(** The same front end with ENABLE at zero. *)
Definition pitot_disabled : @AP_Airspeed.t rational_floats :=
  @AP_Airspeed.mk rational_floats
    0 0%Q (19936 # 10000)%Q 15 2 0 false 0%Q false 0%Q 0%Q 0%Q 0%Q 0
    (@AP_Airspeed.mkCal rational_floats 0 0 0%Q 0).

(** * Properties *)

Section Properties.

Context `{px4io_protocol} `{UARTDriver_ops}.

(** ** The trace only grows *)

Lemma events_since_app (h h' : HAL) (later : list Event) :
  hal_trace h' = later ++ hal_trace h -> events_since h h' = later.
Proof.
  intros E. unfold events_since. rewrite E, length_app.
  replace (List.length later + List.length (hal_trace h) - List.length (hal_trace h))%nat
    with (List.length later + 0)%nat by lia.
  rewrite firstn_app_2. simpl. apply app_nil_r.
Qed.

Lemma events_since_refl (h : HAL) : events_since h h = [].
Proof. apply events_since_app. reflexivity. Qed.

(** ** The baud rate block *)

(** The block touches [_need_set_baud] and nothing else of the driver. *)
Lemma baud_block_frame (s s1 : RPIOUARTDriver) (h h1 : HAL) (r : bool) :
  baud_block s h = (r, (s1, h1)) ->
  base s1 = base s
  /\ _last_update_timestamp s1 = _last_update_timestamp s
  /\ _external s1 = _external s
  /\ _baudrate s1 = _baudrate s
  /\ (r = true -> s1 = s).
Proof.
  unfold baud_block.
  destruct (_need_set_baud s); [destruct (_baudrate s =? 0)|]; simpl.
  - intros E; inversion E; subst; simpl. repeat split; congruence.
  - destruct (hal_sem h (hal_takes h)); simpl; intros E; inversion E; subst;
      simpl; repeat split; congruence.
  - intros E; inversion E; subst. repeat split; congruence.
Qed.

(** Nothing to negotiate, or a baud rate of zero: the block does not touch
    the world and clears the request. *)
Lemma baud_block_idle (s : RPIOUARTDriver) (h : HAL) :
  _need_set_baud s && negb (_baudrate s =? 0) = false ->
  baud_block s h = (false, (set_need_set_baud false s, h)).
Proof.
  unfold baud_block. destruct s as [u t e n b]; simpl.
  destruct n; simpl; [|reflexivity].
  destruct (b =? 0); simpl; [reflexivity|discriminate].
Qed.

(** A request with a baud rate: the semaphore decides. *)
Lemma baud_block_busy (s : RPIOUARTDriver) (h : HAL) :
  _need_set_baud s && negb (_baudrate s =? 0) = true ->
  hal_sem h (hal_takes h) = false ->
  baud_block s h = (true, (s, snd (take_nonblocking h))).
Proof.
  unfold baud_block. intros E F. apply andb_true_iff in E as [-> ->].
  simpl. rewrite F. reflexivity.
Qed.

Lemma baud_block_sent (s : RPIOUARTDriver) (h : HAL) :
  _need_set_baud s && negb (_baudrate s =? 0) = true ->
  hal_sem h (hal_takes h) = true ->
  baud_block s h =
    (false,
     (set_need_set_baud false s,
      give (delay 1 (snd (transfer (baud_packet (_baudrate s))
                                   (snd (take_nonblocking h))))))).
Proof.
  unfold baud_block. intros E F. apply andb_true_iff in E as [-> ->].
  simpl. rewrite F. reflexivity.
Qed.

Lemma baud_block_trace (s s1 : RPIOUARTDriver) (h h1 : HAL) (r : bool) :
  baud_block s h = (r, (s1, h1)) ->
  exists later, hal_trace h1 = later ++ hal_trace h
    /\ forall tx rx, In (EvTransfer tx rx) later -> tx = baud_packet (_baudrate s).
Proof.
  destruct (_need_set_baud s && negb (_baudrate s =? 0)) eqn:E.
  - destruct (hal_sem h (hal_takes h)) eqn:F.
    + rewrite (baud_block_sent _ _ E F). intros X; inversion X; subst; simpl.
      rewrite F.
      eexists [EvGive; EvDelay (1000 * 1); EvTransfer _ _; EvTake true].
      split; [reflexivity|]. simpl. intros tx rx [X'|[X'|[X'|[X'|[]]]]];
        congruence.
    + rewrite (baud_block_busy _ _ E F). intros X; inversion X; subst; simpl.
      rewrite F. exists [EvTake false]. split; [reflexivity|].
      simpl. intros tx rx [X'|[]]; congruence.
  - rewrite (baud_block_idle _ _ E). intros X; inversion X; subst.
    exists []. split; [reflexivity|]. simpl; tauto.
Qed.

(** ** The poll cycle *)

Lemma poll_cycle_uninitialised (s : RPIOUARTDriver) (h : HAL) :
  _initialised (base s) = false -> poll_cycle s h = (s, h).
Proof. unfold poll_cycle. intros ->. reflexivity. Qed.

Lemma poll_cycle_too_early (s : RPIOUARTDriver) (h : HAL) :
  uint32_t (micros h - _last_update_timestamp s) < RPIOUART_POLL_TIME_INTERVAL ->
  poll_cycle s h = (s, h).
Proof.
  unfold poll_cycle. intros L. apply Z.ltb_lt in L. rewrite L.
  destruct (_initialised (base s)); reflexivity.
Qed.

Lemma poll_cycle_busy (s : RPIOUARTDriver) (h : HAL) :
  _initialised (base s) = true ->
  RPIOUART_POLL_TIME_INTERVAL <= uint32_t (micros h - _last_update_timestamp s) ->
  hal_sem h (hal_takes h) = false ->
  poll_cycle s h = (on_base (set_in_timer true) s, snd (take_nonblocking h)).
Proof.
  unfold poll_cycle. intros -> L F. apply Z.ltb_ge in L. rewrite L. simpl.
  rewrite F. reflexivity.
Qed.

(** The cycle that gets the semaphore, step by step. *)
Lemma poll_cycle_serviced (s : RPIOUARTDriver) (h : HAL) :
  _initialised (base s) = true ->
  RPIOUART_POLL_TIME_INTERVAL <= uint32_t (micros h - _last_update_timestamp s) ->
  hal_sem h (hal_takes h) = true ->
  let n := tx_count s in
  let data := fst (ByteBuffer.read n (_writebuf (base s))) in
  let wb := snd (ByteBuffer.read n (_writebuf (base s))) in
  let tx := spiuart_packet data n in
  let h1 := snd (take_nonblocking h) in
  let h2 := delay_microseconds 100 (snd (transfer tx h1)) in
  let rx := fst (transfer (read_packet tx) h2) in
  let h3 := give (delay_microseconds 100 (snd (transfer (read_packet tx) h2))) in
  let rb :=
    if page rx =? PX4IO_PAGE_UART_BUFFER
    then ByteBuffer.write (bytes_of_regs (regs rx)) (rx_count s rx)
                          (_readbuf (base s))
    else _readbuf (base s) in
  poll_cycle s h =
    (mkRPIOUARTDriver
       (mkUARTDriver (device_path (base s)) true false rb wb)
       (micros h3) (_external s) (_need_set_baud s) (_baudrate s),
     h3).
Proof.
  destruct s as [[dp ini it rb wb] t e n b]. unfold poll_cycle. simpl.
  intros -> L F. apply Z.ltb_ge in L. rewrite L. simpl. rewrite F. simpl.
  destruct (page _ =? PX4IO_PAGE_UART_BUFFER); reflexivity.
Qed.

Lemma poll_cycle_serviced_writebuf (s : RPIOUARTDriver) (h : HAL) :
  _initialised (base s) = true ->
  RPIOUART_POLL_TIME_INTERVAL <= uint32_t (micros h - _last_update_timestamp s) ->
  hal_sem h (hal_takes h) = true ->
  _writebuf (base (fst (poll_cycle s h)))
    = snd (ByteBuffer.read (tx_count s) (_writebuf (base s))).
Proof. intros I L F. rewrite (poll_cycle_serviced _ _ I L F). reflexivity. Qed.

(** What the serviced cycle adds to the trace. *)
Lemma poll_cycle_serviced_trace (s : RPIOUARTDriver) (h : HAL) :
  _initialised (base s) = true ->
  RPIOUART_POLL_TIME_INTERVAL <= uint32_t (micros h - _last_update_timestamp s) ->
  hal_sem h (hal_takes h) = true ->
  let n := tx_count s in
  let tx := spiuart_packet (fst (ByteBuffer.read n (_writebuf (base s)))) n in
  exists rx1 rx,
    hal_trace (snd (poll_cycle s h)) =
      [EvGive; EvDelay 100; EvTransfer (read_packet tx) rx; EvDelay 100;
       EvTransfer tx rx1; EvTake true] ++ hal_trace h
    /\ rx = fst (transfer (read_packet tx)
                   (delay_microseconds 100
                      (snd (transfer tx (snd (take_nonblocking h)))))).
Proof.
  intros I L F. rewrite (poll_cycle_serviced _ _ I L F). simpl. rewrite F.
  eexists _, _. split; reflexivity.
Qed.

Lemma poll_cycle_trace (s : RPIOUARTDriver) (h : HAL) :
  exists later, hal_trace (snd (poll_cycle s h)) = later ++ hal_trace h
    /\ forall tx rx, In (EvTransfer tx rx) later ->
         (_initialised (base s) = true
          /\ RPIOUART_POLL_TIME_INTERVAL
               <= uint32_t (micros h - _last_update_timestamp s)
          /\ hal_sem h (hal_takes h) = true)
         /\ ((exists data, tx = spiuart_packet data (tx_count s))
             \/ (exists p, tx = read_packet p)).
Proof.
  destruct (_initialised (base s)) eqn:I.
  2:{ rewrite poll_cycle_uninitialised by assumption. exists []. simpl. tauto. }
  destruct (Z.lt_ge_cases (uint32_t (micros h - _last_update_timestamp s))
                          RPIOUART_POLL_TIME_INTERVAL) as [L|L].
  { rewrite poll_cycle_too_early by assumption. exists []. simpl. tauto. }
  destruct (hal_sem h (hal_takes h)) eqn:F.
  - rewrite (poll_cycle_serviced _ _ I L F). simpl. rewrite F.
    eexists [EvGive; EvDelay 100; EvTransfer _ _; EvDelay 100; EvTransfer _ _;
             EvTake true].
    split; [reflexivity|].
    simpl. intros tx rx [X|[X|[X|[X|[X|[X|[]]]]]]]; try discriminate;
      inversion X; subst; split; eauto.
  - rewrite (poll_cycle_busy _ _ I L F). simpl. rewrite F.
    exists [EvTake false]. split; [reflexivity|].
    simpl. intros tx rx [X|[]]; discriminate.
Qed.

(** ** The tick as a whole, in virtual mode *)

Lemma timer_tick_virtual (s : RPIOUARTDriver) (h : HAL) :
  _external s = false ->
  _timer_tick s h =
    let '(returned, (s1, h1)) := baud_block s h in
    if returned then (s1, h1) else poll_cycle s1 h1.
Proof. unfold _timer_tick. intros ->. reflexivity. Qed.

(** Virtual mode is never left by a tick, and the baud rate stays. *)
Lemma timer_tick_keeps_mode (s : RPIOUARTDriver) (h : HAL) :
  _external s = false ->
  _external (fst (_timer_tick s h)) = false
  /\ _baudrate (fst (_timer_tick s h)) = _baudrate s
  /\ device_path (base (fst (_timer_tick s h))) = device_path (base s).
Proof.
  intros E. rewrite timer_tick_virtual by assumption.
  destruct (baud_block s h) as [r [s1 h1]] eqn:B.
  destruct (baud_block_frame _ _ _ _ _ B) as (Hb & Ht & He & Hr & _).
  destruct r; simpl; [rewrite He, Hr, Hb; auto|].
  rewrite <- E, <- He, <- Hr, <- Hb. clear.
  destruct s1 as [[dp ini it rb wb] t e n b]. unfold poll_cycle. simpl.
  destruct ini; simpl; [|auto].
  destruct (_ <? _); simpl; [auto|].
  destruct (hal_sem h1 (hal_takes h1)); simpl; [|auto].
  destruct (page _ =? PX4IO_PAGE_UART_BUFFER); simpl; auto.
Qed.

(** An uninitialised driver: the tick leaves the base members alone. *)
Lemma timer_tick_uninitialised (s : RPIOUARTDriver) (h : HAL) :
  _external s = false ->
  _initialised (base s) = false ->
  _timer_tick s h = (fst (snd (baud_block s h)), snd (snd (baud_block s h)))
  /\ base (fst (_timer_tick s h)) = base s
  /\ _last_update_timestamp (fst (_timer_tick s h)) = _last_update_timestamp s.
Proof.
  intros E I. rewrite timer_tick_virtual by assumption.
  destruct (baud_block s h) as [r [s1 h1]] eqn:B.
  destruct (baud_block_frame _ _ _ _ _ B) as (Hb & Ht & _).
  destruct r; simpl; [auto|].
  rewrite poll_cycle_uninitialised by congruence. auto.
Qed.

(** Every tick extends the trace, and in virtual mode the packets it sends
    are the three the driver builds. *)
Lemma timer_tick_trace (s : RPIOUARTDriver) (h : HAL) :
  _external s = false ->
  exists later, hal_trace (snd (_timer_tick s h)) = later ++ hal_trace h
    /\ forall tx rx, In (EvTransfer tx rx) later ->
         tx = baud_packet (_baudrate s)
         \/ (serviced s h = true
             /\ ((exists data, tx = spiuart_packet data
                                      (tx_count (fst (snd (baud_block s h)))))
                 \/ (exists p, tx = read_packet p))).
Proof.
  intros E. rewrite timer_tick_virtual by assumption. unfold serviced.
  rewrite E. simpl.
  destruct (baud_block s h) as [r [s1 h1]] eqn:B.
  destruct (baud_block_trace _ _ _ _ _ B) as (l1 & T1 & P1). simpl.
  destruct r.
  - exists l1. simpl. split; [assumption|]. intros tx rx X. left. eauto.
  - destruct (poll_cycle_trace s1 h1) as (l2 & T2 & P2).
    exists (l2 ++ l1). rewrite <- app_assoc, <- T1. split; [assumption|].
    intros tx rx X. apply in_app_or in X as [X|X].
    + right. destruct (P2 _ _ X) as ((I & L & F) & Q).
      apply Z.ltb_ge in L. rewrite I, L, F. auto.
    + left. eauto.
Qed.

(** ** When the semaphore is busy *)

(** A tick whose last act is a failed [take_nonblocking] leaves the driver
    as it was when the failure is in the baud rate block; when it is in the
    poll cycle, [_in_timer] has been set, and [_need_set_baud] cleared by
    the block before. *)
Lemma take_failure_frame (s : RPIOUARTDriver) (h : HAL) (later : list Event) :
  _external s = false ->
  events_since h (snd (_timer_tick s h)) = EvTake false :: later ->
  fst (_timer_tick s h) = s
  \/ fst (_timer_tick s h) = on_base (set_in_timer true) (set_need_set_baud false s).
Proof.
  intros E. rewrite timer_tick_virtual by assumption.
  destruct (_need_set_baud s && negb (_baudrate s =? 0)) eqn:N.
  - destruct (hal_sem h (hal_takes h)) eqn:F.
    + rewrite (baud_block_sent _ _ N F).
      set (h1 := give _). set (s1 := set_need_set_baud false s).
      assert (T1 : hal_trace h1 =
                   [EvGive; EvDelay (1000 * 1);
                    EvTransfer (baud_packet (_baudrate s))
                      (hal_bus h (hal_xfers h) (baud_packet (_baudrate s)));
                    EvTake true] ++ hal_trace h)
        by (subst h1; simpl; rewrite F; reflexivity).
      destruct (_initialised (base s1)) eqn:I.
      2:{ rewrite poll_cycle_uninitialised by assumption. simpl.
          rewrite (events_since_app _ _ _ T1). discriminate. }
      destruct (Z.lt_ge_cases (uint32_t (micros h1 - _last_update_timestamp s1))
                              RPIOUART_POLL_TIME_INTERVAL) as [L|L].
      { rewrite poll_cycle_too_early by assumption. simpl.
        rewrite (events_since_app _ _ _ T1). discriminate. }
      destruct (hal_sem h1 (hal_takes h1)) eqn:F1.
      * destruct (poll_cycle_serviced_trace _ _ I L F1) as (rx1 & rx & T2 & _).
        rewrite T1, app_assoc in T2.
        rewrite (events_since_app _ _ _ T2). discriminate.
      * rewrite (poll_cycle_busy _ _ I L F1). simpl. auto.
    + rewrite (baud_block_busy _ _ N F). simpl. auto.
  - rewrite (baud_block_idle _ _ N).
    set (s1 := set_need_set_baud false s).
    destruct (_initialised (base s1)) eqn:I.
    2:{ rewrite poll_cycle_uninitialised by assumption. simpl.
        rewrite events_since_refl. discriminate. }
    destruct (Z.lt_ge_cases (uint32_t (micros h - _last_update_timestamp s1))
                            RPIOUART_POLL_TIME_INTERVAL) as [L|L].
    { rewrite poll_cycle_too_early by assumption. simpl.
      rewrite events_since_refl. discriminate. }
    destruct (hal_sem h (hal_takes h)) eqn:F1.
    * destruct (poll_cycle_serviced_trace _ _ I L F1) as (rx1 & rx & T2 & _).
      rewrite (events_since_app _ _ _ T2). discriminate.
    * rewrite (poll_cycle_busy _ _ I L F1). simpl. auto.
Qed.

(** No tick breaks the handshake. *)
Lemma timer_tick_keeps_handshake_inv (s : RPIOUARTDriver) (h : HAL) :
  _external s = false ->
  handshake_inv s -> handshake_inv (fst (_timer_tick s h)).
Proof.
  unfold handshake_inv. intros E Inv N'.
  destruct (_need_set_baud s) eqn:N.
  - destruct (timer_tick_uninitialised s h E (Inv eq_refl)) as (_ & Hb & _).
    rewrite Hb. auto.
  - exfalso. revert N'. rewrite timer_tick_virtual by assumption.
    assert (N0 : _need_set_baud s && negb (_baudrate s =? 0) = false)
      by (rewrite N; reflexivity).
    rewrite (baud_block_idle _ _ N0).
    destruct s as [[dp ini it rb wb] t e n b]. simpl in *. subst.
    unfold poll_cycle. simpl.
    destruct ini; simpl; [|discriminate].
    destruct (_ <? _); simpl; [discriminate|].
    destruct (hal_sem h (hal_takes h)); simpl; [|discriminate].
    destruct (page _ =? PX4IO_PAGE_UART_BUFFER); simpl; discriminate.
Qed.

(** On a driver that keeps the handshake, a tick whose last act is a failed
    [take_nonblocking] changes nothing but [_in_timer]. *)
Lemma take_failure_frame_handshake (s : RPIOUARTDriver) (h : HAL)
  (later : list Event) :
  _external s = false ->
  handshake_inv s ->
  events_since h (snd (_timer_tick s h)) = EvTake false :: later ->
  fst (_timer_tick s h) = s
  \/ fst (_timer_tick s h) = on_base (set_in_timer true) s.
Proof.
  intros E Inv X.
  destruct (take_failure_frame s h later E X) as [Y|Y]; [auto|].
  destruct (_need_set_baud s) eqn:N.
  - left. specialize (Inv N).
    destruct (timer_tick_uninitialised s h E Inv) as (T & _).
    rewrite T in *. cbn [fst snd] in *.
    destruct (_need_set_baud s && negb (_baudrate s =? 0)) eqn:N0.
    + destruct (hal_sem h (hal_takes h)) eqn:F.
      * rewrite (baud_block_sent _ _ N0 F) in X. cbn [fst snd] in X.
        rewrite (events_since_app h _
                   [EvGive; EvDelay (1000 * 1);
                    EvTransfer (baud_packet (_baudrate s))
                      (hal_bus h (hal_xfers h) (baud_packet (_baudrate s)));
                    EvTake true]) in X; [discriminate X|].
        simpl. rewrite F. reflexivity.
      * rewrite (baud_block_busy _ _ N0 F). reflexivity.
    + rewrite (baud_block_idle _ _ N0) in X. cbn [fst snd] in X.
      rewrite events_since_refl in X. discriminate X.
  - right. rewrite Y. destruct s as [[dp ini it rb wb] t e n b].
    simpl in N. subst n. reflexivity.
Qed.

(** ** The rate limit *)

(** C2, as the code has it.  In virtual mode, with less than the poll
    interval elapsed since the last serviced poll: when no baud rate is
    waiting to be sent (nothing requested, or a rate of zero) the tick
    returns without touching the world at all, no semaphore attempt and no
    transfer, and only clears the request; when a non-zero baud rate is
    waiting, the tick first tries the semaphore and, if it gets it, sends
    the baud rate packet, whatever the elapsed time. *)
Theorem C2_rate_limit_spares_negotiation (s : RPIOUARTDriver) (h : HAL) :
  _external s = false ->
  uint32_t (micros h - _last_update_timestamp s) < RPIOUART_POLL_TIME_INTERVAL ->
  (_need_set_baud s && negb (_baudrate s =? 0) = false ->
   _timer_tick s h = (set_need_set_baud false s, h))
  /\ (_need_set_baud s && negb (_baudrate s =? 0) = true ->
      exists later,
        events_since h (snd (_timer_tick s h))
          = later ++ [EvTake (hal_sem h (hal_takes h))]
        /\ (hal_sem h (hal_takes h) = false ->
            later = [] /\ fst (_timer_tick s h) = s)
        /\ (hal_sem h (hal_takes h) = true ->
            exists later' rx,
              later = later' ++ [EvGive; EvDelay 1000;
                                 EvTransfer (baud_packet (_baudrate s)) rx])).
Proof.
  intros E L. rewrite timer_tick_virtual by assumption. split; intros N.
  - rewrite (baud_block_idle _ _ N). apply poll_cycle_too_early. exact L.
  - destruct (hal_sem h (hal_takes h)) eqn:F.
    + rewrite (baud_block_sent _ _ N F).
      set (h1 := give _). set (s1 := set_need_set_baud false s).
      destruct (poll_cycle_trace s1 h1) as (l2 & T2 & _).
      exists (l2 ++ [EvGive; EvDelay 1000;
                     EvTransfer (baud_packet (_baudrate s))
                       (hal_bus h (hal_xfers h) (baud_packet (_baudrate s)))]).
      split; [|split; [discriminate|]].
      * apply events_since_app. rewrite T2. subst h1. simpl. rewrite F.
        rewrite <- !app_assoc. reflexivity.
      * intros _. eauto.
    + rewrite (baud_block_busy _ _ N F). exists []. simpl.
      split; [|split; [auto|discriminate]].
      apply events_since_app. simpl. rewrite F. reflexivity.
Qed.

(** ** The in-progress flag *)

(** C3, as the code has it.  [_timer_tick] has no guard on entry: it never
    reads [_in_timer].  In virtual mode a tick entered with the flag set
    does to the world exactly what the same tick does with the flag clear,
    and the two end in the same driver state up to the flag itself. *)
Theorem C3_in_timer_is_not_consulted (s : RPIOUARTDriver) (h : HAL) (b : bool) :
  _external s = false ->
  snd (_timer_tick (on_base (set_in_timer b) s) h) = snd (_timer_tick s h)
  /\ on_base (set_in_timer false) (fst (_timer_tick (on_base (set_in_timer b) s) h))
     = on_base (set_in_timer false) (fst (_timer_tick s h)).
Proof.
  destruct s as [[dp ini it rb wb] t e n bd]. simpl. intros ->.
  unfold _timer_tick, baud_block, poll_cycle, on_base, with_base; simpl.
  destruct n; simpl.
  - destruct (bd =? 0); simpl.
    + destruct ini; simpl; [|auto].
      destruct (_ <? _); simpl; [auto|].
      destruct (hal_sem h (hal_takes h)); simpl; [|auto].
      unfold rx_count, tx_count; simpl.
      destruct (page _ =? PX4IO_PAGE_UART_BUFFER); simpl; auto.
    + destruct (hal_sem h (hal_takes h)); simpl; [|auto].
      destruct ini; simpl; [|auto].
      destruct (_ <? _); simpl; [auto|].
      destruct (hal_sem h (S (hal_takes h))); simpl; [|auto].
      unfold rx_count, tx_count; simpl.
      destruct (page _ =? PX4IO_PAGE_UART_BUFFER); simpl; auto.
  - destruct ini; simpl; [|auto].
    destruct (_ <? _); simpl; [auto|].
    destruct (hal_sem h (hal_takes h)); simpl; [|auto].
    unfold rx_count, tx_count; simpl.
    destruct (page _ =? PX4IO_PAGE_UART_BUFFER); simpl; auto.
Qed.

(** ** The serviced cycle *)

Lemma serviced_inv (s : RPIOUARTDriver) (h : HAL) :
  serviced s h = true ->
  _external s = false
  /\ exists s1 h1,
      baud_block s h = (false, (s1, h1))
      /\ base s1 = base s
      /\ _baudrate s1 = _baudrate s
      /\ _initialised (base s1) = true
      /\ RPIOUART_POLL_TIME_INTERVAL
           <= uint32_t (micros h1 - _last_update_timestamp s1)
      /\ hal_sem h1 (hal_takes h1) = true
      /\ _timer_tick s h = poll_cycle s1 h1.
Proof.
  unfold serviced. intros S. apply andb_true_iff in S as [E S].
  apply negb_true_iff in E. split; [assumption|].
  rewrite timer_tick_virtual by assumption.
  destruct (baud_block s h) as [r [s1 h1]] eqn:B.
  destruct (baud_block_frame _ _ _ _ _ B) as (Hb & _ & _ & Hr & _).
  apply andb_true_iff in S as [S F].
  apply andb_true_iff in S as [S L].
  apply andb_true_iff in S as [R I].
  apply negb_true_iff in R, L. subst r. apply Z.ltb_ge in L.
  exists s1, h1. repeat split; assumption.
Qed.

Lemma gtb_min (a b : Z) : (if a >? b then b else a) = Z.min a b.
Proof. destruct (Z.gtb_spec a b); lia. Qed.

Lemma tx_count_min (s : RPIOUARTDriver) :
  tx_count s =
    Z.min (Z.min (ByteBuffer.available (_writebuf (base s)))
                 (Z.of_nat PKT_MAX_REGS * 2))
          (uint16_t (_baudrate s / 10 / (1000000 / RPIOUART_POLL_TIME_INTERVAL))).
Proof. unfold tx_count. rewrite !gtb_min. reflexivity. Qed.

Lemma rx_count_min (s : RPIOUARTDriver) (rx : IOPacket) :
  rx_count s rx =
    Z.min (Z.min (ByteBuffer.space (_readbuf (base s)))
                 (Z.of_nat PKT_MAX_REGS * 2))
          (offset rx).
Proof. unfold rx_count. rewrite !gtb_min. lia. Qed.

Lemma uint16_t_range (z : Z) : 0 <= uint16_t z < 2 ^ 16.
Proof. unfold uint16_t. apply Z.mod_pos_bound. lia. Qed.

Lemma uint16_t_le (z : Z) : 0 <= z -> uint16_t z <= z.
Proof. unfold uint16_t. intros P. apply Z.mod_le; lia. Qed.

Lemma uint16_t_small (z : Z) : 0 <= z < 2 ^ 16 -> uint16_t z = z.
Proof. unfold uint16_t. intros P. apply Z.mod_small. exact P. Qed.

Lemma available_nonneg (b : ByteBuffer.t) : 0 <= ByteBuffer.available b.
Proof. unfold ByteBuffer.available. lia. Qed.

Lemma read_drains (n : Z) (b : ByteBuffer.t) :
  0 <= n <= ByteBuffer.available b ->
  ByteBuffer.available b - ByteBuffer.available (snd (ByteBuffer.read n b)) = n
  /\ Z.of_nat (List.length (fst (ByteBuffer.read n b))) = n.
Proof.
  unfold ByteBuffer.read, ByteBuffer.available. simpl. intros P.
  rewrite length_skipn, length_firstn. lia.
Qed.

(** The count of a serviced cycle, as the code computes it: the minimum
    of the bytes available, the register capacity in bytes and the byte
    budget held in sixteen bits.  It never exceeds the bytes available, the
    capacity or the budget [baud / 10 / (1000000 / interval)], and it is
    the minimum over that budget for every baud rate below 65536000. *)
Lemma drained_per_cycle (s : RPIOUARTDriver) (h : HAL) :
  serviced s h = true ->
  let budget := _baudrate s / 10 / (1000000 / RPIOUART_POLL_TIME_INTERVAL) in
  let capacity := Z.of_nat PKT_MAX_REGS * 2 in
  let avail := ByteBuffer.available (_writebuf (base s)) in
  let n := drained s (fst (_timer_tick s h)) in
  n = Z.min (Z.min avail capacity) (uint16_t budget)
  /\ n <= avail
  /\ n <= capacity
  /\ (0 <= _baudrate s -> n <= budget)
  /\ (0 <= _baudrate s < 65536000 -> n = Z.min (Z.min avail capacity) budget).
Proof.
  intros S. destruct (serviced_inv _ _ S) as (E & s1 & h1 & B & Hb & Hr & I & L & F & T).
  cbv zeta. unfold drained.
  rewrite T, (poll_cycle_serviced_writebuf _ _ I L F), Hb.
  pose proof (tx_count_min s1) as N. rewrite Hb, Hr in N.
  pose proof (available_nonneg (_writebuf (base s))) as A.
  pose proof (uint16_t_range (_baudrate s / 10 / (1000000 / RPIOUART_POLL_TIME_INTERVAL))) as U.
  assert (R : 0 <= tx_count s1 <= ByteBuffer.available (_writebuf (base s))) by lia.
  destruct (read_drains _ _ R) as [D _]. rewrite D, N.
  split; [reflexivity|]. split; [lia|]. split; [lia|]. split.
  - intros P.
    assert (Q : 0 <= _baudrate s / 10 / (1000000 / RPIOUART_POLL_TIME_INTERVAL)).
    { apply Z.div_pos; [apply Z.div_pos; lia|]. reflexivity. }
    pose proof (uint16_t_le _ Q). lia.
  - intros P. rewrite uint16_t_small; [reflexivity|].
    change (1000000 / RPIOUART_POLL_TIME_INTERVAL) with 100.
    split.
    + apply Z.div_pos; [apply Z.div_pos; lia|lia].
    + apply Z.div_lt_upper_bound; [lia|].
      apply Z.div_lt_upper_bound; lia.
Qed.

Lemma poll_cycle_serviced_readbuf (s : RPIOUARTDriver) (h : HAL) :
  _initialised (base s) = true ->
  RPIOUART_POLL_TIME_INTERVAL <= uint32_t (micros h - _last_update_timestamp s) ->
  hal_sem h (hal_takes h) = true ->
  let n := tx_count s in
  let tx := spiuart_packet (fst (ByteBuffer.read n (_writebuf (base s)))) n in
  let rx := fst (transfer (read_packet tx)
                   (delay_microseconds 100
                      (snd (transfer tx (snd (take_nonblocking h)))))) in
  _readbuf (base (fst (poll_cycle s h))) =
    if page rx =? PX4IO_PAGE_UART_BUFFER
    then ByteBuffer.write (bytes_of_regs (regs rx)) (rx_count s rx)
                          (_readbuf (base s))
    else _readbuf (base s).
Proof. intros I L F. rewrite (poll_cycle_serviced _ _ I L F). reflexivity. Qed.

(** C5, as the code has it.  In a serviced poll cycle the last packet put
    on the bus is the inbound request: its [count_code] is the READ opcode
    with a count of zero, its registers are all zero, its offset is zero
    and its page field is zero, not the UART buffer page; the integrity
    value is computed over exactly that packet. *)
Theorem C5_inbound_request (s : RPIOUARTDriver) (h : HAL) :
  serviced s h = true ->
  exists tx rx,
    last_transfer (hal_trace (snd (_timer_tick s h))) = Some (tx, rx)
    /\ In (EvTransfer tx rx) (events_since h (snd (_timer_tick s h)))
    /\ count_code tx = PKT_CODE_READ
    /\ regs tx = repeat 0 PKT_MAX_REGS
    /\ page tx = 0
    /\ offset tx = 0
    /\ crc tx = crc_packet (mkIOPacket PKT_CODE_READ 0 0 0 (repeat 0 PKT_MAX_REGS)).
Proof.
  intros S. destruct (serviced_inv _ _ S) as (E & s1 & h1 & B & Hb & Hr & I & L & F & T).
  destruct (baud_block_trace _ _ _ _ _ B) as (l1 & T1 & _).
  destruct (poll_cycle_serviced_trace _ _ I L F) as (rx1 & rx & T2 & _).
  rewrite T. rewrite T1, app_assoc in T2.
  eexists _, rx. split; [rewrite T2; reflexivity|].
  rewrite (events_since_app _ _ _ T2). split.
  - simpl. auto.
  - simpl. repeat split; reflexivity.
Qed.

Lemma bytes_of_regs_length (rs : list Z) :
  List.length (bytes_of_regs rs) = (2 * List.length rs)%nat.
Proof.
  unfold bytes_of_regs. induction rs as [|r rs IH]; simpl; [reflexivity|].
  rewrite IH. lia.
Qed.

Lemma space_nonneg (b : ByteBuffer.t) : 0 <= ByteBuffer.space b.
Proof. unfold ByteBuffer.space. lia. Qed.

Lemma bytes_of_regs_app (xs ys : list Z) :
  bytes_of_regs (xs ++ ys) = bytes_of_regs xs ++ bytes_of_regs ys.
Proof. unfold bytes_of_regs. apply flat_map_app. Qed.

(** The first [n] bytes of a register list that reaches past the array,
    [n] within the array, are bytes of the array. *)
Lemma firstn_bytes_within (k n : nat) (rs : list Z) :
  (n <= 2 * k)%nat -> (k <= List.length rs)%nat ->
  firstn n (bytes_of_regs rs) = firstn n (bytes_of_regs (firstn k rs)).
Proof.
  intros N K. rewrite <- (firstn_skipn k rs) at 1.
  rewrite bytes_of_regs_app, firstn_app, bytes_of_regs_length, length_firstn.
  replace (n - 2 * Nat.min k (List.length rs))%nat with 0%nat by lia.
  simpl. apply app_nil_r.
Qed.

(** C6.  In a serviced poll cycle, let [rx] be the answer to the inbound
    request, with an offset that is not negative and a register list that
    holds the whole array; the list may go on past the array, standing for
    whatever lies behind the structure.  The count the driver hands to the
    inbound buffer is [n], the minimum of the space left in the buffer, the
    register capacity in bytes and the offset the answer reports.  When the
    page of the answer is not the UART buffer page the inbound buffer is
    unchanged; when it is, the first [n] bytes of the register array are
    appended, exactly [n] of them, and nothing from behind the array. *)
Theorem C6_inbound_bytes (s : RPIOUARTDriver) (h : HAL) (tx rx : IOPacket) :
  serviced s h = true ->
  last_transfer (hal_trace (snd (_timer_tick s h))) = Some (tx, rx) ->
  (PKT_MAX_REGS <= List.length (regs rx))%nat ->
  0 <= offset rx ->
  let s' := fst (_timer_tick s h) in
  let n := Z.min (Z.min (ByteBuffer.space (_readbuf (base s)))
                        (Z.of_nat PKT_MAX_REGS * 2))
                 (offset rx) in
  let payload := bytes_of_regs (firstn PKT_MAX_REGS (regs rx)) in
  rx_count s rx = n
  /\ (page rx <> PX4IO_PAGE_UART_BUFFER ->
      _readbuf (base s') = _readbuf (base s) /\ appended s s' = [])
  /\ (page rx = PX4IO_PAGE_UART_BUFFER ->
      ByteBuffer.bytes (_readbuf (base s'))
        = ByteBuffer.bytes (_readbuf (base s)) ++ firstn (Z.to_nat n) payload
      /\ appended s s' = firstn (Z.to_nat n) payload
      /\ Z.of_nat (List.length (appended s s')) = n).
Proof.
  intros S LT W O.
  destruct (serviced_inv _ _ S) as (E & s1 & h1 & B & Hb & Hr & I & L & F & T).
  destruct (poll_cycle_serviced_trace _ _ I L F) as (rx1 & rx' & T2 & R).
  rewrite T in LT. rewrite T2 in LT. simpl in LT.
  injection LT as _ Erx. rewrite Erx in R. clear Erx T2.
  cbv zeta. unfold appended. rewrite T, (poll_cycle_serviced_readbuf _ _ I L F).
  cbv zeta. rewrite <- R, Hb.
  pose proof (rx_count_min s rx) as N0.
  pose proof (rx_count_min s1 rx) as N. rewrite Hb in N.
  pose proof (space_nonneg (_readbuf (base s))) as Sp.
  split; [exact N0|]. split.
  - intros P. apply Z.eqb_neq in P. rewrite P. split; [reflexivity|].
    apply skipn_all.
  - intros P. apply Z.eqb_eq in P. rewrite P.
    unfold ByteBuffer.write. simpl.
    replace (Z.min (rx_count s1 rx) (ByteBuffer.space (_readbuf (base s))))
      with (rx_count s1 rx) by lia.
    rewrite N.
    rewrite (firstn_bytes_within PKT_MAX_REGS _ (regs rx)) by lia.
    split; [reflexivity|].
    rewrite skipn_app, skipn_all, Nat.sub_diag. simpl.
    split; [reflexivity|].
    rewrite length_firstn, bytes_of_regs_length, length_firstn. lia.
Qed.

(** ** The two halves of [count_code] *)

Lemma serviced_drained (s : RPIOUARTDriver) (h : HAL) :
  serviced s h = true ->
  drained s (fst (_timer_tick s h)) = tx_count (fst (snd (baud_block s h))).
Proof.
  intros S. destruct (serviced_inv _ _ S) as (E & s1 & h1 & B & Hb & Hr & I & L & F & T).
  unfold drained. rewrite T, (poll_cycle_serviced_writebuf _ _ I L F), B, Hb.
  simpl.
  pose proof (tx_count_min s1) as N. rewrite Hb in N.
  pose proof (available_nonneg (_writebuf (base s))) as A.
  pose proof (uint16_t_range (_baudrate s1 / 10 / (1000000 / RPIOUART_POLL_TIME_INTERVAL))) as U.
  assert (R : 0 <= tx_count s1 <= ByteBuffer.available (_writebuf (base s))) by lia.
  apply (read_drains _ _ R).
Qed.

Lemma split_count_code (count code : Z) :
  Z.land count PKT_COUNT_MASK = count ->
  Z.land count PKT_CODE_MASK = 0 ->
  Z.land code PKT_COUNT_MASK = 0 ->
  Z.land code PKT_CODE_MASK = code ->
  forall p, count_code p = Z.lor count code ->
  PKT_COUNT p = count /\ PKT_CODE p = code.
Proof.
  intros A B C D p E. unfold PKT_COUNT, PKT_CODE.
  rewrite E, !Z.land_lor_distr_l, A, B, C, D, Z.lor_0_r. split; reflexivity.
Qed.

Lemma baud_packet_regs (b : Z) :
  (2 <= PKT_MAX_REGS)%nat ->
  firstn 2 (regs (baud_packet b)) = [Z.land b 65535; Z.shiftr b 16].
Proof.
  unfold baud_packet. simpl. destruct PKT_MAX_REGS as [|[|k]]; [lia|lia|].
  reflexivity.
Qed.

(** C8, as the code has it.  Every packet a virtual-mode tick puts on the
    bus holds its opcode in the high bits of [count_code] and a register
    count in the low bits, fixed per kind of packet and not the number of
    bytes carried: 2 for the baud rate WRITE packet (two registers, the
    low and high half of the rate), [PKT_MAX_REGS] for the bulk transfer
    packet whatever it carries, whose byte count travels in the offset
    field, and 0 for the READ request, whose registers are all zero. *)
Theorem C8_count_code_halves (s : RPIOUARTDriver) (h : HAL) (tx rx : IOPacket) :
  protocol_wf ->
  _external s = false ->
  In (EvTransfer tx rx) (events_since h (snd (_timer_tick s h))) ->
  (tx = baud_packet (_baudrate s)
   /\ PKT_CODE tx = PKT_CODE_WRITE
   /\ PKT_COUNT tx = 2
   /\ firstn 2 (regs tx) = [Z.land (_baudrate s) 65535; Z.shiftr (_baudrate s) 16])
  \/ (serviced s h = true
      /\ PKT_CODE tx = PKT_CODE_SPIUART
      /\ PKT_COUNT tx = Z.of_nat PKT_MAX_REGS
      /\ offset tx = drained s (fst (_timer_tick s h)))
  \/ (serviced s h = true
      /\ PKT_CODE tx = PKT_CODE_READ
      /\ PKT_COUNT tx = 0
      /\ regs tx = repeat 0 PKT_MAX_REGS).
Proof.
  intros (W2 & R1 & W1 & U1 & R2 & W3 & U2 & C1 & C2 & M1 & M2) E X.
  destruct (timer_tick_trace s h E) as (later & T & P).
  rewrite (events_since_app _ _ _ T) in X.
  destruct (P _ _ X) as [->|[S [[data ->]|[p ->]]]].
  - left. split; [reflexivity|].
    destruct (split_count_code 2 PKT_CODE_WRITE C1 C2 W1 W3
                (baud_packet (_baudrate s)) eq_refl) as [Hc Hk].
    auto using baud_packet_regs.
  - right; left. split; [assumption|].
    destruct (split_count_code (Z.of_nat PKT_MAX_REGS) PKT_CODE_SPIUART M1 M2 U1 U2
                (spiuart_packet data (tx_count (fst (snd (baud_block s h)))))
                eq_refl) as [Hc Hk].
    rewrite (serviced_drained _ _ S). auto.
  - right; right. split; [assumption|].
    assert (Z0 : Z.land 0 PKT_COUNT_MASK = 0) by apply Z.land_0_l.
    assert (Z1 : Z.land 0 PKT_CODE_MASK = 0) by apply Z.land_0_l.
    destruct (split_count_code 0 PKT_CODE_READ Z0 Z1 R1 R2
                (read_packet p) eq_refl) as [Hc Hk].
    auto.
Qed.

(** ** Before initialisation *)

(** C9, as the code has it.  In virtual mode, while [_initialised] is
    false: [_write_fd] and [_read_fd] return -1 and change nothing; a tick
    leaves the buffers, the flags of the base class and the timestamp as
    they are and makes no outbound or inbound transfer, but it does serve
    the baud rate request, which [begin] waits for: with no request, or a
    rate of zero, it touches nothing on the bus and only clears the
    request; with a non-zero rate waiting, the one packet it may send is
    the baud rate packet. *)
Theorem C9_before_initialisation (s : RPIOUARTDriver) (h : HAL) :
  _external s = false ->
  _initialised (base s) = false ->
  (forall buf n, _write_fd buf n s h = (-1, (s, h)))
  /\ (forall n, _read_fd n s h = (-1, [], (s, h)))
  /\ base (fst (_timer_tick s h)) = base s
  /\ _last_update_timestamp (fst (_timer_tick s h)) = _last_update_timestamp s
  /\ (_need_set_baud s && negb (_baudrate s =? 0) = false ->
      _timer_tick s h = (set_need_set_baud false s, h))
  /\ (forall tx rx,
        In (EvTransfer tx rx) (events_since h (snd (_timer_tick s h))) ->
        tx = baud_packet (_baudrate s)
        /\ _need_set_baud s = true /\ _baudrate s <> 0).
Proof.
  intros E I.
  destruct (timer_tick_uninitialised s h E I) as (T & Hb & Ht).
  split; [|split; [|split; [|split; [|split]]]]; try assumption.
  - intros buf n. unfold _write_fd. rewrite E. reflexivity.
  - intros n. unfold _read_fd. rewrite E. reflexivity.
  - intros N. rewrite T, (baud_block_idle _ _ N). reflexivity.
  - intros tx rx. rewrite T. simpl.
    destruct (_need_set_baud s && negb (_baudrate s =? 0)) eqn:N.
    + apply andb_true_iff in N as [N1 N2]. apply negb_true_iff in N2.
      apply Z.eqb_neq in N2.
      destruct (baud_block s h) as [r [s1 h1]] eqn:B.
      destruct (baud_block_trace _ _ _ _ _ B) as (l1 & T1 & P1). simpl.
      rewrite (events_since_app _ _ _ T1). intros X.
      split; [exact (P1 _ _ X)|split; assumption].
    + rewrite (baud_block_idle _ _ N). simpl. rewrite events_since_refl.
      intros [].
Qed.

(** ** Waiting for the timer context *)

Lemma timer_tick_sizes (s : RPIOUARTDriver) (h : HAL) :
  _external s = false ->
  ByteBuffer.get_size (_readbuf (base (fst (_timer_tick s h))))
    = ByteBuffer.get_size (_readbuf (base s))
  /\ ByteBuffer.get_size (_writebuf (base (fst (_timer_tick s h))))
     = ByteBuffer.get_size (_writebuf (base s)).
Proof.
  intros E. rewrite timer_tick_virtual by assumption.
  destruct (baud_block s h) as [r [s1 h1]] eqn:B.
  destruct (baud_block_frame _ _ _ _ _ B) as (Hb & _).
  destruct r; simpl; [rewrite Hb; auto|].
  rewrite <- Hb. clear.
  destruct s1 as [[dp ini it rb wb] t e n b]. unfold poll_cycle. simpl.
  destruct ini; simpl; [|auto].
  destruct (_ <? _); simpl; [auto|].
  destruct (hal_sem h1 (hal_takes h1)); simpl; [|auto].
  destruct (page _ =? PX4IO_PAGE_UART_BUFFER); simpl; auto.
Qed.

(** A request that is still there after a tick, a rate of zero, or the
    baud rate packet on the bus. *)
Lemma timer_tick_negotiation (s : RPIOUARTDriver) (h : HAL) :
  _external s = false ->
  _need_set_baud s = true ->
  _need_set_baud (fst (_timer_tick s h)) = true
  \/ _baudrate s = 0
  \/ exists rx, In (EvTransfer (baud_packet (_baudrate s)) rx)
                   (events_since h (snd (_timer_tick s h))).
Proof.
  intros E N. destruct (Z.eqb_spec (_baudrate s) 0) as [Z|Z]; [auto|].
  assert (N' : _need_set_baud s && negb (_baudrate s =? 0) = true).
  { rewrite N. apply Z.eqb_neq in Z. rewrite Z. reflexivity. }
  rewrite timer_tick_virtual by assumption.
  destruct (hal_sem h (hal_takes h)) eqn:F.
  - right; right. rewrite (baud_block_sent _ _ N' F).
    set (h1 := give _). set (s1 := set_need_set_baud false s).
    destruct (poll_cycle_trace s1 h1) as (l2 & T2 & _).
    exists (hal_bus h (hal_xfers h) (baud_packet (_baudrate s))).
    erewrite events_since_app.
    2:{ rewrite T2. subst h1. simpl. rewrite F.
        instantiate (1 := l2 ++ [_; _; _; _]). rewrite <- app_assoc.
        reflexivity. }
    apply in_or_app. right. simpl. auto.
  - left. rewrite (baud_block_busy _ _ N' F). simpl. assumption.
Qed.

Lemma wait_while_inv (P : RPIOUARTDriver -> HAL -> Prop)
  (flag : RPIOUARTDriver -> bool) :
  (forall s h, P s h -> flag s = true ->
     P (fst (scheduler_delay 1 s h)) (snd (scheduler_delay 1 s h))) ->
  forall fuel s h s' h',
    P s h -> wait_while flag fuel s h = Some (s', h') ->
    P s' h' /\ flag s' = false.
Proof.
  intros Step fuel. induction fuel as [|fuel IH]; simpl; intros s h s' h' Ps W.
  - discriminate.
  - destruct (flag s) eqn:Fl.
    + specialize (Step s h Ps Fl).
      destruct (scheduler_delay 1 s h) as [s1 h1]. eauto.
    + inversion W; subst. auto.
Qed.

(** While the driver is in virtual mode and uninitialised, a flag
    [_in_timer] that is set stays set: the wait at the head of [begin]
    never ends. *)
Lemma wait_in_timer_stuck (fuel : nat) (s : RPIOUARTDriver) (h : HAL) :
  _external s = false ->
  _initialised (base s) = false ->
  _in_timer (base s) = true ->
  wait_while (fun s => _in_timer (base s)) fuel s h = None.
Proof.
  revert s h. induction fuel as [|fuel IH]; simpl; intros s h E I T.
  - reflexivity.
  - rewrite T. unfold scheduler_delay.
    destruct (timer_tick_uninitialised s (delay 1 h) E I) as (_ & Hb & _).
    destruct (timer_tick_keeps_mode s (delay 1 h) E) as (He & _).
    destruct (_timer_tick s (delay 1 h)) as [s1 h1]. simpl in *.
    apply IH; congruence.
Qed.

(** The consequence of leaving [_in_timer] set: the next [begin] on a
    board without a hardware UART does not return, whatever the fuel. *)
Lemma begin_blocked_by_in_timer (fuel : nat) (b rxS txS : Z)
  (s : RPIOUARTDriver) (h : HAL) :
  _external s = false ->
  device_path (base s) = None ->
  _in_timer (base s) = true ->
  begin fuel b rxS txS s h = None.
Proof.
  intros E D T. unfold begin. rewrite D. unfold begin_virtual.
  rewrite wait_in_timer_stuck; [reflexivity| | |]; destruct s as [[] ]; simpl in *;
    auto.
Qed.

(** With the timer context idle and the semaphore free, [begin] returns
    after one tick. *)
Lemma begin_virtual_returns (fuel : nat) (b rxS txS : Z)
  (s : RPIOUARTDriver) (h : HAL) :
  _external s = false ->
  _in_timer (base s) = false ->
  b = 0 \/ hal_sem h (hal_takes h) = true ->
  exists s' h', begin_virtual (S (S fuel)) b rxS txS s h = Some (s', h').
Proof.
  destruct s as [[dp ini it rb wb] t e n bd]. simpl. intros -> -> C.
  unfold begin_virtual. simpl. unfold scheduler_delay, _timer_tick. simpl.
  unfold baud_block. simpl.
  destruct (b =? 0) eqn:Z; simpl.
  - destruct (negb _ && negb _); eauto.
  - destruct C as [ -> | -> ]; [discriminate|]. simpl.
    destruct (negb _ && negb _); eauto.
Qed.

Lemma begin_virtual_inv (fuel : nat) (b rxS txS : Z)
  (s s' : RPIOUARTDriver) (h h' : HAL) :
  begin_virtual fuel b rxS txS s h = Some (s', h') ->
  let rxS' := if rxS <? 1024 then 2048 else rxS in
  let txS' := if txS <? 1024 then 2048 else txS in
  exists s2 h2 s5,
    wait_while (fun s => _in_timer (base s)) fuel
               (on_base (set_initialised false) s) h = Some (s2, h2)
    /\ wait_while _need_set_baud fuel
         (set_need_set_baud true
            (set_baudrate b
               (on_base (fun u => set_writebuf
                                    (ByteBuffer.set_size txS' (_writebuf u)) u)
                  (on_base (fun u => set_readbuf
                                       (ByteBuffer.set_size rxS' (_readbuf u)) u)
                     s2))))
         h2 = Some (s5, h')
    /\ s' = (if negb (ByteBuffer.get_size (_writebuf (base s5)) =? 0)
                && negb (ByteBuffer.get_size (_readbuf (base s5)) =? 0)
             then on_base (set_initialised true) s5 else s5).
Proof.
  unfold begin_virtual. cbv zeta.
  destruct (wait_while _ fuel (on_base _ s) h) as [[s2 h2]|]; [|discriminate].
  destruct (wait_while _need_set_baud fuel _ h2) as [[s5 h5]|] eqn:W2;
    [|discriminate].
  intros X. exists s2, h2, s5.
  destruct (_ && _); inversion X; subst; auto.
Qed.

Lemma scheduler_delay_step (s : RPIOUARTDriver) (h : HAL) :
  _external s = false ->
  exists later,
    hal_trace (snd (scheduler_delay 1 s h)) = later ++ hal_trace h
    /\ (_need_set_baud s = true ->
        _need_set_baud (fst (scheduler_delay 1 s h)) = true
        \/ _baudrate s = 0
        \/ exists rx, In (EvTransfer (baud_packet (_baudrate s)) rx) later).
Proof.
  intros E. unfold scheduler_delay.
  destruct (timer_tick_trace s (delay 1 h) E) as (l & T & _).
  exists (l ++ [EvDelay (1000 * 1)]). split.
  - rewrite T, <- app_assoc. reflexivity.
  - intros N.
    destruct (timer_tick_negotiation s (delay 1 h) E N) as [X|[X|[rx X]]]; auto.
    rewrite (events_since_app _ _ _ T) in X.
    right; right. exists rx. apply in_or_app. auto.
Qed.

(** What a virtual-mode [begin] has done when it returns. *)
Lemma begin_virtual_result (fuel : nat) (b rxS txS : Z)
  (s s' : RPIOUARTDriver) (h h' : HAL) :
  _external s = false ->
  begin_virtual fuel b rxS txS s h = Some (s', h') ->
  _external s' = false
  /\ _need_set_baud s' = false
  /\ _baudrate s' = b
  /\ ByteBuffer.get_size (_readbuf (base s')) = (if rxS <? 1024 then 2048 else rxS)
  /\ ByteBuffer.get_size (_writebuf (base s')) = (if txS <? 1024 then 2048 else txS)
  /\ _initialised (base s') = true
  /\ exists later,
       hal_trace h' = later ++ hal_trace h
       /\ (b = 0 \/ exists rx, In (EvTransfer (baud_packet b) rx) later).
Proof.
  intros E B. apply begin_virtual_inv in B. cbv zeta in B.
  destruct B as (s2 & h2 & s5 & W1 & W2 & ->).
  set (rxS' := if rxS <? 1024 then 2048 else rxS) in *.
  set (txS' := if txS <? 1024 then 2048 else txS) in *.
  apply (wait_while_inv
           (fun s1 h1 => _external s1 = false
                         /\ exists later, hal_trace h1 = later ++ hal_trace h)) in W1.
  2:{ intros s1 h1 (E1 & l1 & T1) _.
      destruct (scheduler_delay_step s1 h1 E1) as (l & T & _).
      split.
      - unfold scheduler_delay. apply timer_tick_keeps_mode. assumption.
      - exists (l ++ l1). rewrite T, T1, app_assoc. reflexivity. }
  2:{ split; [destruct s as [[] ]; assumption|]. exists []. reflexivity. }
  destruct W1 as ((E2 & l1 & T1) & _).
  apply (wait_while_inv
           (fun s1 h1 =>
              _external s1 = false
              /\ _baudrate s1 = b
              /\ ByteBuffer.get_size (_readbuf (base s1)) = rxS'
              /\ ByteBuffer.get_size (_writebuf (base s1)) = txS'
              /\ exists later,
                   hal_trace h1 = later ++ hal_trace h
                   /\ (_need_set_baud s1 = true \/ b = 0
                       \/ exists rx, In (EvTransfer (baud_packet b) rx) later))) in W2.
  2:{ intros s1 h1 (E1 & Hr & Sr & Sw & l0 & T0 & D) N.
      destruct (scheduler_delay_step s1 h1 E1) as (l & T & Q).
      unfold scheduler_delay in *.
      destruct (timer_tick_keeps_mode s1 (delay 1 h1) E1) as (E' & Hr' & _).
      destruct (timer_tick_sizes s1 (delay 1 h1) E1) as (Sr' & Sw').
      repeat split; try congruence.
      exists (l ++ l0). split; [rewrite T, T0, app_assoc; reflexivity|].
      destruct (Q N) as [X|[X|[rx X]]].
      - auto.
      - right; left. congruence.
      - right; right. exists rx. rewrite <- Hr. apply in_or_app. auto. }
  2:{ destruct s2 as [[] ]. simpl in *. repeat split; try assumption.
      exists l1. auto. }
  destruct W2 as ((E5 & Hr & Sr & Sw & l & T & D) & N).
  assert (NZ : negb (ByteBuffer.get_size (_writebuf (base s5)) =? 0)
               && negb (ByteBuffer.get_size (_readbuf (base s5)) =? 0) = true).
  { rewrite Sr, Sw. subst rxS' txS'.
    destruct (Z.ltb_spec rxS 1024), (Z.ltb_spec txS 1024);
      apply andb_true_iff; split; apply negb_true_iff, Z.eqb_neq; lia. }
  rewrite NZ. destruct s5 as [[] ]. simpl in *.
  repeat split; try assumption.
  exists l. split; [assumption|].
  destruct D as [X|[X|X]]; [congruence|auto|auto].
Qed.

(** ** Initialisation *)

(** C7, as the code has it.  A [begin] that sets up the packet protocol
    and returns has sized each buffer to 2048 when fewer than 1024 bytes
    were asked for, never to the smaller size asked for and not to the
    threshold of 1024 either, and to the size asked for from 1024 on; the
    driver is then initialised. *)
Theorem C7_undersized_buffers (fuel : nat) (b rxS txS : Z)
  (s s' : RPIOUARTDriver) (h h' : HAL) :
  _external s = false ->
  hardware_uart_ready b rxS txS s h = false ->
  begin fuel b rxS txS s h = Some (s', h') ->
  (rxS < 1024 -> ByteBuffer.get_size (_readbuf (base s')) = 2048)
  /\ (txS < 1024 -> ByteBuffer.get_size (_writebuf (base s')) = 2048)
  /\ (1024 <= rxS -> ByteBuffer.get_size (_readbuf (base s')) = rxS)
  /\ (1024 <= txS -> ByteBuffer.get_size (_writebuf (base s')) = txS)
  /\ _initialised (base s') = true.
Proof.
  intros E R B.
  assert (V : exists s0 h0, _external s0 = false
                /\ begin_virtual fuel b rxS txS s0 h0 = Some (s', h')).
  { unfold begin, hardware_uart_ready in *.
    destruct (device_path (base s)); [|eauto].
    destruct (UARTDriver_begin b rxS txS (base s) h) as [u h0]. simpl in R.
    rewrite R in B. exists (with_base u s), h0. auto. }
  destruct V as (s0 & h0 & E0 & V).
  destruct (begin_virtual_result _ _ _ _ _ _ _ _ E0 V)
    as (_ & _ & _ & Sr & Sw & I & _).
  rewrite Sr, Sw.
  destruct (Z.ltb_spec rxS 1024), (Z.ltb_spec txS 1024);
    repeat split; auto; lia.
Qed.

(** C10.  From a driver in virtual mode: when a device path is configured
    and the hardware UART passes its initialised check after the
    delegation, [begin] returns at once, in external mode, whatever the
    fuel.  When the path is configured and the check fails, [begin] is the
    packet protocol run on a driver whose external flag is false, with
    the base members as the delegation left them, and it does return: with
    the timer context idle and the semaphore free (or a baud rate of zero)
    two waits are enough.  Whenever [begin] returns, it is in external
    mode exactly in the first case; in the second the flag is false, the
    baud rate is recorded and its request served, and unless the rate is
    zero its packet has gone over the bus since the delegation. *)
Theorem C10_external_mode (fuel : nat) (b rxS txS : Z)
  (s : RPIOUARTDriver) (h : HAL) :
  _external s = false ->
  let u := fst (UARTDriver_begin b rxS txS (base s) h) in
  let h0 := snd (UARTDriver_begin b rxS txS (base s) h) in
  (device_path (base s) <> None -> is_initialized u = true ->
   begin fuel b rxS txS s h = Some (set_external true (with_base u s), h0))
  /\ (device_path (base s) <> None -> is_initialized u = false ->
      begin fuel b rxS txS s h = begin_virtual fuel b rxS txS (with_base u s) h0
      /\ _external (with_base u s) = false
      /\ (_in_timer u = false ->
          b = 0 \/ hal_sem h0 (hal_takes h0) = true ->
          exists s' h',
            begin (S (S fuel)) b rxS txS s h = Some (s', h')
            /\ _external s' = false))
  /\ (device_path (base s) = None ->
      begin fuel b rxS txS s h = begin_virtual fuel b rxS txS s h)
  /\ (forall s' h',
        begin fuel b rxS txS s h = Some (s', h') ->
        (_external s' = true <->
         device_path (base s) <> None /\ is_initialized u = true)
        /\ (device_path (base s) <> None -> is_initialized u = false ->
            _external s' = false
            /\ _need_set_baud s' = false
            /\ _baudrate s' = b
            /\ (b <> 0 ->
                exists rx, In (EvTransfer (baud_packet b) rx)
                              (events_since h0 h')))).
Proof.
  intros E. cbv zeta. unfold begin.
  destruct (device_path (base s)) as [path|] eqn:D.
  - destruct (UARTDriver_begin b rxS txS (base s) h) as [u h0]. simpl.
    assert (E0 : _external (with_base u s) = false) by exact E.
    destruct (is_initialized u) eqn:I.
    + split; [reflexivity|]. split; [intros _ X; discriminate X|].
      split; [intros X; discriminate X|].
      intros s' h' B. inversion B; subst. simpl. split.
      * split; [intros _; split; [discriminate|reflexivity]|reflexivity].
      * intros _ X. discriminate X.
    + split; [intros _ X; discriminate X|]. split; [|split].
      * intros _ _. split; [reflexivity|]. split; [exact E0|].
        intros T C.
        destruct (begin_virtual_returns fuel b rxS txS (with_base u s) h0 E0 T C)
          as (s' & h' & B).
        exists s', h'. split; [exact B|].
        apply (begin_virtual_result _ _ _ _ _ _ _ _ E0 B).
      * intros X. discriminate X.
      * intros s' h' B.
        destruct (begin_virtual_result _ _ _ _ _ _ _ _ E0 B)
          as (E' & N & Hr & _ & _ & _ & l & T & P).
        split.
        -- rewrite E'. split; [discriminate|]. intros [_ X]. discriminate.
        -- intros _ _. repeat split; try assumption.
           intros NZ. rewrite (events_since_app _ _ _ T).
           destruct P as [P|P]; [contradiction|assumption].
  - split; [intros X; contradiction|]. split; [intros X; contradiction|].
    split; [reflexivity|].
    intros s' h' B.
    destruct (begin_virtual_result _ _ _ _ _ _ _ _ E B) as (E' & _).
    split.
    + rewrite E'. split; [discriminate|]. intros [X _]. contradiction.
    + intros X. contradiction.
Qed.

End Properties.

(** * The driver on a board without a hardware UART *)

Section Raspilotio.

#[local] Existing Instance raspilotio.
#[local] Existing Instance uart_unavailable.

(** [begin(57600, 100, 100)] on a new driver, with the bus free, returns
    after two milliseconds and leaves the driver [running]. *)
Example begin_reaches_running :
  exists h',
    begin 2 57600 100 100 (RPIOUARTDriver_new None) (world 0 sem_free bus_silent)
      = Some (running 57600 [], h')
    /\ hal_clock h' = 2000.
Proof. eexists. split; [vm_compute; reflexivity|reflexivity]. Qed.

(** ** When the semaphore is busy *)

(** C1, on the code.  The driver is as [begin] left it and the poll
    interval has elapsed, but the semaphore is held by another user of the
    bus.  The tick attempts the semaphore once, transfers nothing, and
    returns with [_in_timer] set: the driver is not in the state it was
    entered in. *)
Theorem C1_busy_semaphore_leaves_in_timer_set :
  let s := running 57600 [] in
  let h := world 20000 sem_busy bus_silent in
  serviced s h = false
  /\ events_since h (snd (_timer_tick s h)) = [EvTake false]
  /\ _in_timer (base s) = false
  /\ _in_timer (base (fst (_timer_tick s h))) = true
  /\ fst (_timer_tick s h) = on_base (set_in_timer true) s
  /\ fst (_timer_tick s h) <> s.
Proof.
  cbv zeta. repeat split; try reflexivity.
  vm_compute. discriminate.
Qed.

(** ** The rate limit *)

Lemma C2_negotiation_precedes_rate_limit :
  let s := negotiating 57600 in
  let h := world 5000 sem_free bus_silent in
  _external s = false
  /\ uint32_t (micros h - _last_update_timestamp s) < RPIOUART_POLL_TIME_INTERVAL
  /\ events_since h (snd (_timer_tick s h))
     = [EvGive; EvDelay 1000;
        EvTransfer (baud_packet 57600) (mkIOPacket 0 0 0 0 (repeat 0 32));
        EvTake true]
  /\ existsb is_bus_event (events_since h (snd (_timer_tick s h))) = true.
Proof. cbv zeta. repeat split; reflexivity. Qed.

Lemma C2_rate_limit_witness :
  let s := running 57600 [1; 2; 3] in
  let h := world 5000 sem_free bus_silent in
  _external s = false
  /\ uint32_t (micros h - _last_update_timestamp s) < RPIOUART_POLL_TIME_INTERVAL
  /\ _timer_tick s h = (set_need_set_baud false s, h).
Proof.
  cbv zeta. split; [reflexivity|]. split; [reflexivity|].
  apply (proj1 (C2_rate_limit_spares_negotiation
                  (running 57600 [1; 2; 3]) (world 5000 sem_free bus_silent)
                  eq_refl eq_refl)).
  reflexivity.
Defined.

(** ** The in-progress flag *)

Lemma C3_tick_runs_with_in_timer_set :
  let s := on_base (set_in_timer true) (running 57600 [1; 2; 3]) in
  let h := world 20000 sem_free bus_silent in
  _external s = false
  /\ _in_timer (base s) = true
  /\ existsb is_bus_event (events_since h (snd (_timer_tick s h))) = true
  /\ List.length (events_since h (snd (_timer_tick s h))) = 6%nat
  /\ drained s (fst (_timer_tick s h)) = 3
  /\ fst (_timer_tick s h) <> s.
Proof.
  cbv zeta. repeat split; try reflexivity.
  vm_compute. discriminate.
Qed.

Lemma C3_in_timer_witness :
  let s := running 57600 [1; 2; 3] in
  let h := world 20000 sem_free bus_silent in
  _external s = false
  /\ snd (_timer_tick (on_base (set_in_timer true) s) h) = snd (_timer_tick s h)
  /\ on_base (set_in_timer false)
             (fst (_timer_tick (on_base (set_in_timer true) s) h))
     = on_base (set_in_timer false) (fst (_timer_tick s h)).
Proof.
  cbv zeta. split; [reflexivity|].
  apply (C3_in_timer_is_not_consulted
           (running 57600 [1; 2; 3]) (world 20000 sem_free bus_silent) true).
  reflexivity.
Defined.

(** ** The serviced cycle *)

(** C4, on the code.  The byte budget [baud / 10 / (1000000 / interval)]
    of a 32-bit baud rate goes into the 16-bit [_max_size] and loses its
    high bits there.  At 65536000 baud the budget is 65536 and the cycle
    should take all three bytes queued; it takes none, and does so in
    every cycle.  At 65541000 baud the budget is 65541 and the cycle takes
    five of the seven bytes queued. *)
Theorem C4_budget_wraps_at_sixteen_bits :
  (let s := running 65536000 [1; 2; 3] in
   let h := world 20000 sem_free bus_silent in
   let budget := _baudrate s / 10 / (1000000 / RPIOUART_POLL_TIME_INTERVAL) in
   serviced s h = true
   /\ budget = 65536
   /\ Z.min (Z.min (ByteBuffer.available (_writebuf (base s)))
                   (Z.of_nat PKT_MAX_REGS * 2)) budget = 3
   /\ drained s (fst (_timer_tick s h)) = 0)
  /\ (let s := running 65541000 [1; 2; 3; 4; 5; 6; 7] in
      let h := world 20000 sem_free bus_silent in
      let budget := _baudrate s / 10 / (1000000 / RPIOUART_POLL_TIME_INTERVAL) in
      serviced s h = true
      /\ budget = 65541
      /\ Z.min (Z.min (ByteBuffer.available (_writebuf (base s)))
                      (Z.of_nat PKT_MAX_REGS * 2)) budget = 7
      /\ drained s (fst (_timer_tick s h)) = 5).
Proof. cbv zeta. repeat split; reflexivity. Qed.

Lemma drained_per_cycle_example :
  let s := running 57600 [1; 2; 3] in
  let h := world 20000 sem_free bus_silent in
  let budget := _baudrate s / 10 / (1000000 / RPIOUART_POLL_TIME_INTERVAL) in
  let capacity := Z.of_nat PKT_MAX_REGS * 2 in
  let avail := ByteBuffer.available (_writebuf (base s)) in
  let n := drained s (fst (_timer_tick s h)) in
  serviced s h = true
  /\ n = Z.min (Z.min avail capacity) (uint16_t budget)
  /\ n <= avail
  /\ n <= capacity
  /\ (0 <= _baudrate s -> n <= budget)
  /\ (0 <= _baudrate s < 65536000 -> n = Z.min (Z.min avail capacity) budget).
Proof.
  cbv zeta. split; [reflexivity|].
  apply (drained_per_cycle
           (running 57600 [1; 2; 3]) (world 20000 sem_free bus_silent)).
  reflexivity.
Defined.

Lemma C5_inbound_request_page_zero :
  let s := running 57600 [1; 2; 3] in
  let h := world 20000 sem_free bus_silent in
  serviced s h = true
  /\ exists tx rx,
       last_transfer (hal_trace (snd (_timer_tick s h))) = Some (tx, rx)
       /\ count_code tx = PKT_CODE_READ
       /\ page tx = 0
       /\ PX4IO_PAGE_UART_BUFFER = 120
       /\ page tx <> PX4IO_PAGE_UART_BUFFER.
Proof.
  cbv zeta. split; [reflexivity|]. eexists _, _.
  split; [vm_compute; reflexivity|]. repeat split. discriminate.
Qed.

Lemma C5_inbound_request_witness :
  let s := running 57600 [1; 2; 3] in
  let h := world 20000 sem_free bus_silent in
  serviced s h = true
  /\ exists tx rx,
       last_transfer (hal_trace (snd (_timer_tick s h))) = Some (tx, rx)
       /\ In (EvTransfer tx rx) (events_since h (snd (_timer_tick s h)))
       /\ count_code tx = PKT_CODE_READ
       /\ regs tx = repeat 0 PKT_MAX_REGS
       /\ page tx = 0
       /\ offset tx = 0
       /\ crc tx = crc_packet (mkIOPacket PKT_CODE_READ 0 0 0 (repeat 0 PKT_MAX_REGS)).
Proof.
  cbv zeta. split; [reflexivity|].
  apply (C5_inbound_request
           (running 57600 [1; 2; 3]) (world 20000 sem_free bus_silent)).
  reflexivity.
Defined.

Lemma C6_inbound_bytes_witness :
  let s := running 57600 [] in
  let h := world 20000 sem_free (bus_answers long_answer) in
  let tx := read_packet (spiuart_packet [] 0) in
  let rx := long_answer in
  let s' := fst (_timer_tick s h) in
  let n := Z.min (Z.min (ByteBuffer.space (_readbuf (base s)))
                        (Z.of_nat PKT_MAX_REGS * 2))
                 (offset rx) in
  let payload := bytes_of_regs (firstn PKT_MAX_REGS (regs rx)) in
  serviced s h = true
  /\ last_transfer (hal_trace (snd (_timer_tick s h))) = Some (tx, rx)
  /\ (PKT_MAX_REGS <= List.length (regs rx))%nat
  /\ 0 <= offset rx
  /\ rx_count s rx = n
  /\ (page rx <> PX4IO_PAGE_UART_BUFFER ->
      _readbuf (base s') = _readbuf (base s) /\ appended s s' = [])
  /\ (page rx = PX4IO_PAGE_UART_BUFFER ->
      ByteBuffer.bytes (_readbuf (base s'))
        = ByteBuffer.bytes (_readbuf (base s)) ++ firstn (Z.to_nat n) payload
      /\ appended s s' = firstn (Z.to_nat n) payload
      /\ Z.of_nat (List.length (appended s s')) = n).
Proof.
  cbv zeta. split; [reflexivity|]. split; [vm_compute; reflexivity|].
  split; [simpl; lia|]. split; [discriminate|].
  apply (C6_inbound_bytes
           (running 57600 []) (world 20000 sem_free (bus_answers long_answer))
           (read_packet (spiuart_packet [] 0)) long_answer).
  - reflexivity.
  - vm_compute. reflexivity.
  - simpl. lia.
  - discriminate.
Defined.

(** The answer reports two hundred bytes and the buffer has room for them:
    the sixty-four bytes of the register array are appended and nothing of
    what lies behind it.  A short answer on the same page gives its three
    bytes. *)
Example inbound_stops_at_the_array :
  appended (running 57600 [])
           (fst (_timer_tick (running 57600 [])
                   (world 20000 sem_free (bus_answers long_answer))))
    = repeat 1 64
  /\ appended (running 57600 [])
              (fst (_timer_tick (running 57600 [])
                      (world 20000 sem_free (bus_answers uart_answer))))
     = [1; 2; 3].
Proof. split; reflexivity. Qed.

(** ** The two halves of [count_code] *)

Lemma raspilotio_wf : protocol_wf.
Proof. unfold protocol_wf. simpl. repeat split; try reflexivity. lia. Defined.

Lemma C8_count_is_not_the_byte_count :
  let s := running 57600 [1; 2; 3] in
  let h := world 20000 sem_free bus_silent in
  _external s = false
  /\ drained s (fst (_timer_tick s h)) = 3
  /\ (exists tx rx,
        In (EvTransfer tx rx) (events_since h (snd (_timer_tick s h)))
        /\ PKT_CODE tx = PKT_CODE_SPIUART
        /\ offset tx = 3
        /\ bytes_of_regs (firstn 2 (regs tx)) = [1; 2; 3; 0]
        /\ PKT_COUNT tx = 32)
  /\ PKT_COUNT (baud_packet 57600) = 2
  /\ bytes_of_regs (firstn 2 (regs (baud_packet 57600))) = [0; 225; 0; 0].
Proof.
  cbv zeta. split; [reflexivity|]. split; [reflexivity|]. split.
  - exists (spiuart_packet [1; 2; 3] 3), (mkIOPacket 0 0 0 0 (repeat 0 32)).
    split; [vm_compute; auto 10|]. repeat split; reflexivity.
  - split; reflexivity.
Qed.

Lemma C8_count_code_witness :
  let s := running 57600 [1; 2; 3] in
  let h := world 20000 sem_free bus_silent in
  let tx := spiuart_packet [1; 2; 3] 3 in
  let rx := mkIOPacket 0 0 0 0 (repeat 0 32) in
  protocol_wf
  /\ _external s = false
  /\ In (EvTransfer tx rx) (events_since h (snd (_timer_tick s h)))
  /\ ((tx = baud_packet (_baudrate s)
       /\ PKT_CODE tx = PKT_CODE_WRITE
       /\ PKT_COUNT tx = 2
       /\ firstn 2 (regs tx)
          = [Z.land (_baudrate s) 65535; Z.shiftr (_baudrate s) 16])
      \/ (serviced s h = true
          /\ PKT_CODE tx = PKT_CODE_SPIUART
          /\ PKT_COUNT tx = Z.of_nat PKT_MAX_REGS
          /\ offset tx = drained s (fst (_timer_tick s h)))
      \/ (serviced s h = true
          /\ PKT_CODE tx = PKT_CODE_READ
          /\ PKT_COUNT tx = 0
          /\ regs tx = repeat 0 PKT_MAX_REGS)).
Proof.
  cbv zeta. split; [exact raspilotio_wf|]. split; [reflexivity|].
  split; [vm_compute; auto 10|].
  apply (C8_count_code_halves
           (running 57600 [1; 2; 3]) (world 20000 sem_free bus_silent)
           (spiuart_packet [1; 2; 3] 3) (mkIOPacket 0 0 0 0 (repeat 0 32))).
  - exact raspilotio_wf.
  - reflexivity.
  - vm_compute. auto 10.
Defined.

(** ** Before initialisation *)

Lemma C9_uninitialised_tick_negotiates :
  let s := negotiating 115200 in
  let h := world 0 sem_free bus_silent in
  _external s = false
  /\ _initialised (base s) = false
  /\ events_since h (snd (_timer_tick s h))
     = [EvGive; EvDelay 1000;
        EvTransfer (baud_packet 115200) (mkIOPacket 0 0 0 0 (repeat 0 32));
        EvTake true]
  /\ existsb is_bus_event (events_since h (snd (_timer_tick s h))) = true
  /\ fst (_timer_tick s h) <> s
  /\ fst (_write_fd [1; 2; 3] 3 s h) = -1.
Proof.
  cbv zeta. repeat split; try reflexivity.
  vm_compute. discriminate.
Qed.

Lemma C9_before_initialisation_witness :
  let s := RPIOUARTDriver_new None in
  let h := world 0 sem_free bus_silent in
  _external s = false
  /\ _initialised (base s) = false
  /\ (forall buf n, _write_fd buf n s h = (-1, (s, h)))
  /\ (forall n, _read_fd n s h = (-1, [], (s, h)))
  /\ base (fst (_timer_tick s h)) = base s
  /\ _last_update_timestamp (fst (_timer_tick s h)) = _last_update_timestamp s
  /\ (_need_set_baud s && negb (_baudrate s =? 0) = false ->
      _timer_tick s h = (set_need_set_baud false s, h))
  /\ (forall tx rx,
        In (EvTransfer tx rx) (events_since h (snd (_timer_tick s h))) ->
        tx = baud_packet (_baudrate s)
        /\ _need_set_baud s = true /\ _baudrate s <> 0).
Proof.
  cbv zeta. split; [reflexivity|]. split; [reflexivity|].
  apply (C9_before_initialisation
           (RPIOUARTDriver_new None) (world 0 sem_free bus_silent));
    reflexivity.
Defined.

(** ** Initialisation *)

Lemma C7_substitute_is_not_the_floor :
  (exists s' h',
     begin 2 57600 100 100 (RPIOUARTDriver_new None)
           (world 0 sem_free bus_silent) = Some (s', h')
     /\ _external s' = false
     /\ ByteBuffer.get_size (_readbuf (base s')) = 2048
     /\ ByteBuffer.get_size (_writebuf (base s')) = 2048)
  /\ (exists s' h',
        begin 2 57600 1024 1024 (RPIOUARTDriver_new None)
              (world 0 sem_free bus_silent) = Some (s', h')
        /\ ByteBuffer.get_size (_readbuf (base s')) = 1024
        /\ ByteBuffer.get_size (_writebuf (base s')) = 1024)
  /\ 2048 <> 1024.
Proof.
  split; [|split].
  - eexists _, _. split; [vm_compute; reflexivity|]. repeat split.
  - eexists _, _. split; [vm_compute; reflexivity|]. repeat split.
  - discriminate.
Qed.

Lemma C7_undersized_buffers_witness :
  exists s' h',
    _external (RPIOUARTDriver_new None) = false
    /\ hardware_uart_ready 57600 100 100 (RPIOUARTDriver_new None)
                           (world 0 sem_free bus_silent) = false
    /\ begin 2 57600 100 100 (RPIOUARTDriver_new None)
             (world 0 sem_free bus_silent) = Some (s', h')
    /\ (100 < 1024 -> ByteBuffer.get_size (_readbuf (base s')) = 2048)
    /\ (100 < 1024 -> ByteBuffer.get_size (_writebuf (base s')) = 2048)
    /\ (1024 <= 100 -> ByteBuffer.get_size (_readbuf (base s')) = 100)
    /\ (1024 <= 100 -> ByteBuffer.get_size (_writebuf (base s')) = 100)
    /\ _initialised (base s') = true.
Proof.
  eexists _, _. split; [reflexivity|]. split; [reflexivity|].
  split; [vm_compute; reflexivity|].
  eapply C7_undersized_buffers
    with (fuel := 2%nat) (b := 57600) (s := RPIOUARTDriver_new None)
         (h := world 0 sem_free bus_silent).
  - reflexivity.
  - reflexivity.
  - vm_compute. reflexivity.
Defined.

(** A device path is configured but the device cannot be opened: [begin]
    falls through to the packet protocol and returns after one tick. *)
Lemma C10_external_mode_witness :
  let s := RPIOUARTDriver_new (Some "/dev/ttyAMA0"%string) in
  let h := world 0 sem_free bus_silent in
  let u := fst (UARTDriver_begin 57600 2048 2048 (base s) h) in
  let h0 := snd (UARTDriver_begin 57600 2048 2048 (base s) h) in
  _external s = false
  /\ (device_path (base s) <> None -> is_initialized u = true ->
      begin 0 57600 2048 2048 s h = Some (set_external true (with_base u s), h0))
  /\ (device_path (base s) <> None -> is_initialized u = false ->
      begin 0 57600 2048 2048 s h
        = begin_virtual 0 57600 2048 2048 (with_base u s) h0
      /\ _external (with_base u s) = false
      /\ (_in_timer u = false ->
          57600 = 0 \/ hal_sem h0 (hal_takes h0) = true ->
          exists s' h',
            begin 2 57600 2048 2048 s h = Some (s', h')
            /\ _external s' = false))
  /\ (device_path (base s) = None ->
      begin 0 57600 2048 2048 s h = begin_virtual 0 57600 2048 2048 s h)
  /\ (forall s' h',
        begin 0 57600 2048 2048 s h = Some (s', h') ->
        (_external s' = true <->
         device_path (base s) <> None /\ is_initialized u = true)
        /\ (device_path (base s) <> None -> is_initialized u = false ->
            _external s' = false
            /\ _need_set_baud s' = false
            /\ _baudrate s' = 57600
            /\ (57600 <> 0 ->
                exists rx, In (EvTransfer (baud_packet 57600) rx)
                              (events_since h0 h')))).
Proof.
  cbv zeta. split; [reflexivity|].
  apply (C10_external_mode 0 57600 2048 2048
           (RPIOUARTDriver_new (Some "/dev/ttyAMA0"%string))
           (world 0 sem_free bus_silent)).
  reflexivity.
Defined.

(** On that board [begin] does return, in virtual mode, with the baud rate
    packet sent. *)
Example begin_falls_back_to_the_packet_protocol :
  exists s' h',
    begin 2 57600 2048 2048 (RPIOUARTDriver_new (Some "/dev/ttyAMA0"%string))
          (world 0 sem_free bus_silent) = Some (s', h')
    /\ isExternal s' = false
    /\ _initialised (base s') = true
    /\ hal_xfers h' = 1%nat.
Proof. eexists _, _. split; [vm_compute; reflexivity|]. repeat split. Qed.

End Raspilotio.

(** * The driver on a board with a hardware UART *)

Section HardwareUART.

#[local] Existing Instance raspilotio.
#[local] Existing Instance uart_available.

(** The device opens: [begin] returns at once, in external mode, without
    a single packet on the bus, and ticks go to the hardware UART. *)
Example begin_enters_external_mode :
  let s := RPIOUARTDriver_new (Some "/dev/ttyAMA0"%string) in
  let h := world 0 sem_busy bus_silent in
  exists s',
    begin 0 57600 2048 2048 s h = Some (s', h)
    /\ isExternal s' = true
    /\ _need_set_baud s' = false
    /\ _timer_tick s' h = (s', h).
Proof. cbv zeta. eexists. split; [vm_compute; reflexivity|]. repeat split. Qed.

End HardwareUART.

(** * Further properties of the driver *)

Section Transport.

Context `{px4io_protocol} `{UARTDriver_ops}.

(** ** What a tick may add to the trace *)

Lemma baud_block_events (s : RPIOUARTDriver) (h : HAL) :
  exists later,
    hal_trace (snd (snd (baud_block s h))) = later ++ hal_trace h
    /\ ((later = [] /\ fst (baud_block s h) = false)
        \/ (later = [EvTake false] /\ fst (baud_block s h) = true)
        \/ (exists tx rx, later = [EvGive; EvDelay 1000; EvTransfer tx rx; EvTake true]
                          /\ fst (baud_block s h) = false)).
Proof.
  destruct (_need_set_baud s && negb (_baudrate s =? 0)) eqn:N.
  - destruct (hal_sem h (hal_takes h)) eqn:F.
    + rewrite (baud_block_sent _ _ N F). simpl. rewrite F.
      eexists [_; _; _; _]. split; [reflexivity|]. right; right. eauto.
    + rewrite (baud_block_busy _ _ N F). simpl. rewrite F.
      exists [EvTake false]. auto.
  - rewrite (baud_block_idle _ _ N). exists []. auto.
Qed.

Lemma poll_cycle_events (s : RPIOUARTDriver) (h : HAL) :
  exists later,
    hal_trace (snd (poll_cycle s h)) = later ++ hal_trace h
    /\ (later = [] \/ later = [EvTake false]
        \/ exists tx1 rx1 tx2 rx2,
             later = [EvGive; EvDelay 100; EvTransfer tx2 rx2; EvDelay 100;
                      EvTransfer tx1 rx1; EvTake true]).
Proof.
  destruct (_initialised (base s)) eqn:I.
  2:{ rewrite poll_cycle_uninitialised by assumption. exists []. auto. }
  destruct (Z.lt_ge_cases (uint32_t (micros h - _last_update_timestamp s))
                          RPIOUART_POLL_TIME_INTERVAL) as [L|L].
  { rewrite poll_cycle_too_early by assumption. exists []. auto. }
  destruct (hal_sem h (hal_takes h)) eqn:F.
  - destruct (poll_cycle_serviced_trace _ _ I L F) as (rx1 & rx & T & _).
    eexists. split; [exact T|]. right; right. eauto.
  - rewrite (poll_cycle_busy _ _ I L F). simpl. rewrite F.
    exists [EvTake false]. auto.
Qed.


Lemma timer_tick_events (s : RPIOUARTDriver) (h : HAL) :
  _external s = false ->
  exists l1 l2,
    events_since h (snd (_timer_tick s h)) = l2 ++ l1
    /\ (l1 = [] \/ (l1 = [EvTake false] /\ l2 = [])
        \/ exists tx rx, l1 = [EvGive; EvDelay 1000; EvTransfer tx rx; EvTake true])
    /\ (l2 = [] \/ l2 = [EvTake false]
        \/ exists tx1 rx1 tx2 rx2,
             l2 = [EvGive; EvDelay 100; EvTransfer tx2 rx2; EvDelay 100;
                   EvTransfer tx1 rx1; EvTake true]).
Proof.
  intros E. rewrite timer_tick_virtual by assumption.
  destruct (baud_block_events s h) as (l1 & T1 & S1).
  destruct (baud_block s h) as [r [s1 h1]]. simpl in T1, S1.
  destruct r.
  - exists l1, []. split; [apply events_since_app; assumption|].
    split; [|auto].
    destruct S1 as [[_ X]|[[-> _]|(tx & rx & _ & X)]]; try discriminate. auto.
  - destruct (poll_cycle_events s1 h1) as (l2 & T2 & S2).
    exists l1, l2. split.
    + apply events_since_app. rewrite T2, T1, app_assoc. reflexivity.
    + split; [|assumption].
      destruct S1 as [[-> _]|[[_ X]|(tx & rx & -> & _)]]; try discriminate; eauto.
Qed.

Lemma timer_tick_bracketed (s : RPIOUARTDriver) (h : HAL) :
  _external s = false ->
  well_bracketed false (rev (events_since h (snd (_timer_tick s h)))) = true
  /\ (In (EvTake false) (events_since h (snd (_timer_tick s h))) ->
      hd_error (events_since h (snd (_timer_tick s h))) = Some (EvTake false)).
Proof.
  intros E. destruct (timer_tick_events s h E) as (l1 & l2 & -> & S1 & S2).
  assert (S2' : l1 = [EvTake false] -> l2 = [])
    by (destruct S1 as [->|[[_ L]|(tx & rx & ->)]]; auto; discriminate).
  destruct S1 as [->|[[-> _]|(tx & rx & ->)]].
  - destruct S2 as [->|[->|(tx1 & rx1 & tx2 & rx2 & ->)]];
      simpl; (split; [reflexivity|]); try reflexivity;
      intros X; repeat (destruct X as [X|X]; [discriminate X|]); destruct X.
  - rewrite (S2' eq_refl). simpl. auto.
  - destruct S2 as [->|[->|(tx1 & rx1 & tx2 & rx2 & ->)]];
      simpl; (split; [reflexivity|]); try reflexivity;
      intros X; repeat (destruct X as [X|X]; [discriminate X|]); destruct X.
Qed.

(** X1.  The semaphore discipline of a tick.  Whatever the semaphore and
    the remote side do, a virtual-mode tick makes every transfer with the
    semaphore held, releases it each time it got it and returns with it
    free; if an attempt on the semaphore fails, that attempt is the last
    thing the tick does. *)
Theorem X1_tick_well_bracketed (s : RPIOUARTDriver) (h : HAL) :
  _external s = false ->
  well_bracketed false (rev (events_since h (snd (_timer_tick s h)))) = true
  /\ (In (EvTake false) (events_since h (snd (_timer_tick s h))) ->
      hd_error (events_since h (snd (_timer_tick s h))) = Some (EvTake false)).
Proof. exact (timer_tick_bracketed s h). Qed.

(** ** What a tick leaves alone *)

(** X2.  In virtual mode a tick never changes the baud rate, the mode,
    the device path, the initialised flag or the capacity of either
    buffer, and it never raises a baud rate request: [_need_set_baud] is
    set after the tick only if it was set before. *)
Theorem X2_tick_frame (s : RPIOUARTDriver) (h : HAL) :
  _external s = false ->
  let s' := fst (_timer_tick s h) in
  _external s' = false
  /\ _baudrate s' = _baudrate s
  /\ device_path (base s') = device_path (base s)
  /\ _initialised (base s') = _initialised (base s)
  /\ ByteBuffer.get_size (_readbuf (base s')) = ByteBuffer.get_size (_readbuf (base s))
  /\ ByteBuffer.get_size (_writebuf (base s')) = ByteBuffer.get_size (_writebuf (base s))
  /\ (_need_set_baud s' = true -> _need_set_baud s = true).
Proof.
  destruct s as [[dp ini it rb wb] t e n bd]. simpl. intros ->.
  unfold _timer_tick, baud_block, poll_cycle, on_base, with_base; simpl.
  destruct n; simpl.
  - destruct (bd =? 0); simpl.
    + destruct ini; simpl; [|repeat split].
      destruct (_ <? _); simpl; [repeat split|].
      destruct (hal_sem h (hal_takes h)); simpl; [|repeat split].
      destruct (page _ =? PX4IO_PAGE_UART_BUFFER); simpl; repeat split.
    + destruct (hal_sem h (hal_takes h)); simpl; [|repeat split].
      destruct ini; simpl; [|repeat split].
      destruct (_ <? _); simpl; [repeat split|].
      destruct (hal_sem h (S (hal_takes h))); simpl; [|repeat split].
      destruct (page _ =? PX4IO_PAGE_UART_BUFFER); simpl; repeat split.
  - destruct ini; simpl; [|repeat split; auto].
    destruct (_ <? _); simpl; [repeat split; auto|].
    destruct (hal_sem h (hal_takes h)); simpl; [|repeat split; auto].
    destruct (page _ =? PX4IO_PAGE_UART_BUFFER); simpl; repeat split; auto.
Qed.

(** A tick that is not a serviced cycle leaves both buffers and the
    timestamp as they are. *)
Lemma timer_tick_unserviced (s : RPIOUARTDriver) (h : HAL) :
  _external s = false ->
  serviced s h = false ->
  _readbuf (base (fst (_timer_tick s h))) = _readbuf (base s)
  /\ _writebuf (base (fst (_timer_tick s h))) = _writebuf (base s)
  /\ _last_update_timestamp (fst (_timer_tick s h)) = _last_update_timestamp s.
Proof.
  intros E S. rewrite timer_tick_virtual by assumption.
  unfold serviced in S. rewrite E in S. simpl in S.
  destruct (baud_block s h) as [r [s1 h1]] eqn:B.
  destruct (baud_block_frame _ _ _ _ _ B) as (Hb & Ht & _).
  destruct r; simpl in *; [rewrite Hb, Ht; auto|].
  rewrite <- Hb, <- Ht.
  destruct (_initialised (base s1)) eqn:I; simpl in S.
  2:{ rewrite poll_cycle_uninitialised by assumption. auto. }
  destruct (Z.lt_ge_cases (uint32_t (micros h1 - _last_update_timestamp s1))
                          RPIOUART_POLL_TIME_INTERVAL) as [L|L].
  { rewrite poll_cycle_too_early by assumption. auto. }
  pose proof L as L'. apply Z.ltb_ge in L'. rewrite L' in S. simpl in S.
  rewrite (poll_cycle_busy _ _ I L S). simpl. auto.
Qed.

(** X3.  The direction of the two queues.  A virtual-mode tick only takes
    bytes from the front of the outbound buffer and only adds bytes at the
    back of the inbound buffer: what was queued outbound is what was taken
    followed by what is left, and what is queued inbound afterwards starts
    with what was there. *)
Theorem X3_tick_queue_direction (s : RPIOUARTDriver) (h : HAL) :
  _external s = false ->
  let s' := fst (_timer_tick s h) in
  (exists taken,
     ByteBuffer.bytes (_writebuf (base s))
       = taken ++ ByteBuffer.bytes (_writebuf (base s'))
     /\ Z.of_nat (List.length taken) = drained s s')
  /\ (exists added,
        ByteBuffer.bytes (_readbuf (base s'))
          = ByteBuffer.bytes (_readbuf (base s)) ++ added
        /\ added = appended s s').
Proof.
  intros E. cbv zeta. unfold drained, appended.
  destruct (serviced s h) eqn:S.
  - destruct (serviced_inv _ _ S) as (_ & s1 & h1 & B & Hb & Hr & I & L & F & T).
    rewrite T, (poll_cycle_serviced_writebuf _ _ I L F),
      (poll_cycle_serviced_readbuf _ _ I L F), Hb. cbv zeta. split.
    + unfold ByteBuffer.read. simpl.
      eexists. split; [symmetry; apply firstn_skipn|].
      unfold ByteBuffer.available. simpl.
      rewrite length_skipn, length_firstn. lia.
    + eexists. split; [|reflexivity].
      destruct (page _ =? PX4IO_PAGE_UART_BUFFER).
      * unfold ByteBuffer.write. simpl.
        rewrite skipn_app, skipn_all, Nat.sub_diag. reflexivity.
      * rewrite skipn_all, app_nil_r. reflexivity.
  - destruct (timer_tick_unserviced s h E S) as (-> & -> & _). split.
    + exists []. split; [reflexivity|]. simpl. lia.
    + exists []. rewrite skipn_all, app_nil_r. auto.
Qed.

(** ** Bytes and registers *)

Lemma byte_pair (b0 b1 : Z) :
  0 <= b0 < 256 -> 0 <= b1 < 256 ->
  (b0 + 256 * b1) mod 256 = b0 /\ ((b0 + 256 * b1) / 256) mod 256 = b1.
Proof.
  intros P0 P1. split.
  - rewrite Z.mul_comm, Z.mod_add by lia. apply Z.mod_small. exact P0.
  - rewrite Z.mul_comm, Z.div_add by lia.
    rewrite (Z.div_small b0 256) by exact P0. apply Z.mod_small. exact P1.
Qed.

Lemma bytes_of_regs_of_bytes (k : nat) (l : list Z) :
  List.length l = (2 * k)%nat ->
  Forall (fun b => 0 <= b < 256) l ->
  bytes_of_regs (regs_of_bytes l) = l /\ List.length (regs_of_bytes l) = k.
Proof.
  revert l. induction k as [|k IH]; intros l L F.
  - destruct l; [split; reflexivity|discriminate].
  - destruct l as [|b0 [|b1 l]]; try (simpl in L; lia).
    inversion F as [|? ? P0 F']; subst. inversion F' as [|? ? P1 F'']; subst.
    destruct (IH l) as [R1 R2]; [simpl in L; lia|assumption|].
    destruct (byte_pair b0 b1 P0 P1) as [E0 E1].
    change (regs_of_bytes (b0 :: b1 :: l)) with ((b0 + 256 * b1) :: regs_of_bytes l).
    change (bytes_of_regs ((b0 + 256 * b1) :: regs_of_bytes l))
      with ((b0 + 256 * b1) mod 256 :: ((b0 + 256 * b1) / 256) mod 256
            :: bytes_of_regs (regs_of_bytes l)).
    rewrite E0, E1, R1. simpl. rewrite R2. split; reflexivity.
Qed.

Lemma firstn_zeros (n m : nat) :
  (n <= m)%nat -> firstn n (repeat 0 m) = repeat 0 n.
Proof.
  revert m. induction n as [|n IH]; intros m L; [reflexivity|].
  destruct m as [|m]; [lia|]. simpl. rewrite IH by lia. reflexivity.
Qed.

Lemma padded_bytes (k : nat) (bs : list Z) :
  (List.length bs <= 2 * k)%nat ->
  firstn (2 * k) (bs ++ repeat 0 (2 * k))
    = bs ++ repeat 0 (2 * k - List.length bs).
Proof.
  intros L. rewrite firstn_app, firstn_all2 by lia.
  f_equal. apply firstn_zeros. lia.
Qed.

(** The register array that [store_bytes] fills reads back, byte by byte,
    as the bytes stored followed by zeros. *)
Lemma bytes_of_store_bytes (k : nat) (bs : list Z) :
  (List.length bs <= 2 * k)%nat ->
  Forall (fun b => 0 <= b < 256) bs ->
  bytes_of_regs (store_bytes k bs) = bs ++ repeat 0 (2 * k - List.length bs)
  /\ List.length (store_bytes k bs) = k.
Proof.
  intros L F. unfold store_bytes. rewrite padded_bytes by assumption.
  apply bytes_of_regs_of_bytes.
  - rewrite length_app, repeat_length. lia.
  - apply Forall_app. split; [assumption|].
    apply Forall_forall. intros x X. apply repeat_spec in X. lia.
Qed.

Lemma regs_of_bytes_length (k : nat) (l : list Z) :
  List.length l = (2 * k)%nat -> List.length (regs_of_bytes l) = k.
Proof.
  revert l. induction k as [|k IH]; intros l L.
  - destruct l; [reflexivity|discriminate].
  - destruct l as [|b0 [|b1 l]]; try (simpl in L; lia).
    change (regs_of_bytes (b0 :: b1 :: l)) with ((b0 + 256 * b1) :: regs_of_bytes l).
    simpl. rewrite IH; [reflexivity|simpl in L; lia].
Qed.

Lemma store_bytes_length (k : nat) (bs : list Z) :
  List.length (store_bytes k bs) = k.
Proof.
  unfold store_bytes. apply regs_of_bytes_length.
  rewrite length_firstn, length_app, repeat_length. lia.
Qed.

Lemma store_reg_length (i : nat) (v : Z) (rs : list Z) :
  List.length (store_reg i v rs) = List.length rs.
Proof.
  revert i. induction rs as [|r rs IH]; intros i; [destruct i; reflexivity|].
  destruct i; simpl; [reflexivity|]. rewrite IH. reflexivity.
Qed.

Lemma Forall_prefix (P : Z -> Prop) (n : nat) (l : list Z) :
  Forall P l -> Forall P (firstn n l).
Proof.
  revert l. induction n as [|n IH]; intros l F; [constructor|].
  destruct F; simpl; constructor; auto.
Qed.

(** The bytes a serviced cycle takes from the outbound buffer. *)
Lemma serviced_taken (s : RPIOUARTDriver) (h : HAL) :
  serviced s h = true ->
  let n := drained s (fst (_timer_tick s h)) in
  let taken := firstn (Z.to_nat n) (ByteBuffer.bytes (_writebuf (base s))) in
  0 <= n <= Z.of_nat PKT_MAX_REGS * 2
  /\ Z.of_nat (List.length taken) = n
  /\ ByteBuffer.bytes (_writebuf (base (fst (_timer_tick s h))))
     = skipn (Z.to_nat n) (ByteBuffer.bytes (_writebuf (base s)))
  /\ exists rx1 rx later,
       hal_trace (snd (_timer_tick s h)) =
         [EvGive; EvDelay 100; EvTransfer (read_packet (spiuart_packet taken n)) rx;
          EvDelay 100; EvTransfer (spiuart_packet taken n) rx1; EvTake true]
         ++ later ++ hal_trace h.
Proof.
  intros S. cbv zeta. rewrite (serviced_drained _ _ S).
  destruct (serviced_inv _ _ S) as (_ & s1 & h1 & B & Hb & Hr & I & L & F & T).
  rewrite B. cbn [fst snd].
  pose proof (tx_count_min s1) as N.
  pose proof (available_nonneg (_writebuf (base s1))) as A.
  pose proof (uint16_t_range (_baudrate s1 / 10 / (1000000 / RPIOUART_POLL_TIME_INTERVAL))) as U.
  assert (R : 0 <= tx_count s1 <= ByteBuffer.available (_writebuf (base s1))) by lia.
  assert (K : Z.to_nat (Z.min (tx_count s1) (ByteBuffer.available (_writebuf (base s1))))
              = Z.to_nat (tx_count s1)) by (f_equal; lia).
  split; [lia|]. split; [|split].
  - rewrite length_firstn, <- Hb. unfold ByteBuffer.available in R. lia.
  - rewrite T, (poll_cycle_serviced_writebuf _ _ I L F).
    unfold ByteBuffer.read. simpl. rewrite K, Hb. reflexivity.
  - destruct (poll_cycle_serviced_trace _ _ I L F) as (rx1 & rx & T2 & _).
    destruct (baud_block_trace _ _ _ _ _ B) as (l1 & T1 & _).
    exists rx1, rx, l1. rewrite T, T2, T1.
    unfold ByteBuffer.read. simpl. rewrite K, Hb. reflexivity.
Qed.

(** X4.  What goes out is what was queued.  In a serviced cycle, with the
    outbound buffer holding bytes, the bulk transfer packet put on the bus
    carries in its register array exactly the bytes taken from the front
    of the buffer, in order, followed by zeros, its offset field is their
    number, and the buffer keeps the rest. *)
Theorem X4_outbound_payload (s : RPIOUARTDriver) (h : HAL) :
  serviced s h = true ->
  Forall (fun b => 0 <= b < 256) (ByteBuffer.bytes (_writebuf (base s))) ->
  let s' := fst (_timer_tick s h) in
  exists tx rx taken,
    In (EvTransfer tx rx) (events_since h (snd (_timer_tick s h)))
    /\ count_code tx = Z.lor (Z.of_nat PKT_MAX_REGS) PKT_CODE_SPIUART
    /\ ByteBuffer.bytes (_writebuf (base s))
       = taken ++ ByteBuffer.bytes (_writebuf (base s'))
    /\ offset tx = Z.of_nat (List.length taken)
    /\ bytes_of_regs (regs tx)
       = taken ++ repeat 0 (2 * PKT_MAX_REGS - List.length taken).
Proof.
  intros S F. cbv zeta.
  destruct (serviced_taken _ _ S) as (R & Ln & W & rx1 & rx & later & T).
  set (n := drained s (fst (_timer_tick s h))) in *.
  set (taken := firstn (Z.to_nat n) (ByteBuffer.bytes (_writebuf (base s)))) in *.
  exists (spiuart_packet taken n), rx1, taken.
  rewrite app_assoc in T. rewrite (events_since_app _ _ _ T).
  split; [apply in_or_app; left; do 4 right; left; reflexivity|].
  split; [reflexivity|].
  split; [rewrite W; symmetry; apply firstn_skipn|].
  split; [simpl; lia|].
  simpl. apply bytes_of_store_bytes.
  - lia.
  - subst taken. apply Forall_prefix. exact F.
Qed.

(** X5.  Loop back.  In a serviced cycle whose read request is answered
    with the very bulk packet the cycle has just sent, and whose inbound
    buffer has room for it, the bytes taken from the outbound buffer arrive
    at the back of the inbound buffer, the same bytes in the same order. *)
Theorem X5_loopback (s : RPIOUARTDriver) (h : HAL) (tx : IOPacket) :
  serviced s h = true ->
  Forall (fun b => 0 <= b < 256) (ByteBuffer.bytes (_writebuf (base s))) ->
  let s' := fst (_timer_tick s h) in
  let n := drained s s' in
  let taken := firstn (Z.to_nat n) (ByteBuffer.bytes (_writebuf (base s))) in
  last_transfer (hal_trace (snd (_timer_tick s h)))
    = Some (tx, spiuart_packet taken n) ->
  n <= ByteBuffer.space (_readbuf (base s)) ->
  ByteBuffer.bytes (_writebuf (base s))
    = taken ++ ByteBuffer.bytes (_writebuf (base s'))
  /\ ByteBuffer.bytes (_readbuf (base s'))
     = ByteBuffer.bytes (_readbuf (base s)) ++ taken.
Proof.
  intros S F. cbv zeta. intros LT Sp.
  destruct (serviced_taken _ _ S) as (R & Ln & W & _).
  set (n := drained s (fst (_timer_tick s h))) in *.
  set (taken := firstn (Z.to_nat n) (ByteBuffer.bytes (_writebuf (base s)))) in *.
  split; [rewrite W; symmetry; apply firstn_skipn|].
  destruct (serviced_inv _ _ S) as (_ & s1 & h1 & B & Hb & Hr & I & L & Fr & T).
  destruct (poll_cycle_serviced_trace _ _ I L Fr) as (rx1 & rx' & T2 & Rx).
  rewrite T in LT. rewrite T2 in LT. simpl in LT.
  injection LT as _ Erx. rewrite Erx in Rx. clear Erx T2.
  rewrite T, (poll_cycle_serviced_readbuf _ _ I L Fr). cbv zeta.
  rewrite <- Rx, Hb.
  assert (P : (page (spiuart_packet taken n) =? PX4IO_PAGE_UART_BUFFER) = true)
    by apply Z.eqb_refl.
  rewrite P.
  pose proof (rx_count_min s1 (spiuart_packet taken n)) as N.
  rewrite Hb in N. simpl offset in N.
  unfold ByteBuffer.write. simpl.
  replace (Z.min (rx_count s1 (spiuart_packet taken n))
                 (ByteBuffer.space (_readbuf (base s))))
    with n by lia.
  f_equal.
  assert (Fk : Forall (fun b => 0 <= b < 256) taken).
  { subst taken. apply Forall_prefix. exact F. }
  assert (Lk : (List.length taken <= 2 * PKT_MAX_REGS)%nat) by lia.
  rewrite (proj1 (bytes_of_store_bytes PKT_MAX_REGS taken Lk Fk)).
  rewrite firstn_app.
  replace (Z.to_nat n - List.length taken)%nat with 0%nat by lia.
  rewrite firstn_all2 by lia. simpl. apply app_nil_r.
Qed.

(** ** Packets on the wire *)

(** X6.  Every packet a virtual-mode tick puts on the bus is a whole
    packet and is sealed: its register array has [PKT_MAX_REGS] entries and
    its integrity field is [crc_packet] of the packet with that field at
    zero. *)
Theorem X6_packets_sealed (s : RPIOUARTDriver) (h : HAL) (tx rx : IOPacket) :
  _external s = false ->
  In (EvTransfer tx rx) (events_since h (snd (_timer_tick s h))) ->
  List.length (regs tx) = PKT_MAX_REGS
  /\ crc tx = crc_packet (set_crc 0 tx).
Proof.
  intros E X.
  destruct (timer_tick_trace s h E) as (later & T & P).
  rewrite (events_since_app _ _ _ T) in X.
  destruct (P _ _ X) as [->|[_ [[data ->]|[p ->]]]].
  - split; [|reflexivity]. unfold baud_packet. cbn -[store_reg repeat].
    rewrite !store_reg_length. apply repeat_length.
  - split; [|reflexivity]. unfold spiuart_packet. cbn -[store_bytes].
    apply store_bytes_length.
  - split; [|reflexivity]. simpl. apply repeat_length.
Qed.

(** X7.  The baud rate survives the packet.  For a 32-bit baud rate the
    first two registers of the baud rate packet are its low and high
    halves: each fits sixteen bits and [low + 65536 * high] is the rate. *)
Theorem X7_baud_packet_round_trip (b : Z) :
  (2 <= PKT_MAX_REGS)%nat ->
  0 <= b < 2 ^ 32 ->
  let lo := nth 0 (regs (baud_packet b)) 0 in
  let hi := nth 1 (regs (baud_packet b)) 0 in
  0 <= lo < 65536 /\ 0 <= hi < 65536 /\ lo + 65536 * hi = b.
Proof.
  intros K B. cbv zeta. unfold baud_packet, IOPacket_zero.
  destruct PKT_MAX_REGS as [|[|k]]; [lia|lia|].
  cbn -[Z.mul Z.land Z.shiftr].
  change 65535 with (Z.ones 16).
  rewrite Z.land_ones, Z.shiftr_div_pow2 by lia.
  change (2 ^ 16) with 65536.
  pose proof (Z.mod_pos_bound b 65536 ltac:(lia)).
  pose proof (Z.div_mod b 65536 ltac:(lia)).
  assert (b / 65536 < 65536) by (apply Z.div_lt_upper_bound; lia).
  assert (0 <= b / 65536) by (apply Z.div_pos; lia).
  lia.
Qed.

(** ** The pace of the poll *)

Lemma baud_block_clears (s s1 : RPIOUARTDriver) (h h1 : HAL) :
  baud_block s h = (false, (s1, h1)) -> _need_set_baud s1 = false.
Proof.
  unfold baud_block. destruct s as [u t e n b]. simpl.
  destruct n; [destruct (b =? 0)|]; simpl.
  - intros X; inversion X; reflexivity.
  - destruct (hal_sem h (hal_takes h)); simpl; intros X; inversion X; reflexivity.
  - intros X; inversion X; reflexivity.
Qed.

Lemma poll_cycle_serviced_fields (s : RPIOUARTDriver) (h : HAL) :
  _initialised (base s) = true ->
  RPIOUART_POLL_TIME_INTERVAL <= uint32_t (micros h - _last_update_timestamp s) ->
  hal_sem h (hal_takes h) = true ->
  _external (fst (poll_cycle s h)) = _external s
  /\ _need_set_baud (fst (poll_cycle s h)) = _need_set_baud s
  /\ _in_timer (base (fst (poll_cycle s h))) = false
  /\ _last_update_timestamp (fst (poll_cycle s h)) = micros (snd (poll_cycle s h))
  /\ hal_clock (snd (poll_cycle s h)) = hal_clock h + 200.
Proof.
  intros I L F. rewrite (poll_cycle_serviced _ _ I L F). simpl.
  repeat split. lia.
Qed.

(** X8.  Serviced cycles are at least a poll interval apart.  After a
    serviced cycle, a tick entered less than 10000 microseconds later on
    the clock does nothing at all: no attempt on the semaphore, no
    transfer, no change to the driver. *)
Theorem X8_poll_interval (s : RPIOUARTDriver) (h h2 : HAL) :
  serviced s h = true ->
  0 <= hal_clock h2 - hal_clock (snd (_timer_tick s h))
    < RPIOUART_POLL_TIME_INTERVAL ->
  let s' := fst (_timer_tick s h) in
  serviced s' h2 = false /\ _timer_tick s' h2 = (s', h2).
Proof.
  intros S D. cbv zeta.
  destruct (serviced_inv _ _ S) as (E & s1 & h1 & B & Hb & Hr & I & L & F & T).
  pose proof (baud_block_clears _ _ _ _ B) as N.
  destruct (baud_block_frame _ _ _ _ _ B) as (_ & _ & E1 & _).
  destruct (poll_cycle_serviced_fields _ _ I L F) as (E2 & N2 & _ & Ts & _).
  rewrite T in *.
  set (s' := fst (poll_cycle s1 h1)) in *.
  set (h' := snd (poll_cycle s1 h1)) in *.
  assert (E' : _external s' = false) by congruence.
  assert (N' : _need_set_baud s' = false) by congruence.
  assert (N0 : _need_set_baud s' && negb (_baudrate s' =? 0) = false)
    by (rewrite N'; reflexivity).
  assert (Q : uint32_t (micros h2 - _last_update_timestamp s')
              < RPIOUART_POLL_TIME_INTERVAL).
  { rewrite Ts. unfold micros, uint32_t.
    rewrite <- Zminus_mod.
    unfold RPIOUART_POLL_TIME_INTERVAL in *.
    rewrite Z.mod_small; lia. }
  assert (S' : set_need_set_baud false s' = s').
  { destruct s' as [u t e n b]. simpl in N'. subst n. reflexivity. }
  split.
  - unfold serviced. rewrite E', (baud_block_idle _ _ N0), S'. simpl.
    apply Z.ltb_lt in Q. rewrite Q.
    destruct (_initialised (base s')); reflexivity.
  - rewrite timer_tick_virtual by assumption.
    rewrite (baud_block_idle _ _ N0), S'.
    apply poll_cycle_too_early. exact Q.
Qed.

(** ** The handshake of [begin] *)

Lemma timer_tick_keeps_sem (s : RPIOUARTDriver) (h : HAL) :
  _external s = false ->
  hal_sem (snd (_timer_tick s h)) = hal_sem h.
Proof.
  destruct s as [[dp ini it rb wb] t e n bd]. simpl. intros ->.
  unfold _timer_tick, baud_block, poll_cycle; simpl.
  destruct n; simpl.
  - destruct (bd =? 0); simpl.
    + destruct ini; simpl; [|reflexivity].
      destruct (_ <? _); simpl; [reflexivity|].
      destruct (hal_sem h (hal_takes h)); reflexivity.
    + destruct (hal_sem h (hal_takes h)); simpl; [|reflexivity].
      destruct ini; simpl; [|reflexivity].
      destruct (_ <? _); simpl; [reflexivity|].
      destruct (hal_sem h (S (hal_takes h))); reflexivity.
  - destruct ini; simpl; [|reflexivity].
    destruct (_ <? _); simpl; [reflexivity|].
    destruct (hal_sem h (hal_takes h)); reflexivity.
Qed.

(** One wait of [begin] on its request while the semaphore is busy: the
    attempt is spent and nothing else changes. *)
Lemma scheduler_delay_busy (s : RPIOUARTDriver) (h : HAL) :
  _external s = false ->
  _need_set_baud s = true ->
  _baudrate s <> 0 ->
  hal_sem h (hal_takes h) = false ->
  scheduler_delay 1 s h = (s, snd (take_nonblocking (delay 1 h))).
Proof.
  intros E N B F. unfold scheduler_delay.
  rewrite timer_tick_virtual by assumption.
  rewrite baud_block_busy; [reflexivity| |exact F].
  rewrite N. apply Z.eqb_neq in B. rewrite B. reflexivity.
Qed.

(** The same wait with the semaphore free: the baud rate goes out and the
    request is cleared; an uninitialised driver does nothing more. *)
Lemma scheduler_delay_free (s : RPIOUARTDriver) (h : HAL) :
  _external s = false ->
  _need_set_baud s = true ->
  _baudrate s <> 0 ->
  _initialised (base s) = false ->
  hal_sem h (hal_takes h) = true ->
  scheduler_delay 1 s h =
    (set_need_set_baud false s,
     give (delay 1 (snd (transfer (baud_packet (_baudrate s))
                                  (snd (take_nonblocking (delay 1 h))))))).
Proof.
  intros E N B I F. unfold scheduler_delay.
  rewrite timer_tick_virtual by assumption.
  rewrite baud_block_sent; [|rewrite N; apply Z.eqb_neq in B; rewrite B; reflexivity|exact F].
  apply poll_cycle_uninitialised. destruct s as [[] ]. exact I.
Qed.

Lemma wait_need_busy (fuel : nat) (s : RPIOUARTDriver) (h : HAL) :
  _external s = false ->
  _need_set_baud s = true ->
  _baudrate s <> 0 ->
  (forall i, (i < fuel)%nat -> hal_sem h (hal_takes h + i) = false) ->
  wait_while _need_set_baud fuel s h = None.
Proof.
  revert h. induction fuel as [|fuel IH]; intros h E N B F; [reflexivity|].
  simpl. rewrite N.
  rewrite scheduler_delay_busy; try assumption.
  2:{ specialize (F 0%nat ltac:(lia)). rewrite Nat.add_0_r in F. exact F. }
  apply IH; try assumption.
  intros i L. simpl. specialize (F (S i) ltac:(lia)).
  rewrite Nat.add_succ_r in F. exact F.
Qed.

Lemma wait_need_busy_then_free (k extra : nat) (s : RPIOUARTDriver) (h : HAL) :
  _external s = false ->
  _need_set_baud s = true ->
  _baudrate s <> 0 ->
  _initialised (base s) = false ->
  (forall i, (i < k)%nat -> hal_sem h (hal_takes h + i) = false) ->
  hal_sem h (hal_takes h + k) = true ->
  exists h',
    wait_while _need_set_baud (S (S (k + extra))) s h
      = Some (set_need_set_baud false s, h')
    /\ hal_takes h' = S (hal_takes h + k)
    /\ hal_xfers h' = S (hal_xfers h)
    /\ hal_clock h' = hal_clock h + 1000 * (Z.of_nat k + 2).
Proof.
  revert h. induction k as [|k IH]; intros h E N B I Fb Ff.
  - rewrite Nat.add_0_r in Ff. cbn [wait_while Nat.add]. rewrite N.
    rewrite scheduler_delay_free by assumption.
    cbn [wait_while _need_set_baud set_need_set_baud].
    eexists. split; [reflexivity|].
    cbn -[Z.mul Z.add Z.of_nat]. repeat split; lia.
  - cbn [wait_while Nat.add]. rewrite N.
    rewrite scheduler_delay_busy; try assumption.
    2:{ specialize (Fb 0%nat ltac:(lia)). rewrite Nat.add_0_r in Fb. exact Fb. }
    destruct (IH (snd (take_nonblocking (delay 1 h)))) as (h' & W & T & X & C);
      try assumption.
    + intros i L. simpl. specialize (Fb (S i) ltac:(lia)).
      rewrite Nat.add_succ_r in Fb. exact Fb.
    + simpl. rewrite Nat.add_succ_r in Ff. exact Ff.
    + exists h'. split; [exact W|].
      cbn -[Z.mul Z.add Z.of_nat] in T, X, C. repeat split; lia.
Qed.

(** X9.  [begin] has no time limit of its own.  In virtual mode, with a
    non-zero baud rate, [begin] returns only once a tick has got the
    semaphore: as long as every attempt fails it is still waiting,
    whatever the number of waits allowed. *)
Theorem X9_begin_waits_for_the_bus (fuel : nat) (b rxS txS : Z)
  (s : RPIOUARTDriver) (h : HAL) :
  _external s = false ->
  b <> 0 ->
  (forall k, hal_sem h k = false) ->
  begin_virtual fuel b rxS txS s h = None.
Proof.
  intros E B F. unfold begin_virtual. cbv zeta.
  destruct (wait_while _ fuel (on_base _ s) h) as [[s2 h2]|] eqn:W1;
    [|reflexivity].
  apply (wait_while_inv
           (fun s1 h1 => _external s1 = false /\ hal_sem h1 = hal_sem h)) in W1.
  2:{ intros s1 h1 (E1 & S1) _. unfold scheduler_delay. split.
      - apply timer_tick_keeps_mode. assumption.
      - rewrite timer_tick_keeps_sem by assumption. exact S1. }
  2:{ split; [destruct s as [[] ]; assumption|reflexivity]. }
  destruct W1 as ((E2 & S2) & _).
  rewrite wait_need_busy; [reflexivity| | | |].
  - destruct s2 as [[] ]. exact E2.
  - reflexivity.
  - exact B.
  - intros i _. rewrite S2. apply F.
Qed.

(** X10.  [begin] returns with the first tick that gets the semaphore.
    In virtual mode, with the timer context idle and a non-zero baud rate,
    if the semaphore is busy for [k] attempts and free at the next,
    [begin] returns after [k + 1] waits of a millisecond: the driver is
    initialised with the baud rate recorded and the request served, one
    packet has gone over the bus, and the clock has advanced by [k + 2]
    milliseconds. *)
Theorem X10_begin_returns_with_the_bus (k extra : nat) (b rxS txS : Z)
  (s : RPIOUARTDriver) (h : HAL) :
  _external s = false ->
  _in_timer (base s) = false ->
  b <> 0 ->
  (forall i, (i < k)%nat -> hal_sem h (hal_takes h + i) = false) ->
  hal_sem h (hal_takes h + k) = true ->
  exists s' h',
    begin_virtual (S (S (k + extra))) b rxS txS s h = Some (s', h')
    /\ _initialised (base s') = true
    /\ _need_set_baud s' = false
    /\ _baudrate s' = b
    /\ hal_takes h' = S (hal_takes h + k)
    /\ hal_xfers h' = S (hal_xfers h)
    /\ hal_clock h' = hal_clock h + 1000 * (Z.of_nat k + 2).
Proof.
  destruct s as [[dp ini it rb wb] t e n bd]. simpl. intros -> -> B Fb Ff.
  set (s0 := on_base (set_initialised false)
               (mkRPIOUARTDriver (mkUARTDriver dp ini false rb wb) t false n bd)).
  assert (W1 : wait_while (fun s => _in_timer (base s)) (S (S (k + extra))) s0 h
               = Some (s0, h)) by reflexivity.
  unfold begin_virtual. cbv zeta. fold s0. rewrite W1.
  set (rxS' := if rxS <? 1024 then 2048 else rxS).
  set (txS' := if txS <? 1024 then 2048 else txS).
  set (s4 := set_need_set_baud true _).
  destruct (wait_need_busy_then_free k extra s4 h) as (h' & W & Tk & X & C);
    try assumption; try reflexivity.
  rewrite W.
  assert (NZ : negb (ByteBuffer.get_size
                       (_writebuf (base (set_need_set_baud false s4))) =? 0)
               && negb (ByteBuffer.get_size
                          (_readbuf (base (set_need_set_baud false s4))) =? 0)
               = true).
  { subst s4. simpl. subst rxS' txS'.
    destruct (Z.ltb_spec rxS 1024), (Z.ltb_spec txS 1024);
      apply andb_true_iff; split; apply negb_true_iff, Z.eqb_neq; lia. }
  rewrite NZ. eexists _, h'. split; [reflexivity|].
  repeat split; assumption.
Qed.

(** X11.  A baud rate of zero needs no bus.  In virtual mode, with the
    timer context idle, [begin(0, ...)] returns after a single wait and
    the world shows that one delay only: no attempt on the semaphore and
    no transfer, even with the semaphore busy. *)
Theorem X11_begin_zero_baud (fuel : nat) (rxS txS : Z)
  (s : RPIOUARTDriver) (h : HAL) :
  _external s = false ->
  _in_timer (base s) = false ->
  exists s',
    begin_virtual (S (S fuel)) 0 rxS txS s h = Some (s', delay 1 h)
    /\ _initialised (base s') = true
    /\ _need_set_baud s' = false
    /\ _baudrate s' = 0.
Proof.
  destruct s as [[dp ini it rb wb] t e n bd]. simpl. intros -> ->.
  unfold begin_virtual. cbv zeta. simpl.
  unfold scheduler_delay, _timer_tick, baud_block. simpl.
  assert (NZ : forall a c : Z,
             negb ((if a <? 1024 then 2048 else a) =? 0)
             && negb ((if c <? 1024 then 2048 else c) =? 0) = true).
  { intros a c. destruct (Z.ltb_spec a 1024), (Z.ltb_spec c 1024);
      apply andb_true_iff; split; apply negb_true_iff, Z.eqb_neq; lia. }
  rewrite NZ. eexists. split; [reflexivity|]. repeat split.
Qed.

(** ** When [begin] cannot return *)

Lemma wait_need_external (fuel : nat) (s : RPIOUARTDriver) (h : HAL) :
  _external s = true ->
  _need_set_baud s = true ->
  wait_while _need_set_baud fuel s h = None.
Proof.
  revert s h. induction fuel as [|fuel IH]; intros s h E N; [reflexivity|].
  simpl. rewrite N. unfold scheduler_delay, _timer_tick. rewrite E.
  destruct (UARTDriver_timer_tick (base s) (delay 1 h)) as [u h1].
  apply IH; destruct s; assumption.
Qed.

(** X12.  In external mode the baud rate request is never served: ticks
    go to the hardware UART, which cannot see the request.  So a [begin]
    on a driver that is in external mode, when the hardware UART fails its
    initialised check this time, falls through to the packet protocol and
    never returns. *)
Theorem X12_begin_after_external_mode (fuel : nat) (b rxS txS : Z)
  (s : RPIOUARTDriver) (h : HAL) :
  _external s = true ->
  hardware_uart_ready b rxS txS s h = false ->
  begin fuel b rxS txS s h = None.
Proof.
  intros E R.
  assert (V : exists s0 h0, _external s0 = true
                /\ begin fuel b rxS txS s h = begin_virtual fuel b rxS txS s0 h0).
  { unfold begin, hardware_uart_ready in *.
    destruct (device_path (base s)); [|eauto].
    destruct (UARTDriver_begin b rxS txS (base s) h) as [u h0]. simpl in R.
    rewrite R. exists (with_base u s), h0. auto. }
  destruct V as (s0 & h0 & E0 & ->).
  unfold begin_virtual. cbv zeta.
  destruct (wait_while _ fuel (on_base _ s0) h0) as [[s2 h2]|] eqn:W1;
    [|reflexivity].
  apply (wait_while_inv (fun s1 _ => _external s1 = true)) in W1.
  2:{ intros s1 h1 E1 _. unfold scheduler_delay, _timer_tick. rewrite E1.
      destruct (UARTDriver_timer_tick (base s1) (delay 1 h1)). exact E1. }
  2:{ destruct s0 as [[] ]. exact E0. }
  destruct W1 as (E2 & _).
  rewrite wait_need_external; [reflexivity| |reflexivity].
  destruct s2 as [[] ]. exact E2.
Qed.

(** X13.  A tick that finds the bus busy blocks a [begin] that follows it
    directly.  On a board without a hardware UART, a tick of an
    initialised driver that reaches the poll cycle and fails to take the
    semaphore leaves [_in_timer] set.  A [begin] entered in the state that
    tick leaves, before any later tick has run a poll cycle to its end and
    cleared the flag, does not return, whatever its arguments, the world
    it runs in and the number of waits allowed: it clears [_initialised]
    before it waits, so no tick reaches the poll cycle again. *)
Theorem X13_busy_poll_blocks_begin (s : RPIOUARTDriver) (h : HAL)
  (fuel : nat) (b rxS txS : Z) (h2 : HAL) :
  _external s = false ->
  device_path (base s) = None ->
  _need_set_baud s = false ->
  _initialised (base s) = true ->
  RPIOUART_POLL_TIME_INTERVAL <= uint32_t (micros h - _last_update_timestamp s) ->
  hal_sem h (hal_takes h) = false ->
  begin fuel b rxS txS (fst (_timer_tick s h)) h2 = None.
Proof.
  intros E D N I L F.
  assert (T : _timer_tick s h
              = (on_base (set_in_timer true) s, snd (take_nonblocking h))).
  { rewrite timer_tick_virtual by assumption.
    rewrite baud_block_idle by (rewrite N; reflexivity).
    replace (set_need_set_baud false s) with s
      by (destruct s as [u t e n bd]; simpl in N; subst n; reflexivity).
    apply poll_cycle_busy; assumption. }
  rewrite T. apply begin_blocked_by_in_timer; destruct s as [[] ]; simpl in *;
    auto.
Qed.

(** ** What [begin] does on the bus *)


End Transport.

(** * The further properties on a board without a hardware UART *)

Section TransportExamples.

#[local] Existing Instance raspilotio.
#[local] Existing Instance uart_unavailable.

Lemma X1_tick_well_bracketed_witness :
  let s := running 57600 [1; 2; 3] in
  let h := world 20000 sem_free bus_silent in
  _external s = false
  /\ well_bracketed false (rev (events_since h (snd (_timer_tick s h)))) = true
  /\ (In (EvTake false) (events_since h (snd (_timer_tick s h))) ->
      hd_error (events_since h (snd (_timer_tick s h))) = Some (EvTake false)).
Proof.
  cbv zeta. split; [reflexivity|].
  apply (X1_tick_well_bracketed
           (running 57600 [1; 2; 3]) (world 20000 sem_free bus_silent)).
  reflexivity.
Defined.

Lemma X2_tick_frame_witness :
  let s := negotiating 57600 in
  let h := world 20000 sem_free bus_silent in
  let s' := fst (_timer_tick s h) in
  _external s = false
  /\ _external s' = false
  /\ _baudrate s' = _baudrate s
  /\ device_path (base s') = device_path (base s)
  /\ _initialised (base s') = _initialised (base s)
  /\ ByteBuffer.get_size (_readbuf (base s')) = ByteBuffer.get_size (_readbuf (base s))
  /\ ByteBuffer.get_size (_writebuf (base s')) = ByteBuffer.get_size (_writebuf (base s))
  /\ (_need_set_baud s' = true -> _need_set_baud s = true).
Proof.
  cbv zeta. split; [reflexivity|].
  apply (X2_tick_frame (negotiating 57600) (world 20000 sem_free bus_silent)).
  reflexivity.
Defined.

Lemma X3_tick_queue_direction_witness :
  let s := running 57600 [1; 2; 3] in
  let h := world 20000 sem_free (bus_answers uart_answer) in
  let s' := fst (_timer_tick s h) in
  _external s = false
  /\ (exists taken,
        ByteBuffer.bytes (_writebuf (base s))
          = taken ++ ByteBuffer.bytes (_writebuf (base s'))
        /\ Z.of_nat (List.length taken) = drained s s')
  /\ (exists added,
        ByteBuffer.bytes (_readbuf (base s'))
          = ByteBuffer.bytes (_readbuf (base s)) ++ added
        /\ added = appended s s').
Proof.
  cbv zeta. split; [reflexivity|].
  apply (X3_tick_queue_direction
           (running 57600 [1; 2; 3])
           (world 20000 sem_free (bus_answers uart_answer))).
  reflexivity.
Defined.

Lemma three_bytes : Forall (fun b => 0 <= b < 256) [1; 2; 3].
Proof. repeat constructor; lia. Defined.

Lemma X4_outbound_payload_witness :
  let s := running 57600 [1; 2; 3] in
  let h := world 20000 sem_free bus_silent in
  let s' := fst (_timer_tick s h) in
  serviced s h = true
  /\ Forall (fun b => 0 <= b < 256) (ByteBuffer.bytes (_writebuf (base s)))
  /\ exists tx rx taken,
       In (EvTransfer tx rx) (events_since h (snd (_timer_tick s h)))
       /\ count_code tx = Z.lor (Z.of_nat PKT_MAX_REGS) PKT_CODE_SPIUART
       /\ ByteBuffer.bytes (_writebuf (base s))
          = taken ++ ByteBuffer.bytes (_writebuf (base s'))
       /\ offset tx = Z.of_nat (List.length taken)
       /\ bytes_of_regs (regs tx)
          = taken ++ repeat 0 (2 * PKT_MAX_REGS - List.length taken).
Proof.
  cbv zeta. split; [reflexivity|]. split; [exact three_bytes|].
  apply (X4_outbound_payload
           (running 57600 [1; 2; 3]) (world 20000 sem_free bus_silent)).
  - reflexivity.
  - exact three_bytes.
Defined.

Lemma X5_loopback_witness :
  let s := running 57600 [1; 2; 3] in
  let h := world 20000 sem_free (bus_loops_back (spiuart_packet [1; 2; 3] 3)) in
  let s' := fst (_timer_tick s h) in
  let n := drained s s' in
  let taken := firstn (Z.to_nat n) (ByteBuffer.bytes (_writebuf (base s))) in
  let tx := read_packet (spiuart_packet [1; 2; 3] 3) in
  serviced s h = true
  /\ Forall (fun b => 0 <= b < 256) (ByteBuffer.bytes (_writebuf (base s)))
  /\ last_transfer (hal_trace (snd (_timer_tick s h)))
     = Some (tx, spiuart_packet taken n)
  /\ n <= ByteBuffer.space (_readbuf (base s))
  /\ ByteBuffer.bytes (_writebuf (base s))
     = taken ++ ByteBuffer.bytes (_writebuf (base s'))
  /\ ByteBuffer.bytes (_readbuf (base s'))
     = ByteBuffer.bytes (_readbuf (base s)) ++ taken
  /\ ByteBuffer.bytes (_readbuf (base s')) = [1; 2; 3].
Proof.
  cbv zeta. split; [reflexivity|]. split; [exact three_bytes|].
  split; [vm_compute; reflexivity|]. split; [discriminate|].
  split; [|split; [|reflexivity]];
    apply (X5_loopback
             (running 57600 [1; 2; 3])
             (world 20000 sem_free (bus_loops_back (spiuart_packet [1; 2; 3] 3)))
             (read_packet (spiuart_packet [1; 2; 3] 3)));
    try reflexivity; try exact three_bytes; try discriminate;
    vm_compute; reflexivity.
Defined.

Lemma X6_packets_sealed_witness :
  let s := running 57600 [1; 2; 3] in
  let h := world 20000 sem_free bus_silent in
  let tx := spiuart_packet [1; 2; 3] 3 in
  let rx := mkIOPacket 0 0 0 0 (repeat 0 32) in
  _external s = false
  /\ In (EvTransfer tx rx) (events_since h (snd (_timer_tick s h)))
  /\ List.length (regs tx) = PKT_MAX_REGS
  /\ crc tx = crc_packet (set_crc 0 tx).
Proof.
  cbv zeta. split; [reflexivity|]. split; [vm_compute; auto 10|].
  apply (X6_packets_sealed
           (running 57600 [1; 2; 3]) (world 20000 sem_free bus_silent)
           (spiuart_packet [1; 2; 3] 3) (mkIOPacket 0 0 0 0 (repeat 0 32))).
  - reflexivity.
  - vm_compute. auto 10.
Defined.

Lemma X7_baud_packet_round_trip_witness :
  let lo := nth 0 (regs (baud_packet 115200)) 0 in
  let hi := nth 1 (regs (baud_packet 115200)) 0 in
  (2 <= PKT_MAX_REGS)%nat
  /\ 0 <= 115200 < 2 ^ 32
  /\ 0 <= lo < 65536 /\ 0 <= hi < 65536 /\ lo + 65536 * hi = 115200.
Proof.
  cbv zeta. split; [simpl; lia|]. split; [lia|].
  apply (X7_baud_packet_round_trip 115200); [simpl|]; lia.
Defined.

Lemma X8_poll_interval_witness :
  let s := running 57600 [1; 2; 3] in
  let h := world 20000 sem_free bus_silent in
  let h2 := world 25000 sem_free bus_silent in
  let s' := fst (_timer_tick s h) in
  serviced s h = true
  /\ 0 <= hal_clock h2 - hal_clock (snd (_timer_tick s h))
       < RPIOUART_POLL_TIME_INTERVAL
  /\ serviced s' h2 = false /\ _timer_tick s' h2 = (s', h2).
Proof.
  cbv zeta. split; [reflexivity|]. split; [vm_compute; split; discriminate || reflexivity|].
  apply (X8_poll_interval
           (running 57600 [1; 2; 3]) (world 20000 sem_free bus_silent)
           (world 25000 sem_free bus_silent)).
  - reflexivity.
  - vm_compute. split; discriminate || reflexivity.
Defined.

Lemma X9_begin_waits_witness :
  _external (RPIOUARTDriver_new None) = false
  /\ 57600 <> 0
  /\ (forall k, hal_sem (world 0 sem_busy bus_silent) k = false)
  /\ begin_virtual 50 57600 2048 2048 (RPIOUARTDriver_new None)
                   (world 0 sem_busy bus_silent) = None.
Proof.
  split; [reflexivity|]. split; [discriminate|].
  split; [intros k; reflexivity|].
  apply (X9_begin_waits_for_the_bus 50 57600 2048 2048 (RPIOUARTDriver_new None)
           (world 0 sem_busy bus_silent)).
  - reflexivity.
  - discriminate.
  - intros k. reflexivity.
Defined.

Lemma two_busy_attempts :
  forall i, (i < 2)%nat ->
    hal_sem (world 0 (sem_free_from 2) bus_silent)
            (hal_takes (world 0 (sem_free_from 2) bus_silent) + i) = false.
Proof. intros [|[|i]] L; [reflexivity|reflexivity|lia]. Defined.

Lemma X10_begin_returns_witness :
  let s := RPIOUARTDriver_new None in
  let h := world 0 (sem_free_from 2) bus_silent in
  _external s = false
  /\ _in_timer (base s) = false
  /\ 57600 <> 0
  /\ (forall i, (i < 2)%nat -> hal_sem h (hal_takes h + i) = false)
  /\ hal_sem h (hal_takes h + 2) = true
  /\ exists s' h',
       begin_virtual 4 57600 2048 2048 s h = Some (s', h')
       /\ _initialised (base s') = true
       /\ _need_set_baud s' = false
       /\ _baudrate s' = 57600
       /\ hal_takes h' = 3%nat
       /\ hal_xfers h' = 1%nat
       /\ hal_clock h' = 4000.
Proof.
  cbv zeta. split; [reflexivity|]. split; [reflexivity|].
  split; [discriminate|]. split; [exact two_busy_attempts|].
  split; [reflexivity|].
  apply (X10_begin_returns_with_the_bus 2 0 57600 2048 2048
           (RPIOUARTDriver_new None) (world 0 (sem_free_from 2) bus_silent)).
  - reflexivity.
  - reflexivity.
  - discriminate.
  - exact two_busy_attempts.
  - reflexivity.
Defined.

Lemma X11_begin_zero_baud_witness :
  let s := RPIOUARTDriver_new None in
  let h := world 0 sem_busy bus_silent in
  _external s = false
  /\ _in_timer (base s) = false
  /\ exists s',
       begin_virtual 2 0 2048 2048 s h = Some (s', delay 1 h)
       /\ _initialised (base s') = true
       /\ _need_set_baud s' = false
       /\ _baudrate s' = 0.
Proof.
  cbv zeta. split; [reflexivity|]. split; [reflexivity|].
  apply (X11_begin_zero_baud 0 2048 2048 (RPIOUARTDriver_new None)
           (world 0 sem_busy bus_silent)); reflexivity.
Defined.

Lemma X13_busy_poll_blocks_begin_witness :
  let s := running 57600 [] in
  let h := world 20000 sem_busy bus_silent in
  _external s = false
  /\ device_path (base s) = None
  /\ _need_set_baud s = false
  /\ _initialised (base s) = true
  /\ RPIOUART_POLL_TIME_INTERVAL <= uint32_t (micros h - _last_update_timestamp s)
  /\ hal_sem h (hal_takes h) = false
  /\ begin 1000 115200 2048 2048 (fst (_timer_tick s h))
           (world 30000 sem_free bus_silent) = None.
Proof.
  cbv zeta. repeat (split; [reflexivity || discriminate|]).
  apply (X13_busy_poll_blocks_begin (running 57600 [])
           (world 20000 sem_busy bus_silent) 1000 115200 2048 2048
           (world 30000 sem_free bus_silent));
    reflexivity || discriminate.
Defined.

(** The flag does not stay set for ever: a later tick that gets the
    semaphore runs the poll cycle to its end and clears it, and a [begin]
    entered after that returns. *)
Example serviced_tick_unblocks_begin :
  let s1 := fst (_timer_tick (running 57600 []) (world 20000 sem_busy bus_silent)) in
  let s2 := fst (_timer_tick s1 (world 40000 sem_free bus_silent)) in
  _in_timer (base s1) = true
  /\ _in_timer (base s2) = false
  /\ exists s' h',
       begin 2 115200 2048 2048 s2 (world 41000 sem_free bus_silent)
         = Some (s', h')
       /\ _baudrate s' = 115200.
Proof.
  cbv zeta. split; [reflexivity|]. split; [reflexivity|].
  eexists _, _. split; [vm_compute; reflexivity|reflexivity].
Qed.


End TransportExamples.

(** * A hardware UART that goes away *)

Section Unplugged.

#[local] Existing Instance raspilotio.
#[local] Existing Instance uart_unplugged.

(** The first [begin] finds the device and enters external mode; the
    second, after the device has gone, never returns. *)
Lemma X12_begin_after_external_mode_witness :
  let s0 := RPIOUARTDriver_new (Some "/dev/ttyAMA0"%string) in
  exists s,
    begin 0 57600 2048 2048 s0 (world 0 sem_free bus_silent)
      = Some (s, world 0 sem_free bus_silent)
    /\ _external s = true
    /\ hardware_uart_ready 57600 2048 2048 s (world 2000000 sem_free bus_silent)
       = false
    /\ begin 1000 57600 2048 2048 s (world 2000000 sem_free bus_silent) = None.
Proof.
  cbv zeta. eexists. split; [vm_compute; reflexivity|].
  split; [reflexivity|]. split; [reflexivity|].
  apply X12_begin_after_external_mode; reflexivity.
Defined.

End Unplugged.

(** * Properties of the airspeed front end *)

Section Airspeed.

Context `{AP_Airspeed.float_ops}.

(** ** One read while a calibration is under way *)

Lemma uint32_t_range (z : Z) : 0 <= uint32_t z < 2 ^ 32.
Proof. unfold uint32_t. apply Z.mod_pos_bound. lia. Qed.

(** What [get_pressure] may change: the health flag, and the board by one
    consultation of a pressure backend at most. *)
Lemma get_pressure_frame (a : AP_Airspeed.t) (b : AP_Airspeed.Board) :
  let a1 := fst (snd (AP_Airspeed.get_pressure a b)) in
  let b1 := snd (snd (AP_Airspeed.get_pressure a b)) in
  a1 = AP_Airspeed.set_healthy (AP_Airspeed._healthy a1) a
  /\ (exists l, AP_Airspeed.log b1 = l ++ AP_Airspeed.log b
       /\ (l = [] \/ l = [AP_Airspeed.EvAnalog] \/ l = [AP_Airspeed.EvDigital])).
Proof.
  destruct a. unfold AP_Airspeed.get_pressure. simpl.
  destruct (_ =? 0); simpl; [split; [reflexivity|exists []; auto]|].
  destruct _hil_set; simpl; [split; [reflexivity|exists []; auto]|].
  destruct (_ =? AP_Airspeed.AP_AIRSPEED_I2C_PIN); simpl.
  - destruct (AP_Airspeed.digital_at b (AP_Airspeed.calls b)) as [ok p]. simpl.
    split; [reflexivity|]. exists [AP_Airspeed.EvDigital]. auto.
  - destruct (AP_Airspeed.analog_at b (AP_Airspeed.calls b)) as [ok p]. simpl.
    split; [reflexivity|]. exists [AP_Airspeed.EvAnalog]. auto.
Qed.

(** A read that does not end the calibration: the reading is counted, a
    healthy one is summed, nothing is reported and the offset stays. *)
Lemma read_counted (a : AP_Airspeed.t) (b : AP_Airspeed.Board) :
  AP_Airspeed._enable a <> 0 ->
  AP_Airspeed.calibrating a = true ->
  AP_Airspeed.read_count (AP_Airspeed._cal a) <= 10 ->
  let a' := fst (AP_Airspeed.read a b) in
  let b' := snd (AP_Airspeed.read a b) in
  AP_Airspeed._enable a' = AP_Airspeed._enable a
  /\ AP_Airspeed._hil_set a' = AP_Airspeed._hil_set a
  /\ AP_Airspeed._offset a' = AP_Airspeed._offset a
  /\ AP_Airspeed.start_ms (AP_Airspeed._cal a')
     = AP_Airspeed.start_ms (AP_Airspeed._cal a)
  /\ AP_Airspeed.read_count (AP_Airspeed._cal a')
     = AP_Airspeed.read_count (AP_Airspeed._cal a) + 1
  /\ AP_Airspeed.count (AP_Airspeed._cal a)
     <= AP_Airspeed.count (AP_Airspeed._cal a')
     <= AP_Airspeed.count (AP_Airspeed._cal a) + 1
  /\ (forall e, In e (AP_Airspeed.log b') -> AP_Airspeed.reported e = true ->
        In e (AP_Airspeed.log b)).
Proof.
  destruct a as [en off ra pin tube skip hil hp he lp rw asp cp lu [st cn sm rc]].
  unfold AP_Airspeed.calibrating. simpl. intros E C R.
  apply Z.eqb_neq in E. apply negb_true_iff in C.
  assert (T : (10 <? rc) = false) by (apply Z.ltb_ge; lia).
  unfold AP_Airspeed.read, AP_Airspeed.get_pressure,
    AP_Airspeed.update_calibration. simpl. rewrite E.
  destruct hil; simpl.
  - rewrite C. simpl. rewrite T, andb_false_r. simpl.
    destruct (tube =? _); [|destruct (tube =? _)]; simpl;
      repeat split; try lia; auto.
  - destruct (pin =? AP_Airspeed.AP_AIRSPEED_I2C_PIN); simpl.
    + destruct (AP_Airspeed.digital_at b (AP_Airspeed.calls b)) as [ok p].
      simpl. rewrite C. simpl. rewrite T, andb_false_r. simpl.
      destruct ok; simpl;
        (destruct (tube =? _); [|destruct (tube =? _)]); simpl;
        repeat split; try lia;
        intros e [X|X] Y; auto; subst e; discriminate Y.
    + destruct (AP_Airspeed.analog_at b (AP_Airspeed.calls b)) as [ok p].
      simpl. rewrite C. simpl. rewrite T, andb_false_r. simpl.
      destruct ok; simpl;
        (destruct (tube =? _); [|destruct (tube =? _)]); simpl;
        repeat split; try lia;
        intros e [X|X] Y; auto; subst e; discriminate Y.
Qed.

Lemma reads_counted (n : nat) (a : AP_Airspeed.t) (b : AP_Airspeed.Board) :
  AP_Airspeed._enable a <> 0 ->
  AP_Airspeed.calibrating a = true ->
  AP_Airspeed.read_count (AP_Airspeed._cal a) + Z.of_nat n <= 11 ->
  let a' := fst (AP_Airspeed.reads n a b) in
  let b' := snd (AP_Airspeed.reads n a b) in
  AP_Airspeed.calibrating a' = true
  /\ AP_Airspeed._offset a' = AP_Airspeed._offset a
  /\ AP_Airspeed.read_count (AP_Airspeed._cal a')
     = AP_Airspeed.read_count (AP_Airspeed._cal a) + Z.of_nat n
  /\ AP_Airspeed.count (AP_Airspeed._cal a)
     <= AP_Airspeed.count (AP_Airspeed._cal a')
     <= AP_Airspeed.count (AP_Airspeed._cal a) + Z.of_nat n
  /\ (forall e, In e (AP_Airspeed.log b') -> AP_Airspeed.reported e = true ->
        In e (AP_Airspeed.log b)).
Proof.
  revert a b. induction n as [|n IH]; intros a b E C R; cbv zeta.
  - simpl. repeat split; try lia; auto.
  - cbn [AP_Airspeed.reads].
    destruct (read_counted a b E C ltac:(lia)) as (E1 & _ & O1 & S1 & R1 & C1 & L1).
    destruct (AP_Airspeed.read a b) as [a1 b1]. cbn [fst snd] in *.
    assert (C' : AP_Airspeed.calibrating a1 = true)
      by (unfold AP_Airspeed.calibrating in *; rewrite S1; exact C).
    destruct (IH a1 b1) as (Cn & On & Rn & Kn & Ln);
      [congruence|exact C'|lia|].
    repeat split; try congruence; try lia. auto.
Qed.

Lemma calibrate_started (in_startup : bool) (a : AP_Airspeed.t)
  (b : AP_Airspeed.Board) :
  AP_Airspeed._enable a <> 0 ->
  in_startup && negb (AP_Airspeed._skip_cal a =? 0) = false ->
  let a' := fst (AP_Airspeed.calibrate in_startup a b) in
  let b1 := snd (snd (AP_Airspeed.get_pressure a b)) in
  let now := uint32_t (AP_Airspeed.millis_at b (AP_Airspeed.calls b1)) in
  AP_Airspeed._cal a' = AP_Airspeed.mkCal now 0 (AP_Airspeed.f_of_Z 0) 0
  /\ AP_Airspeed._enable a' = AP_Airspeed._enable a
  /\ AP_Airspeed._offset a' = AP_Airspeed._offset a
  /\ (forall e, In e (AP_Airspeed.log (snd (AP_Airspeed.calibrate in_startup a b))) ->
        AP_Airspeed.reported e = true -> In e (AP_Airspeed.log b)).
Proof.
  destruct a as [en off ra pin tube skip hil hp he lp rw asp cp lu c].
  simpl. intros E S. apply Z.eqb_neq in E.
  unfold AP_Airspeed.calibrate, AP_Airspeed.get_pressure. simpl.
  rewrite E, S. destruct hil; simpl; [repeat split; auto|].
  destruct (pin =? AP_Airspeed.AP_AIRSPEED_I2C_PIN); simpl.
  - destruct (AP_Airspeed.digital_at b (AP_Airspeed.calls b)) as [ok p]. simpl.
    repeat split. intros e [X|X] Y; auto; subst e; discriminate Y.
  - destruct (AP_Airspeed.analog_at b (AP_Airspeed.calls b)) as [ok p]. simpl.
    repeat split. intros e [X|X] Y; auto; subst e; discriminate Y.
Qed.

(** ** Calibration *)

(** X15.  [calibrate] and the clock.  On an enabled sensor whose
    calibration is not skipped, [calibrate] clears the counters and the
    sum and takes the millisecond clock as the start; since a start of zero
    also means that no calibration is under way, a calibration is under way
    afterwards exactly when the clock did not read zero. *)
Theorem X15_calibrate_starts (in_startup : bool) (a : AP_Airspeed.t)
  (b : AP_Airspeed.Board) :
  AP_Airspeed._enable a <> 0 ->
  in_startup && negb (AP_Airspeed._skip_cal a =? 0) = false ->
  let a' := fst (AP_Airspeed.calibrate in_startup a b) in
  let b1 := snd (snd (AP_Airspeed.get_pressure a b)) in
  let now := uint32_t (AP_Airspeed.millis_at b (AP_Airspeed.calls b1)) in
  AP_Airspeed._cal a' = AP_Airspeed.mkCal now 0 (AP_Airspeed.f_of_Z 0) 0
  /\ AP_Airspeed._offset a' = AP_Airspeed._offset a
  /\ (AP_Airspeed.calibrating a' = true <-> now <> 0).
Proof.
  intros E S. destruct (calibrate_started in_startup a b E S) as (C & _ & O & _).
  cbv zeta in *. split; [exact C|]. split; [exact O|].
  unfold AP_Airspeed.calibrating. rewrite C. simpl.
  rewrite negb_true_iff. apply Z.eqb_neq.
Qed.

(** X16.  A calibration takes more than ten reads.  After [calibrate] has
    started a calibration, the first eleven reads never end it, whatever
    the clock and the sensors say: after [n] of them, [n] readings are
    counted, at most [n] of them as healthy, the offset is what it was and
    nothing has been reported or saved. *)
Theorem X16_calibration_needs_reads (in_startup : bool) (n : nat)
  (a : AP_Airspeed.t) (b : AP_Airspeed.Board) :
  AP_Airspeed._enable a <> 0 ->
  in_startup && negb (AP_Airspeed._skip_cal a =? 0) = false ->
  AP_Airspeed.calibrating (fst (AP_Airspeed.calibrate in_startup a b)) = true ->
  (n <= 11)%nat ->
  let a0 := fst (AP_Airspeed.calibrate in_startup a b) in
  let b0 := snd (AP_Airspeed.calibrate in_startup a b) in
  let a' := fst (AP_Airspeed.reads n a0 b0) in
  let b' := snd (AP_Airspeed.reads n a0 b0) in
  AP_Airspeed.calibrating a' = true
  /\ AP_Airspeed.read_count (AP_Airspeed._cal a') = Z.of_nat n
  /\ 0 <= AP_Airspeed.count (AP_Airspeed._cal a') <= Z.of_nat n
  /\ AP_Airspeed._offset a' = AP_Airspeed._offset a
  /\ (forall e, In e (AP_Airspeed.log b') -> AP_Airspeed.reported e = true ->
        In e (AP_Airspeed.log b)).
Proof.
  intros E S C N. cbv zeta.
  destruct (calibrate_started in_startup a b E S) as (Cal & E0 & O0 & L0).
  cbv zeta in *.
  set (a0 := fst (AP_Airspeed.calibrate in_startup a b)) in *.
  set (b0 := snd (AP_Airspeed.calibrate in_startup a b)) in *.
  destruct (reads_counted n a0 b0) as (Cn & On & Rn & Kn & Ln).
  - congruence.
  - exact C.
  - rewrite Cal. simpl. lia.
  - rewrite Cal in Rn, Kn. simpl in Rn, Kn.
    repeat split; try assumption; try lia; try congruence. auto.
Qed.

Ltac calibration_ended :=
  split; [reflexivity|]; split; [reflexivity|];
  split; intros ?; try contradiction;
  repeat split; simpl; auto;
  try (let v := fresh "v" in let X := fresh "X" in
       intros v X; repeat (destruct X as [X|X]; [discriminate X|]); exact X).

(** X17.  The read that ends a calibration.  On an enabled sensor with a
    calibration under way, more than ten readings counted and the clock a
    second or more past the start, a read ends the calibration and does
    not count its own reading.  With no healthy reading counted it reports
    the sensor unhealthy and keeps the offset; otherwise it saves the sum
    over the count as the new offset, and the pressure of this very read
    is already corrected with it. *)
Theorem X17_calibration_ends (a : AP_Airspeed.t) (b : AP_Airspeed.Board) :
  AP_Airspeed._enable a <> 0 ->
  AP_Airspeed.calibrating a = true ->
  10 < AP_Airspeed.read_count (AP_Airspeed._cal a) ->
  let raw := fst (AP_Airspeed.get_pressure a b) in
  let b1 := snd (snd (AP_Airspeed.get_pressure a b)) in
  1000 <= uint32_t (uint32_t (AP_Airspeed.millis_at b (AP_Airspeed.calls b1))
                    - AP_Airspeed.start_ms (AP_Airspeed._cal a)) ->
  let a' := fst (AP_Airspeed.read a b) in
  let b' := snd (AP_Airspeed.read a b) in
  let c := AP_Airspeed._cal a in
  AP_Airspeed._cal a'
    = AP_Airspeed.mkCal 0 (AP_Airspeed.count c) (AP_Airspeed.sum c)
                        (AP_Airspeed.read_count c)
  /\ AP_Airspeed._corrected_pressure a'
     = AP_Airspeed.f_sub raw (AP_Airspeed._offset a')
  /\ (AP_Airspeed.count c = 0 ->
      AP_Airspeed._offset a' = AP_Airspeed._offset a
      /\ In (AP_Airspeed.EvStatusText "Airspeed sensor unhealthy")
            (AP_Airspeed.log b')
      /\ forall v, In (AP_Airspeed.EvSaveOffset v) (AP_Airspeed.log b') ->
                   In (AP_Airspeed.EvSaveOffset v) (AP_Airspeed.log b))
  /\ (AP_Airspeed.count c <> 0 ->
      let v := AP_Airspeed.f_div (AP_Airspeed.sum c)
                 (AP_Airspeed.f_of_Z (AP_Airspeed.count c)) in
      AP_Airspeed._offset a' = v
      /\ In (AP_Airspeed.EvSaveOffset v) (AP_Airspeed.log b')
      /\ In (AP_Airspeed.EvStatusText "Airspeed sensor calibrated")
            (AP_Airspeed.log b')).
Proof.
  destruct a as [en off ra pin tube skip hil hp he lp rw asp cp lu [st cn sm rc]].
  unfold AP_Airspeed.calibrating. simpl. intros E C R.
  apply Z.eqb_neq in E. apply negb_true_iff in C. apply Z.ltb_lt in R.
  unfold AP_Airspeed.read, AP_Airspeed.get_pressure,
    AP_Airspeed.update_calibration. simpl. rewrite E.
  destruct hil; simpl.
  - intros T. apply Z.leb_le in T. rewrite C. simpl. rewrite T, R. simpl.
    destruct (Z.eqb_spec cn 0) as [Z|Z]; simpl;
      (destruct (tube =? _); [|destruct (tube =? _)]); simpl;
      calibration_ended.
  - destruct (pin =? AP_Airspeed.AP_AIRSPEED_I2C_PIN); simpl.
    + destruct (AP_Airspeed.digital_at b (AP_Airspeed.calls b)) as [ok p].
      simpl. intros T. apply Z.leb_le in T. rewrite C. simpl. rewrite T, R.
      simpl.
      destruct (Z.eqb_spec cn 0) as [Z|Z]; simpl;
        (destruct (tube =? _); [|destruct (tube =? _)]); simpl;
        calibration_ended.
    + destruct (AP_Airspeed.analog_at b (AP_Airspeed.calls b)) as [ok p].
      simpl. intros T. apply Z.leb_le in T. rewrite C. simpl. rewrite T, R.
      simpl.
      destruct (Z.eqb_spec cn 0) as [Z|Z]; simpl;
        (destruct (tube =? _); [|destruct (tube =? _)]); simpl;
        calibration_ended.
Qed.

(** ** Simulation and health *)



(** X19.  A read is never healthier than its sensor.  On an enabled
    sensor that is not simulated, a read consults exactly one pressure
    backend, the digital one on pin 65 and the analog one on any other
    pin, and the sensor is healthy afterwards only if that backend
    reported success. *)
Theorem X19_read_health (a : AP_Airspeed.t) (b : AP_Airspeed.Board) :
  AP_Airspeed._enable a <> 0 ->
  AP_Airspeed._hil_set a = false ->
  let digital := AP_Airspeed._pin a =? AP_Airspeed.AP_AIRSPEED_I2C_PIN in
  let reading :=
    if digital then AP_Airspeed.digital_at b (AP_Airspeed.calls b)
    else AP_Airspeed.analog_at b (AP_Airspeed.calls b) in
  let consulted :=
    if digital then AP_Airspeed.EvDigital else AP_Airspeed.EvAnalog in
  (AP_Airspeed._healthy (fst (AP_Airspeed.read a b)) = true -> fst reading = true)
  /\ exists later,
       AP_Airspeed.log (snd (AP_Airspeed.read a b))
         = later ++ consulted :: AP_Airspeed.log b
       /\ forall e, In e later -> AP_Airspeed.reported e = true.
Proof.
  destruct a as [en off ra pin tube skip hil hp he lp rw asp cp lu [st cn sm rc]].
  simpl. intros E ->. apply Z.eqb_neq in E.
  unfold AP_Airspeed.read, AP_Airspeed.get_pressure,
    AP_Airspeed.update_calibration. simpl. rewrite E.
  destruct (pin =? AP_Airspeed.AP_AIRSPEED_I2C_PIN); simpl.
  - destruct (AP_Airspeed.digital_at b (AP_Airspeed.calls b)) as [ok p]. simpl.
    destruct (st =? 0); simpl;
      [|destruct (_ && _); simpl; [destruct (cn =? 0); simpl|]];
      (destruct (tube =? _); [|destruct (tube =? _)]); simpl;
      (split; [destruct ok; simpl; try destruct (AP_Airspeed.f_lt _ _);
               auto; discriminate|]);
      (eexists; split; [try (instantiate (1 := []); reflexivity);
                        try (instantiate (1 := [_]); reflexivity);
                        instantiate (1 := [_; _]); reflexivity|]);
      simpl; intros e X;
      repeat (destruct X as [X|X]; [subst e; reflexivity|]); destruct X.
  - destruct (AP_Airspeed.analog_at b (AP_Airspeed.calls b)) as [ok p]. simpl.
    destruct (st =? 0); simpl;
      [|destruct (_ && _); simpl; [destruct (cn =? 0); simpl|]];
      (destruct (tube =? _); [|destruct (tube =? _)]); simpl;
      (split; [destruct ok; simpl; try destruct (AP_Airspeed.f_lt _ _);
               auto; discriminate|]);
      (eexists; split; [try (instantiate (1 := []); reflexivity);
                        try (instantiate (1 := [_]); reflexivity);
                        instantiate (1 := [_; _]); reflexivity|]);
      simpl; intros e X;
      repeat (destruct X as [X|X]; [subst e; reflexivity|]); destruct X.
Qed.

(** X20.  A disabled sensor is inert.  With ENABLE at zero, any number of
    reads and either kind of [calibrate] change nothing and consult
    nothing, [get_pressure] returns zero and [get_temperature] fails, each
    without touching the board. *)
Theorem X20_disabled_is_inert (n : nat) (in_startup : bool)
  (a : AP_Airspeed.t) (b : AP_Airspeed.Board) :
  AP_Airspeed._enable a = 0 ->
  AP_Airspeed.reads n a b = (a, b)
  /\ AP_Airspeed.calibrate in_startup a b = (a, b)
  /\ AP_Airspeed.get_pressure a b = (AP_Airspeed.f_of_Z 0, (a, b))
  /\ AP_Airspeed.get_temperature a b = (None, b).
Proof.
  intros E. repeat split.
  - induction n as [|n IH]; [reflexivity|].
    cbn [AP_Airspeed.reads]. unfold AP_Airspeed.read at 1. rewrite E. exact IH.
  - unfold AP_Airspeed.calibrate. rewrite E. reflexivity.
  - unfold AP_Airspeed.get_pressure. rewrite E. reflexivity.
  - unfold AP_Airspeed.get_temperature. rewrite E. reflexivity.
Qed.

End Airspeed.

(** * The airspeed front end on the bench *)

Section AirspeedExamples.

#[local] Existing Instance rational_floats.

Lemma X15_calibrate_starts_witness :
  let a := pitot in
  let b := bench 5000 (35 # 1) in
  let a' := fst (AP_Airspeed.calibrate false a b) in
  let b1 := snd (snd (AP_Airspeed.get_pressure a b)) in
  let now := uint32_t (AP_Airspeed.millis_at b (AP_Airspeed.calls b1)) in
  AP_Airspeed._enable a <> 0
  /\ false && negb (AP_Airspeed._skip_cal a =? 0) = false
  /\ AP_Airspeed._cal a' = AP_Airspeed.mkCal now 0 (AP_Airspeed.f_of_Z 0) 0
  /\ AP_Airspeed._offset a' = AP_Airspeed._offset a
  /\ (AP_Airspeed.calibrating a' = true <-> now <> 0).
Proof.
  cbv zeta. split; [discriminate|]. split; [reflexivity|].
  apply (X15_calibrate_starts false pitot (bench 5000 (35 # 1)));
    [discriminate|reflexivity].
Defined.

Lemma X16_calibration_needs_reads_witness :
  let a := pitot in
  let b := bench 5000 (35 # 1) in
  let a0 := fst (AP_Airspeed.calibrate false a b) in
  let b0 := snd (AP_Airspeed.calibrate false a b) in
  let a' := fst (AP_Airspeed.reads 11 a0 b0) in
  let b' := snd (AP_Airspeed.reads 11 a0 b0) in
  AP_Airspeed._enable a <> 0
  /\ false && negb (AP_Airspeed._skip_cal a =? 0) = false
  /\ AP_Airspeed.calibrating a0 = true
  /\ (11 <= 11)%nat
  /\ AP_Airspeed.calibrating a' = true
  /\ AP_Airspeed.read_count (AP_Airspeed._cal a') = Z.of_nat 11
  /\ 0 <= AP_Airspeed.count (AP_Airspeed._cal a') <= Z.of_nat 11
  /\ AP_Airspeed._offset a' = AP_Airspeed._offset a
  /\ (forall e, In e (AP_Airspeed.log b') -> AP_Airspeed.reported e = true ->
        In e (AP_Airspeed.log b)).
Proof.
  cbv zeta. split; [discriminate|]. split; [reflexivity|].
  split; [reflexivity|]. split; [lia|].
  apply (X16_calibration_needs_reads false 11 pitot (bench 5000 (35 # 1)));
    [discriminate|reflexivity|reflexivity|lia].
Defined.

(** The twelfth read after [calibrate] on the bench: eleven healthy
    readings of 35 are in, three and a half seconds have passed. *)
Lemma X17_calibration_ends_witness :
  let a0 := fst (AP_Airspeed.calibrate false pitot (bench 5000 (35 # 1))) in
  let b0 := snd (AP_Airspeed.calibrate false pitot (bench 5000 (35 # 1))) in
  let a := fst (AP_Airspeed.reads 11 a0 b0) in
  let b := snd (AP_Airspeed.reads 11 a0 b0) in
  let raw := fst (AP_Airspeed.get_pressure a b) in
  let b1 := snd (snd (AP_Airspeed.get_pressure a b)) in
  let a' := fst (AP_Airspeed.read a b) in
  let b' := snd (AP_Airspeed.read a b) in
  let c := AP_Airspeed._cal a in
  AP_Airspeed._enable a <> 0
  /\ AP_Airspeed.calibrating a = true
  /\ 10 < AP_Airspeed.read_count (AP_Airspeed._cal a)
  /\ 1000 <= uint32_t (uint32_t (AP_Airspeed.millis_at b (AP_Airspeed.calls b1))
                       - AP_Airspeed.start_ms (AP_Airspeed._cal a))
  /\ AP_Airspeed.count c = 11
  /\ AP_Airspeed._cal a'
     = AP_Airspeed.mkCal 0 (AP_Airspeed.count c) (AP_Airspeed.sum c)
                         (AP_Airspeed.read_count c)
  /\ AP_Airspeed._corrected_pressure a'
     = AP_Airspeed.f_sub raw (AP_Airspeed._offset a')
  /\ (AP_Airspeed.count c = 0 ->
      AP_Airspeed._offset a' = AP_Airspeed._offset a
      /\ In (AP_Airspeed.EvStatusText "Airspeed sensor unhealthy")
            (AP_Airspeed.log b')
      /\ forall v, In (AP_Airspeed.EvSaveOffset v) (AP_Airspeed.log b') ->
                   In (AP_Airspeed.EvSaveOffset v) (AP_Airspeed.log b))
  /\ (AP_Airspeed.count c <> 0 ->
      let v := AP_Airspeed.f_div (AP_Airspeed.sum c)
                 (AP_Airspeed.f_of_Z (AP_Airspeed.count c)) in
      AP_Airspeed._offset a' = v
      /\ In (AP_Airspeed.EvSaveOffset v) (AP_Airspeed.log b')
      /\ In (AP_Airspeed.EvStatusText "Airspeed sensor calibrated")
            (AP_Airspeed.log b')).
Proof.
  cbv zeta. split; [vm_compute; discriminate|]. split; [vm_compute; reflexivity|].
  split; [vm_compute; reflexivity|]. split; [vm_compute; discriminate|].
  split; [vm_compute; reflexivity|].
  apply (X17_calibration_ends
           (fst (AP_Airspeed.reads 11
                   (fst (AP_Airspeed.calibrate false pitot (bench 5000 (35 # 1))))
                   (snd (AP_Airspeed.calibrate false pitot (bench 5000 (35 # 1))))))
           (snd (AP_Airspeed.reads 11
                   (fst (AP_Airspeed.calibrate false pitot (bench 5000 (35 # 1))))
                   (snd (AP_Airspeed.calibrate false pitot (bench 5000 (35 # 1))))))).
  - vm_compute. discriminate.
  - vm_compute. reflexivity.
  - vm_compute. reflexivity.
  - vm_compute. discriminate.
Defined.


Lemma X19_read_health_witness :
  let a := pitot in
  let b := bench 5000 (35 # 1) in
  let digital := AP_Airspeed._pin a =? AP_Airspeed.AP_AIRSPEED_I2C_PIN in
  let reading :=
    if digital then AP_Airspeed.digital_at b (AP_Airspeed.calls b)
    else AP_Airspeed.analog_at b (AP_Airspeed.calls b) in
  let consulted :=
    if digital then AP_Airspeed.EvDigital else AP_Airspeed.EvAnalog in
  AP_Airspeed._enable a <> 0
  /\ AP_Airspeed._hil_set a = false
  /\ (AP_Airspeed._healthy (fst (AP_Airspeed.read a b)) = true -> fst reading = true)
  /\ exists later,
       AP_Airspeed.log (snd (AP_Airspeed.read a b))
         = later ++ consulted :: AP_Airspeed.log b
       /\ forall e, In e later -> AP_Airspeed.reported e = true.
Proof.
  cbv zeta. split; [discriminate|]. split; [reflexivity|].
  apply (X19_read_health pitot (bench 5000 (35 # 1)));
    [discriminate|reflexivity].
Defined.

Lemma X20_disabled_is_inert_witness :
  let a := pitot_disabled in
  let b := bench 5000 (35 # 1) in
  AP_Airspeed._enable a = 0
  /\ AP_Airspeed.reads 7 a b = (a, b)
  /\ AP_Airspeed.calibrate false a b = (a, b)
  /\ AP_Airspeed.get_pressure a b = (AP_Airspeed.f_of_Z 0, (a, b))
  /\ AP_Airspeed.get_temperature a b = (None, b).
Proof.
  cbv zeta. split; [reflexivity|].
  apply (X20_disabled_is_inert 7 false pitot_disabled (bench 5000 (35 # 1))).
  reflexivity.
Defined.

End AirspeedExamples.
